(** * Sales-analysis backend: the CSV-to-aggregate computation of [main.py]

    A shallow embedding of [to_float], [parse_date], the [/api/analysis]
    endpoint [get_analysis] and the probe [test_database], with the
    properties its specification states and further properties of the code.

    Python values are modelled as the interpreter has them:
    - [float] is IEEE-754 binary64, here Rocq's primitive [float] with the
      operations of [PrimFloat]; conversions that CPython performs with
      correct rounding ([float(str)], [int / int], [round(x, 2)]) go through
      [SpecFloat]'s rounding on arbitrary-precision integers;
    - [int] is [Z];
    - [str] is [string], one character per byte: the model is that of
      ASCII text, on which [str.strip], the [\d] of a regular expression
      and slicing act as written here (on other text Python also strips
      Unicode whitespace, reads Unicode digits and slices characters, not
      bytes);
    - [dict] is an association list in insertion order, because the order
      of [dict.items()] decides how ties are broken by [sorted];
    - a raised exception is the left injection of a small error monad. *)

From Stdlib Require Import ZArith List Bool Ascii String Lia Permutation Sorted.
From Stdlib Require Import Floats.
Import ListNotations.

Set Warnings "-inexact-float".

Local Open Scope string_scope.
Local Open Scope Z_scope.

(* ------------------------------------------------------------------ *)
(** ** Exceptions *)

Inductive exn : Type :=
| ValueError
| OverflowError
| ZeroDivisionError
| KeyError (key : string)
| CsvError
| RequestException
| HTTPException (status_code : Z) (detail : string).

(** [result A]: the outcome of a Python expression of type [A]. *)
Inductive result (A : Type) : Type :=
| Ok (a : A)
| Raise (e : exn).
Arguments Ok {A} a.
Arguments Raise {A} e.

Definition bind {A B} (r : result A) (k : A -> result B) : result B :=
  match r with
  | Ok a => k a
  | Raise e => Raise e
  end.

Notation "x <- r ;; k" := (bind r (fun x => k))
  (at level 61, r at next level, right associativity).

Fixpoint mapM {A B} (f : A -> result B) (l : list A) : result (list B) :=
  match l with
  | [] => Ok []
  | a :: l' => b <- f a ;; bs <- mapM f l' ;; Ok (b :: bs)
  end.

(* ------------------------------------------------------------------ *)
(** ** Numbers *)

Module Num.

(** Correctly rounded (nearest, ties to even) binary64 value of the
    rational [(-1)^neg * m / d], for [d > 0].  This is the rounding CPython
    applies in [float(str)], in [int / int] and in the last step of
    [round(x, n)]; a quotient beyond the largest finite float gives an
    infinity. *)
Definition SF_of_ratio (neg : bool) (m d : positive) : spec_float :=
  let '(q, e, l) := SFdiv_core_binary prec emax (Zpos m) 0 (Zpos d) 0 in
  binary_round_aux prec emax neg q e l.

Definition float_of_ratio (neg : bool) (m : Z) (d : positive) : float :=
  match m with
  | Zpos p => SF2Prim (SF_of_ratio neg p d)
  | _ => if neg then (-0)%float else 0%float
  end.

Definition is_finite (x : float) : bool :=
  match Prim2SF x with
  | S754_zero _ | S754_finite _ _ _ => true
  | _ => false
  end.

(** [int(x)] on a float: truncation toward zero; [OverflowError] on an
    infinity, [ValueError] on a NaN. *)
Definition int_of_float (x : float) : result Z :=
  match Prim2SF x with
  | S754_zero _ => Ok 0
  | S754_finite s m e =>
      let a := match e with
               | Zneg k => Z.shiftr (Zpos m) (Zpos k)
               | _ => Z.shiftl (Zpos m) e
               end in
      Ok (if s then - a else a)
  | S754_infinity _ => Raise OverflowError
  | S754_nan => Raise ValueError
  end.

(** [a / b] on two [int]s (true division): the correctly rounded quotient,
    [ZeroDivisionError] when [b = 0], [OverflowError] when the quotient is
    too large for a float. *)
Definition int_truediv (a b : Z) : result float :=
  match b with
  | Z0 => Raise ZeroDivisionError
  | _ =>
      let neg := xorb (a <? 0) (b <? 0) in
      let q := float_of_ratio neg (Z.abs a) (Z.to_pos (Z.abs b)) in
      if is_finite q then Ok q else Raise OverflowError
  end.

(** [x / y] on two floats: [ZeroDivisionError] when [y] is a zero. *)
Definition float_truediv (x y : float) : result float :=
  if (y =? 0)%float then Raise ZeroDivisionError else Ok (x / y)%float.

(** Nearest integer to [n / 2^k], ties to even. *)
Definition round_half_even_shift (n : Z) (k : positive) : Z :=
  let q := Z.shiftr n (Zpos k) in
  let r := n - Z.shiftl q (Zpos k) in
  let half := Z.shiftl 1 (Zpos k - 1) in
  match r ?= half with
  | Lt => q
  | Gt => q + 1
  | Eq => if Z.even q then q else q + 1
  end.

(** [round(x, 2)] on a float: non-finite values round to themselves;
    otherwise the exact binary value is rounded to two decimal places
    (ties to even) and the decimal is converted back to the nearest
    float, keeping the sign. *)
Definition round2 (x : float) : float :=
  match Prim2SF x with
  | S754_finite s m e =>
      let c := match e with
               | Zneg k => round_half_even_shift (Zpos m * 100) k
               | _ => Z.shiftl (Zpos m * 100) e
               end in
      float_of_ratio s c 100
  | _ => x
  end.

End Num.

(* ------------------------------------------------------------------ *)
(** ** Strings *)

Module Str.

Definition code (c : ascii) : Z := Z.of_N (N_of_ascii c).

Definition is_digit (c : ascii) : bool := (48 <=? code c) && (code c <=? 57).

Definition digit_value (c : ascii) : Z := code c - 48.

(** [str.isspace] on ASCII: tab, line feed, vertical tab, form feed,
    carriage return, the four separators 0x1c-0x1f and the space.  Unicode
    whitespace beyond these (U+0085, U+00A0, ...) is outside the model:
    [strip] below is [str.strip] on ASCII text. *)
Definition is_space (c : ascii) : bool :=
  ((9 <=? code c) && (code c <=? 13)) || ((28 <=? code c) && (code c <=? 32)).

Fixpoint lstrip (s : string) : string :=
  match s with
  | String c r => if is_space c then lstrip r else s
  | EmptyString => s
  end.

Fixpoint rstrip (s : string) : string :=
  match s with
  | String c r =>
      match rstrip r with
      | EmptyString => if is_space c then EmptyString else String c EmptyString
      | r' => String c r'
      end
  | EmptyString => EmptyString
  end.

(** [s.strip()] *)
Definition strip (s : string) : string := rstrip (lstrip s).

Fixpoint filter (keep : ascii -> bool) (s : string) : string :=
  match s with
  | String c r => if keep c then String c (filter keep r) else filter keep r
  | EmptyString => EmptyString
  end.

(** Truthiness of a [str]: non-empty. *)
Definition nonempty (s : string) : bool :=
  match s with EmptyString => false | _ => true end.

(** The digits at the front of [s], and what follows them. *)
Fixpoint span_digits (s : string) : list ascii * string :=
  match s with
  | String c r =>
      if is_digit c then let '(ds, t) := span_digits r in (c :: ds, t)
      else ([], s)
  | EmptyString => ([], s)
  end.

(** [int] of a run of decimal digits. *)
Definition digits_value (ds : list ascii) : Z :=
  fold_left (fun acc c => 10 * acc + digit_value c) ds 0.

(** Decimal rendering of [n] with exactly [w] digits (its [w] lowest ones). *)
Fixpoint zero_padded (w : nat) (n : Z) : string :=
  match w with
  | O => EmptyString
  | S w' => zero_padded w' (n / 10) ++ String (ascii_of_N (Z.to_N (48 + n mod 10))) EmptyString
  end.

End Str.

(* ------------------------------------------------------------------ *)
(** ** [to_float] *)

(** [CURRENCY_RE = re.compile(r"[^0-9.\-]")] matches every character that
    is not a digit, a point or a minus sign; [keeps_char] is the
    complement of that class, what [CURRENCY_RE.sub("", s)] leaves. *)
Definition keeps_char (c : ascii) : bool :=
  Str.is_digit c || Ascii.eqb c "." || Ascii.eqb c "-".

Definition CURRENCY_RE_sub (s : string) : string := Str.filter keeps_char s.

(** [float(s)] on a text over the characters [0-9 . -], which is all
    [CURRENCY_RE.sub] leaves: an optional minus sign, then digits with an
    optional point, at least one digit in all; anything else is a
    [ValueError].  The value is the nearest float to the decimal. *)
Definition float_of_str (s : string) : result float :=
  let '(neg, s1) := match s with
                    | String "-" r => (true, r)
                    | _ => (false, s)
                    end in
  let '(ip, s2) := Str.span_digits s1 in
  let '(fp, s3) := match s2 with
                   | String "." r => Str.span_digits r
                   | _ => ([], s2)
                   end in
  match s3, (ip ++ fp)%list with
  | EmptyString, _ :: _ =>
      Ok (Num.float_of_ratio neg (Str.digits_value (ip ++ fp)%list)
            (Z.to_pos (10 ^ Z.of_nat (List.length fp))))
  | _, _ => Raise ValueError
  end.

(** The rows of [csv.DictReader] hold a [str] or [None] under each key, so
    the [isinstance(val, (int, float))] branch is never taken and the
    argument is an [option string]. *)
Definition to_float (val : option string) : result float :=
  match val with
  | None => Ok 0%float
  | Some v =>
      let s := Str.strip v in
      if negb (Str.nonempty s) then Ok 0%float
      else
        let s := CURRENCY_RE_sub s in
        match (if Str.nonempty s then float_of_str s else Ok 0%float) with
        | Raise ValueError => Ok 0%float
        | r => r
        end
  end.

(* ------------------------------------------------------------------ *)
(** ** Dates: [datetime.strptime] and [strftime] for the formats used *)

Module Date.

(** The calendar fields of a [datetime]; the time of day is never read. *)
Record date : Type := mkdate { year : Z; month : Z; day : Z }.

Definition is_leap (y : Z) : bool :=
  ((y mod 4 =? 0) && negb (y mod 100 =? 0)) || (y mod 400 =? 0).

Definition days_in_month (y m : Z) : Z :=
  match m with
  | 2 => if is_leap y then 29 else 28
  | 4 | 6 | 9 | 11 => 30
  | _ => 31
  end.

(** What the [datetime] constructor accepts. *)
Definition valid (y m d : Z) : bool :=
  (1 <=? y) && (y <=? 9999) && (1 <=? m) && (m <=? 12) &&
  (1 <=? d) && (d <=? days_in_month y m).

(** The pieces of a format string. *)
Inductive directive : Type :=
| Dir_Y            (* %Y *)
| Dir_m            (* %m *)
| Dir_d            (* %d *)
| Lit (c : ascii). (* any other character, matched as itself *)

Fixpoint compile (fmt : string) : list directive :=
  match fmt with
  | String "%" (String "Y" r) => Dir_Y :: compile r
  | String "%" (String "m" r) => Dir_m :: compile r
  | String "%" (String "d" r) => Dir_d :: compile r
  | String c r => Lit c :: compile r
  | EmptyString => []
  end.

Definition in_range (lo hi : Z) (c : ascii) : bool :=
  (lo <=? Str.digit_value c) && (Str.digit_value c <=? hi).

(** One alternative of a directive's regular expression: a first
    character, then optionally a second one taken from a digit range. *)
Definition two_chars (c1 : ascii) (lo hi : Z) (s : string) : list (Z * string) :=
  match s with
  | String a (String b r) =>
      if Ascii.eqb a c1 && in_range lo hi b
      then [(if Str.is_digit a then 10 * Str.digit_value a + Str.digit_value b
             else Str.digit_value b, r)]
      else []
  | _ => []
  end.

Definition one_char (lo hi : Z) (s : string) : list (Z * string) :=
  match s with
  | String a r => if in_range lo hi a then [(Str.digit_value a, r)] else []
  | _ => []
  end.

(** The ways a directive matches at the front of [s], in the order the
    regular expression of [_strptime] tries them:
    [%Y] is [\d\d\d\d], [%m] is [1[0-2]|0[1-9]|[1-9]] and
    [%d] is [3[01]|[12]\d|0[1-9]|[1-9]| [1-9]].  The digits are the ASCII
    digits: [\d] also matches other Unicode decimal digits, which are
    outside the model. *)
Definition alternatives (d : directive) (s : string) : list (Z * string) :=
  match d with
  | Dir_Y =>
      match s with
      | String a (String b (String c (String e r))) =>
          if Str.is_digit a && Str.is_digit b && Str.is_digit c && Str.is_digit e
          then [(Str.digits_value [a; b; c; e], r)] else []
      | _ => []
      end
  | Dir_m => two_chars "1" 0 2 s ++ two_chars "0" 1 9 s ++ one_char 1 9 s
  | Dir_d => two_chars "3" 0 1 s ++ two_chars "1" 0 9 s ++ two_chars "2" 0 9 s
             ++ two_chars "0" 1 9 s ++ one_char 1 9 s ++ two_chars " " 1 9 s
  | Lit c =>
      match s with
      | String a r => if Ascii.eqb a c then [(0, r)] else []
      | _ => []
      end
  end%list.

Definition set_field (d : directive) (v : Z) (acc : date) : date :=
  match d with
  | Dir_Y => mkdate v (month acc) (day acc)
  | Dir_m => mkdate (year acc) v (day acc)
  | Dir_d => mkdate (year acc) (month acc) v
  | Lit _ => acc
  end.

(** Every match of the compiled format at the front of [s], backtracking
    in the regular expression's order, with the text left over. *)
Fixpoint matches (fmt : list directive) (s : string) (acc : date)
  : list (date * string) :=
  match fmt with
  | [] => [(acc, s)]
  | d :: fmt' =>
      flat_map (fun '(v, r) => matches fmt' r (set_field d v acc))
               (alternatives d s)
  end.

(** [datetime.strptime(s, fmt)]: the first match of the format's regular
    expression must use the whole text, and the fields must make a date. *)
Definition strptime (s fmt : string) : result date :=
  match matches (compile fmt) s (mkdate 1900 1 1) with
  | (d, EmptyString) :: _ =>
      if valid (year d) (month d) (day d) then Ok d else Raise ValueError
  | _ => Raise ValueError
  end.

(** [d.strftime("%Y-%m")], the year written with four digits.  That is
    what every platform writes from the year 1000 on; below, the C
    library decides whether the year is padded (glibc writes 999-01), so
    properties that depend on the text of a key are stated for years from
    1000 on. *)
Definition strftime_Y_m (d : date) : string :=
  Str.zero_padded 4 (year d) ++ "-" ++ Str.zero_padded 2 (month d).

(** [d.strftime("%b")] in the C locale. *)
Definition strftime_b (d : date) : string :=
  match month d with
  | 1 => "Jan" | 2 => "Feb" | 3 => "Mar" | 4 => "Apr"
  | 5 => "May" | 6 => "Jun" | 7 => "Jul" | 8 => "Aug"
  | 9 => "Sep" | 10 => "Oct" | 11 => "Nov" | _ => "Dec"
  end.

End Date.

(** The four formats of [parse_date], in the order the loop tries them. *)
Definition date_formats : list string :=
  ["%Y-%m-%d"; "%d/%m/%Y"; "%m/%d/%Y"; "%Y/%m/%d"].

(** The loop of [parse_date]: the first format whose [strptime] does not
    raise decides. *)
Fixpoint first_format (s : string) (fmts : list string) : option Date.date :=
  match fmts with
  | [] => None
  | fmt :: rest =>
      match Date.strptime s fmt with
      | Ok d => Some d
      | Raise _ => first_format s rest
      end
  end.

Definition parse_date (val : option string) : option Date.date :=
  match val with
  | None => None
  | Some v =>
      if negb (Str.nonempty v) then None
      else first_format (Str.strip v) date_formats
  end.

(* ------------------------------------------------------------------ *)
(** ** Dictionaries, sets and [sorted] *)

Module Dict.

(** A [dict] with [str] keys, as the list of its items in insertion
    order. *)
Definition dict (V : Type) : Type := list (string * V).

Fixpoint get {V} (d : dict V) (k : string) : option V :=
  match d with
  | [] => None
  | (k', v) :: r => if String.eqb k' k then Some v else get r k
  end.

(** [d.get(k, dflt)] *)
Definition get_default {V} (d : dict V) (k : string) (dflt : V) : V :=
  match get d k with
  | Some v => v
  | None => dflt
  end.

(** [d[k] = v]: an existing key keeps its place, a new one goes last. *)
Fixpoint set {V} (d : dict V) (k : string) (v : V) : dict V :=
  match d with
  | [] => [(k, v)]
  | (k', v') :: r =>
      if String.eqb k' k then (k', v) :: r else (k', v') :: set r k v
  end.

(** [d[k]] *)
Definition index {V} (d : dict V) (k : string) : result V :=
  match get d k with
  | Some v => Ok v
  | None => Raise (KeyError k)
  end.

Definition keys {V} (d : dict V) : list string := map fst d.

End Dict.

(** [s.add(k)] on a [set] of [str], kept as a list without repetition. *)
Definition set_add (s : list string) (k : string) : list string :=
  if existsb (String.eqb k) s then s else (s ++ [k])%list.

(** Python's sort is stable and compares with [<] alone.  On keys that [<]
    orders totally every stable sort returns the same list; it is written
    here as the insertion sort that puts each element before the first
    later one that is not smaller.  When a key is a NaN, [<] is no order
    and what Python's merge sort returns is its own: the order of
    countrySales is stated below for revenues without a NaN only. *)
Fixpoint sort_insert {A} (lt : A -> A -> bool) (x : A) (l : list A) : list A :=
  match l with
  | [] => [x]
  | y :: r => if lt y x then y :: sort_insert lt x r else x :: l
  end.

Definition sorted {A} (lt : A -> A -> bool) (l : list A) : list A :=
  fold_right (sort_insert lt) [] l.

(** [l[-n:]] for [n > 0]: the last [n] elements, all of [l] when it is
    shorter. *)
Definition last_n {A} (n : nat) (l : list A) : list A :=
  skipn (List.length l - n) l.

(** [l[-n]] where the code has checked [len(l) >= n]. *)
Definition nth_from_end {A} (n : nat) (l : list A) : option A :=
  nth_error (rev l) (n - 1).

(* ------------------------------------------------------------------ *)
(** ** The response *)

(** A JSON number of the response: the fallback literal holds [int]s, the
    computed response [float]s and, for the payment counts, [int]s. *)
Inductive pynum : Type :=
| PyInt (z : Z)
| PyFloat (f : float).

Record Kpis : Type := mkKpis {
  totalRevenue : pynum;
  thisMonthRevenue : pynum;
  avgGrowth : pynum;
  avgQtyPerMonth : pynum
}.

Record Response : Type := mkResponse {
  source : string;
  kpis : Kpis;
  revenueTrend : list (string * pynum);      (* month, value *)
  engagementTrend : list (string * pynum);   (* month, value *)
  countrySales : list (string * pynum);      (* name, value *)
  paymentDistribution : list (string * pynum) (* name, value *)
}.

(** The example dataset returned when the sheet cannot be fetched. *)
Definition fallback : Response :=
  {| source := "fallback";
     kpis := {| totalRevenue := PyInt 123456;
                thisMonthRevenue := PyInt 8940;
                avgGrowth := PyFloat 0x1.4cccccccccccdp+3;  (* 10.4 *)
                avgQtyPerMonth := PyInt 245 |};
     revenueTrend := [("Jan", PyInt 22000); ("Feb", PyInt 26000);
                      ("Mar", PyInt 31000); ("Apr", PyInt 28000)];
     engagementTrend := [("Jan", PyInt 18000); ("Feb", PyInt 21500);
                         ("Mar", PyInt 29000)];
     countrySales := [("Country A", PyInt 40); ("Country B", PyInt 25);
                      ("Country C", PyInt 15); ("Country D", PyInt 10);
                      ("Country E", PyInt 10)];
     paymentDistribution := [("UPI / Digital Wallets", PyInt 70);
                             ("Credit Card", PyInt 15);
                             ("Debit Card", PyInt 10); ("Cash", PyInt 5)] |}.

(* ------------------------------------------------------------------ *)
(** ** [get_analysis] *)

(** A row of [csv.DictReader]: column name to cell, a cell being a [str]
    or [None] (a line shorter than the header). *)
Definition Row : Type := Dict.dict (option string).

(** [rrow.get(k, dflt)]; [rrow.get(k)] is [row_get rrow k None]. *)
Definition row_get (rrow : Row) (k : string) (dflt : option string)
  : option string :=
  Dict.get_default rrow k dflt.

(** [v or dflt] on an optional [str]. *)
Definition or_str (v : option string) (dflt : string) : string :=
  match v with
  | Some s => if Str.nonempty s then s else dflt
  | None => dflt
  end.

(** [(rrow.get(k) or "Unknown").strip() or "Unknown"] *)
Definition category (rrow : Row) (k : string) : string :=
  or_str (Some (Str.strip (or_str (row_get rrow k None) "Unknown"))) "Unknown".

(** The running state of the aggregation loop. *)
Record accumulators : Type := mkAcc {
  total_revenue : float;
  qty_per_month : Dict.dict Z;
  revenue_per_month : Dict.dict float;
  engagement_per_month : Dict.dict float;
  country_sales : Dict.dict float;
  payment_counts : Dict.dict Z;
  months_set : list string
}.

Definition empty_accumulators : accumulators :=
  mkAcc 0%float [] [] [] [] [] [].

(** What [requests.get(CSV_URL, timeout=10)] did: it raised, or it
    returned a response with a status code and a body. *)
Inductive fetched : Type :=
| FetchRaised
| FetchResponse (status_code : Z) (text : string).

Section Analysis.

(** Two library calls are left open.  [fromisoformat s] is
    [datetime.fromisoformat(s)], whose accepted texts differ between
    Python versions, reduced to the calendar date it returns.
    [DictReader content] is [list(csv.DictReader(content.splitlines()))]. *)
Variable fromisoformat : string -> result Date.date.
Variable DictReader : string -> result (list Row).

(** The date of a cell: [parse_date], then the ISO parse of the stripped
    text when no format matched. *)
Definition to_date (cell : option string) : option Date.date :=
  match parse_date cell with
  | Some d => Some d
  | None =>
      match fromisoformat (Str.strip (or_str cell "")) with
      | Ok d => Some d
      | Raise _ => None
      end
  end.

Definition invoice_date (rrow : Row) : option Date.date :=
  to_date (row_get rrow "InvoiceDate" (Some "")).

(** Month key of a row: [YYYY-MM], or the bucket ["unknown"]. *)
Definition month_key (rrow : Row) : string :=
  match invoice_date rrow with
  | Some d => Date.strftime_Y_m d
  | None => "unknown"
  end.

Definition row_amount (rrow : Row) : result float :=
  to_float (row_get rrow "Amount" (Some "0")).

Definition row_qty (rrow : Row) : result Z :=
  q <- to_float (row_get rrow "Quantity" (Some "0")) ;; Num.int_of_float q.

Definition row_total_orders (rrow : Row) : result float :=
  to_float (row_get rrow "TotalOrders" (Some "0")).

(** One turn of [for rrow in rows]. *)
Definition step (a : accumulators) (rrow : Row) : result accumulators :=
  amount <- row_amount rrow ;;
  qty <- row_qty rrow ;;
  total_orders <- row_total_orders rrow ;;
  let country := category rrow "Country" in
  let payment := category rrow "PaymentMode" in
  let mkey := month_key rrow in
  Ok {| total_revenue := (total_revenue a + amount)%float;
        qty_per_month :=
          Dict.set (qty_per_month a) mkey
                   (Dict.get_default (qty_per_month a) mkey 0 + qty);
        revenue_per_month :=
          Dict.set (revenue_per_month a) mkey
                   (Dict.get_default (revenue_per_month a) mkey 0 + amount)%float;
        engagement_per_month :=
          Dict.set (engagement_per_month a) mkey
                   (Dict.get_default (engagement_per_month a) mkey 0 + total_orders)%float;
        country_sales :=
          Dict.set (country_sales a) country
                   (Dict.get_default (country_sales a) country 0 + amount)%float;
        payment_counts :=
          Dict.set (payment_counts a) payment
                   (Dict.get_default (payment_counts a) payment 0 + 1);
        months_set := set_add (months_set a) mkey |}.

Fixpoint aggregate_from (a : accumulators) (rows : list Row)
  : result accumulators :=
  match rows with
  | [] => Ok a
  | rrow :: rest => a' <- step a rrow ;; aggregate_from a' rest
  end.

Definition aggregate (rows : list Row) : result accumulators :=
  aggregate_from empty_accumulators rows.

(** [[m for m in months_set if m != "unknown"]], sorted. *)
Definition valid_months_of (a : accumulators) : list string :=
  sorted String.ltb
         (List.filter (fun m => negb (String.eqb m "unknown")) (months_set a)).

(** The growth percentage of lines 214-216. *)
Definition growth (this_month_revenue last_month_revenue : float)
  : result float :=
  if (0 <? last_month_revenue)%float then
    q <- Num.float_truediv (this_month_revenue - last_month_revenue)%float
                           last_month_revenue ;;
    Ok (q * 100)%float
  else Ok 0%float.

Definition month_label (mkey : string) : result string :=
  if Str.nonempty mkey && (Z.of_nat (String.length mkey) =? 7)
     && negb (String.eqb mkey "unknown")
  then d <- Date.strptime (mkey ++ "-01") "%Y-%m-%d" ;; Ok (Date.strftime_b d)
  else Ok "N/A".

(** [round(x, 2)]: an [int] is returned as it is. *)
Definition py_round2 (x : pynum) : pynum :=
  match x with
  | PyInt z => PyInt z
  | PyFloat f => PyFloat (Num.round2 f)
  end.

Definition neg_float_key (x y : string * float) : bool :=
  (- snd x <? - snd y)%float.

Definition neg_int_key (x y : string * Z) : bool :=
  - snd x <? - snd y.

(** Lines 206-260: from the accumulators to the response. *)
Definition summarise (a : accumulators) : result Response :=
  let valid_months := valid_months_of a in
  let now_month := nth_from_end 1 valid_months in
  let prev_month :=
    if (2 <=? List.length valid_months)%nat
    then nth_from_end 2 valid_months else None in
  let this_month_revenue :=
    Dict.get_default (revenue_per_month a) (or_str now_month "") 0%float in
  let last_month_revenue :=
    Dict.get_default (revenue_per_month a) (or_str prev_month "") 0%float in
  avg_growth <- growth this_month_revenue last_month_revenue ;;
  let month_count := Z.max 1 (Z.of_nat (List.length valid_months)) in
  let total_qty :=
    fold_left Z.add
      (map (fun m => Dict.get_default (qty_per_month a) m 0) valid_months) 0 in
  avg_qty_per_month <-
    (if 0 <? month_count
     then q <- Num.int_truediv total_qty month_count ;; Ok (PyFloat q)
     else Ok (PyInt 0)) ;;
  trend <-
    mapM (fun m =>
            label <- month_label m ;;
            v <- Dict.index (revenue_per_month a) m ;;
            Ok (label, PyFloat (Num.round2 v)))
         (last_n 4 valid_months) ;;
  engagement <-
    mapM (fun m =>
            label <- month_label m ;;
            Ok (label,
                PyFloat (Num.round2
                           (Dict.get_default (engagement_per_month a) m 0%float))))
         (last_n 3 valid_months) ;;
  let country_list :=
    map (fun kv => (fst kv, PyFloat (Num.round2 (snd kv))))
        (sorted neg_float_key (country_sales a)) in
  let payment_list :=
    map (fun kv => (fst kv, PyInt (snd kv)))
        (sorted neg_int_key (payment_counts a)) in
  Ok {| source := "sheet";
        kpis := {| totalRevenue := PyFloat (Num.round2 (total_revenue a));
                   thisMonthRevenue := PyFloat (Num.round2 this_month_revenue);
                   avgGrowth := PyFloat (Num.round2 avg_growth);
                   avgQtyPerMonth := py_round2 avg_qty_per_month |};
        revenueTrend := trend;
        engagementTrend := engagement;
        countrySales := country_list;
        paymentDistribution := payment_list |}.

(** Lines 168-260: the computation on the parsed rows. *)
Definition analyse (rows : list Row) : result Response :=
  a <- aggregate rows ;; summarise a.

(** The body of the [try] of lines 118-122. *)
Definition fetch_content (r : fetched) : result string :=
  match r with
  | FetchRaised => Raise RequestException
  | FetchResponse status_code text =>
      if negb (status_code =? 200)
      then Raise (HTTPException 502 "Failed to fetch Google Sheet")
      else Ok text
  end.

(** The endpoint, given what the fetch did. *)
Definition get_analysis (r : fetched) : result Response :=
  match fetch_content r with
  | Raise _ => Ok fallback
  | Ok content =>
      rows <- DictReader content ;;
      match rows with
      | [] => Raise (HTTPException 422 "No rows in sheet")
      | _ => analyse rows
      end
  end.

End Analysis.

(* ------------------------------------------------------------------ *)
(** ** What the accumulators hold, stated on the rows *)

(** The fields the loop reads from one row. *)
Record entry : Type := mkEntry {
  e_amount : float;
  e_qty : Z;
  e_orders : float;
  e_country : string;
  e_payment : string;
  e_mkey : string
}.

(** The loop body's update, once the row's fields are known. *)
Definition accumulate (a : accumulators) (e : entry) : accumulators :=
  {| total_revenue := (total_revenue a + e_amount e)%float;
     qty_per_month :=
       Dict.set (qty_per_month a) (e_mkey e)
                (Dict.get_default (qty_per_month a) (e_mkey e) 0 + e_qty e);
     revenue_per_month :=
       Dict.set (revenue_per_month a) (e_mkey e)
                (Dict.get_default (revenue_per_month a) (e_mkey e) 0 + e_amount e)%float;
     engagement_per_month :=
       Dict.set (engagement_per_month a) (e_mkey e)
                (Dict.get_default (engagement_per_month a) (e_mkey e) 0 + e_orders e)%float;
     country_sales :=
       Dict.set (country_sales a) (e_country e)
                (Dict.get_default (country_sales a) (e_country e) 0 + e_amount e)%float;
     payment_counts :=
       Dict.set (payment_counts a) (e_payment e)
                (Dict.get_default (payment_counts a) (e_payment e) 0 + 1);
     months_set := set_add (months_set a) (e_mkey e) |}.

(** [0.0 + x1 + x2 + ...], added from the left as the loop does. *)
Definition float_sum (l : list float) : float := fold_left PrimFloat.add l 0%float.

(** The amount of a row; [to_float] never raises, so the default is
    never used. *)
Definition amount_of (rrow : Row) : float :=
  match row_amount rrow with
  | Ok x => x
  | Raise _ => 0%float
  end.

Definition orders_of (rrow : Row) : float :=
  match row_total_orders rrow with
  | Ok x => x
  | Raise _ => 0%float
  end.

(** The quantity of a row, where [int] did not raise. *)
Definition qty_of (rrow : Row) : Z :=
  match row_qty rrow with
  | Ok q => q
  | Raise _ => 0
  end.

Definition has_country (c : string) (rrow : Row) : bool :=
  String.eqb (category rrow "Country") c.

Definition has_payment (p : string) (rrow : Row) : bool :=
  String.eqb (category rrow "PaymentMode") p.

(** Sum of the amounts of all rows, in row order. *)
Definition total_amount (rows : list Row) : float :=
  float_sum (map amount_of rows).

(** Sum of the amounts of the rows of country [c], in row order. *)
Definition country_revenue (rows : list Row) (c : string) : float :=
  float_sum (map amount_of (List.filter (has_country c) rows)).

(** Number of rows with payment mode [p]. *)
Definition payment_count (rows : list Row) (p : string) : Z :=
  Z.of_nat (List.length (List.filter (has_payment p) rows)).

(** Position of the first [k] in [l] ([length l] when there is none). *)
Fixpoint first_index (k : string) (l : list string) : nat :=
  match l with
  | [] => O
  | x :: r => if String.eqb x k then O else S (first_index k r)
  end.

(** The keys a dictionary gets when [ks] are inserted in turn into one
    that already holds [seen]: each new key once, at its first place. *)
Fixpoint new_keys (ks seen : list string) : list string :=
  match ks with
  | [] => []
  | k :: r =>
      if existsb (String.eqb k) seen then new_keys r seen
      else k :: new_keys r (seen ++ [k])
  end.

Definition is_nan (x : float) : bool := negb (x =? x)%float.

(** The binary64 specification float of the integer [z], and the
    primitive float it stands for. *)
Definition SFZ (z : Z) : spec_float := binary_normalize prec emax z 0 false.

Definition float_of_Z (z : Z) : float := SF2Prim (SFZ z).

(** The 53-digit mantissa and the exponent of a positive integer below
    [2^53]. *)
Definition mantissa_of (p : positive) : positive :=
  Z.to_pos (Zpos p * 2 ^ (53 - Zpos (digits2_pos p))).

Definition exponent_of (p : positive) : Z := Zpos (digits2_pos p) - 53.

Definition sign_of (z : Z) : bool := z <? 0.

(** The whole number an amount truncates to. *)
Definition amount_int (rrow : Row) : Z :=
  match Num.int_of_float (amount_of rrow) with
  | Ok z => z
  | Raise _ => 0
  end.

(** The amount of the row is a whole number. *)
Definition whole_amount (rrow : Row) : Prop :=
  amount_of rrow = float_of_Z (amount_int rrow).

Definition zsum (l : list Z) : Z := fold_right Z.add 0 l.

Definition sum_abs (l : list Z) : Z := fold_right (fun z s => Z.abs z + s) 0 l.

(** The months that are not the bucket ["unknown"]. *)
Definition known (m : string) : bool := negb (String.eqb m "unknown").

Definition countries_of (rows : list Row) : list string :=
  map (fun r => category r "Country") rows.

Definition payments_of (rows : list Row) : list string :=
  map (fun r => category r "PaymentMode") rows.

Definition no_zero_division {A} (r : result A) : Prop :=
  r <> Raise ZeroDivisionError.

(** [r] raised. *)
Definition raises {A} (r : result A) : Prop := exists e, r = Raise e.

(** The parts of [summarise]. *)
Definition this_month_revenue_of (a : accumulators) : float :=
  Dict.get_default (revenue_per_month a)
                   (or_str (nth_from_end 1 (valid_months_of a)) "") 0%float.

Definition last_month_revenue_of (a : accumulators) : float :=
  Dict.get_default (revenue_per_month a)
    (or_str (if (2 <=? List.length (valid_months_of a))%nat
             then nth_from_end 2 (valid_months_of a) else None) "") 0%float.

Definition avg_qty_of (a : accumulators) : result pynum :=
  let valid_months := valid_months_of a in
  let month_count := Z.max 1 (Z.of_nat (List.length valid_months)) in
  let total_qty :=
    fold_left Z.add
      (map (fun m => Dict.get_default (qty_per_month a) m 0) valid_months) 0 in
  if 0 <? month_count
  then q <- Num.int_truediv total_qty month_count ;; Ok (PyFloat q)
  else Ok (PyInt 0).

Definition trend_of (a : accumulators) : result (list (string * pynum)) :=
  mapM (fun m =>
          label <- month_label m ;;
          v <- Dict.index (revenue_per_month a) m ;;
          Ok (label, PyFloat (Num.round2 v)))
       (last_n 4 (valid_months_of a)).

Definition engagement_of (a : accumulators) : result (list (string * pynum)) :=
  mapM (fun m =>
          label <- month_label m ;;
          Ok (label,
              PyFloat (Num.round2
                         (Dict.get_default (engagement_per_month a) m 0%float))))
       (last_n 3 (valid_months_of a)).

Definition country_list_of (a : accumulators) : list (string * pynum) :=
  map (fun kv => (fst kv, PyFloat (Num.round2 (snd kv))))
      (sorted neg_float_key (country_sales a)).

Definition payment_list_of (a : accumulators) : list (string * pynum) :=
  map (fun kv => (fst kv, PyInt (snd kv)))
      (sorted neg_int_key (payment_counts a)).

(** The update [d[key x] = d.get(key x, zero) + val x] that every
    accumulator dictionary of the loop goes through. *)
Definition upd {X V} (key : X -> string) (val : X -> V) (op : V -> V -> V)
  (zero : V) (d : Dict.dict V) (x : X) : Dict.dict V :=
  Dict.set d (key x) (op (Dict.get_default d (key x) zero) (val x)).

(** [int(to_float(Quantity))] does not raise on this row. *)
Definition converts (rrow : Row) : Prop := exists q, row_qty rrow = Ok q.

Section Reference.

Variable fromisoformat : string -> result Date.date.

Definition has_month (m : string) (rrow : Row) : bool :=
  String.eqb (month_key fromisoformat rrow) m.

Definition entry_of (rrow : Row) : result entry :=
  amount <- row_amount rrow ;;
  qty <- row_qty rrow ;;
  total_orders <- row_total_orders rrow ;;
  Ok (mkEntry amount qty total_orders (category rrow "Country")
              (category rrow "PaymentMode") (month_key fromisoformat rrow)).

(** The fields of a row on which [int(to_float(Quantity))] succeeds. *)
Definition fields_of (rrow : Row) : entry :=
  mkEntry (amount_of rrow) (qty_of rrow) (orders_of rrow)
          (category rrow "Country") (category rrow "PaymentMode")
          (month_key fromisoformat rrow).

(** Sum of the amounts of the rows of month [m], in row order. *)
Definition month_revenue (rows : list Row) (m : string) : float :=
  float_sum (map amount_of (List.filter (has_month m) rows)).

(** Sum of the quantities of the rows of month [m]. *)
Definition month_qty (rows : list Row) (m : string) : Z :=
  fold_left Z.add (map qty_of (List.filter (has_month m) rows)) 0.

(** Sum of the order counts of the rows of month [m], in row order. *)
Definition month_engagement (rows : list Row) (m : string) : float :=
  float_sum (map orders_of (List.filter (has_month m) rows)).

(** The months seen in the rows, ["unknown"] aside, in ascending order. *)
Definition observed_months (rows : list Row) : list string :=
  sorted String.ltb
         (List.filter (fun m => negb (String.eqb m "unknown"))
                      (new_keys (map (month_key fromisoformat) rows) [])).

(** The rows whose [InvoiceDate] could be read. *)
Definition dated (rrow : Row) : bool :=
  match invoice_date fromisoformat rrow with
  | Some _ => true
  | None => false
  end.

End Reference.

(* ------------------------------------------------------------------ *)
(** ** Instances of the two library calls, for closed examples *)

Definition two_digits_below (bound : Z) (a b : ascii) : bool :=
  Str.is_digit a && Str.is_digit b && (Str.digits_value [a; b] <? bound).

(** A time of day [hh:mm:ss]. *)
Definition is_time (s : string) : bool :=
  match s with
  | String h1 (String h2 (String ":" (String m1 (String m2
      (String ":" (String s1 (String s2 EmptyString))))))) =>
      two_digits_below 24 h1 h2 && two_digits_below 60 m1 m2
      && two_digits_below 60 s1 s2
  | _ => false
  end.

(** An ISO parser that knows the calendar date [YYYY-MM-DD], alone or
    followed by one character and a time of day. *)
Definition iso_date_time (s : string) : result Date.date :=
  match s with
  | String y1 (String y2 (String y3 (String y4 (String "-" (String m1
      (String m2 (String "-" (String d1 (String d2 rest))))))))) =>
      let y := Str.digits_value [y1; y2; y3; y4] in
      let m := Str.digits_value [m1; m2] in
      let d := Str.digits_value [d1; d2] in
      if forallb Str.is_digit [y1; y2; y3; y4; m1; m2; d1; d2]
         && Date.valid y m d
         && match rest with
            | EmptyString => true
            | String _ t => is_time t
            end
      then Ok (Date.mkdate y m d) else Raise ValueError
  | _ => Raise ValueError
  end.

Fixpoint split_on (sep : ascii) (s : string) : list string :=
  match s with
  | EmptyString => [EmptyString]
  | String c r =>
      if Ascii.eqb c sep then EmptyString :: split_on sep r
      else match split_on sep r with
           | x :: xs => String c x :: xs
           | [] => [String c EmptyString]
           end
  end.

Fixpoint zip_row (header : list string) (cells : list string) : Row :=
  match header, cells with
  | h :: hs, c :: cs => (h, Some c) :: zip_row hs cs
  | h :: hs, [] => (h, None) :: zip_row hs []
  | [], _ => []
  end.

(** A reader for comma-separated text without quoting: the first line
    names the columns, every later line that is not empty is a row. *)
Definition plain_DictReader (content : string) : result (list Row) :=
  match List.filter Str.nonempty (split_on "010" content) with
  | [] => Ok []
  | header :: lines =>
      Ok (map (fun l => zip_row (split_on "," header) (split_on "," l)) lines)
  end.

(* ------------------------------------------------------------------ *)
(** ** Inputs of the examples *)

(** The two rows of the specification's end-to-end scenario. *)
Definition scenario_rows : list Row :=
  [ [("Amount", Some "100"); ("InvoiceDate", Some "2024-01-15");
     ("Country", Some "A"); ("PaymentMode", Some "Cash");
     ("Quantity", Some "2"); ("TotalOrders", Some "1")];
    [("Amount", Some "200"); ("InvoiceDate", Some "2024-02-10");
     ("Country", Some "B"); ("PaymentMode", Some "Card");
     ("Quantity", Some "3"); ("TotalOrders", Some "2")] ].

Definition scenario_csv : string :=
"Amount,InvoiceDate,Country,PaymentMode,Quantity,TotalOrders
100,2024-01-15,A,Cash,2,1
200,2024-02-10,B,Card,3,2
".

(** January revenue 3, February revenue 4. *)
Definition thirds_rows : list Row :=
  [ [("Amount", Some "3"); ("InvoiceDate", Some "2024-01-15")];
    [("Amount", Some "4"); ("InvoiceDate", Some "2024-02-10")] ].

(** The digit 1 followed by 309 zeros: a whole number beyond the largest
    finite float (about 1.8e308), which [float] reads as infinity. *)
Definition huge : string :=
  String "1" (string_of_list_ascii (repeat "0"%char 309)).

(** Country B receives plus and minus infinity, whose sum is NaN. *)
Definition nan_rows : list Row :=
  [ [("Amount", Some "1"); ("Country", Some "A")];
    [("Amount", Some huge); ("Country", Some "B")];
    [("Amount", Some ("-" ++ huge)); ("Country", Some "B")];
    [("Amount", Some "2"); ("Country", Some "C")] ].

(** One row without a date whose quantity is beyond every float. *)
Definition overflow_rows : list Row :=
  [ [("Amount", Some "10"); ("Quantity", Some huge);
     ("InvoiceDate", Some "n/a")] ].

Definition overflow_csv : string :=
  "Amount,Quantity,InvoiceDate" ++ String "010" ("10," ++ huge ++ ",n/a").

(** The scenario's rows and one more row whose date cannot be read. *)
Definition rows_with_undated : list Row :=
  (scenario_rows ++
   [ [("Amount", Some "50"); ("InvoiceDate", Some "n/a");
      ("Country", Some "A"); ("PaymentMode", Some "Cash");
      ("Quantity", Some "7"); ("TotalOrders", Some "9")] ])%list.

(** Rows without any readable date. *)
Definition undated_rows : list Row :=
  [ [("Amount", Some "10"); ("InvoiceDate", Some "n/a"); ("Country", Some "A")];
    [("Amount", Some "5"); ("Country", Some "B"); ("Quantity", Some "3")] ].



Definition header_only : string := "Amount,InvoiceDate,Country
".

(* ------------------------------------------------------------------ *)
(** ** The specification's [toNumber], from its words *)

(** "Strips every character that is not a digit, a decimal point, or a
    leading minus sign": a minus sign is kept only while nothing has been
    kept before it. *)
Fixpoint strip_spec (leading : bool) (s : string) : string :=
  match s with
  | String c r =>
      if Str.is_digit c || Ascii.eqb c "." then String c (strip_spec false r)
      else if Ascii.eqb c "-" && leading then String c (strip_spec false r)
      else strip_spec leading r
  | EmptyString => EmptyString
  end.

(** "Returns 0 when the input is empty, absent, or left with no parseable
    numeric remainder." *)
Definition toNumber_spec (val : option string) : float :=
  match val with
  | None => 0%float
  | Some v =>
      match float_of_str (strip_spec true v) with
      | Ok x => x
      | Raise _ => 0%float
      end
  end.

(* ------------------------------------------------------------------ *)
(** ** The columns the loop reads *)

(** The keys of the [rrow.get] calls of lines 179-188. *)
Definition columns_read : list string :=
  ["Amount"; "Quantity"; "TotalOrders"; "Country"; "PaymentMode"; "InvoiceDate"].

(** Two rows with the same cells in the columns the loop reads. *)
Definition same_cells (r r' : Row) : Prop :=
  forall k, In k columns_read -> Dict.get r k = Dict.get r' k.

(* ------------------------------------------------------------------ *)
(** ** ASCII text *)

(** The text holds ASCII characters only: every byte is below 128, so
    that a byte is a character, [Str.strip] is [str.strip], the digits of
    [Date.alternatives] are the [\d] of [_strptime] and [s[:n]] keeps [n]
    bytes. *)
Definition ascii_text (s : string) : bool :=
  forallb (fun c => Str.code c <? 128) (list_ascii_of_string s).

(** A cell that is [None] or ASCII text. *)
Definition ascii_cell (cell : option string) : bool :=
  match cell with
  | Some v => ascii_text v
  | None => true
  end.

(* ------------------------------------------------------------------ *)
(** ** The rows of a calendar month *)

(** The row is dated in the year and month of [d]. *)
Definition same_month (fromisoformat : string -> result Date.date)
           (d : Date.date) (rrow : Row) : bool :=
  match invoice_date fromisoformat rrow with
  | Some d' => (Date.year d' =? Date.year d) && (Date.month d' =? Date.month d)
  | None => false
  end.

(* ------------------------------------------------------------------ *)
(** ** A sheet over five months *)

(** Six rows: the dates are written in the four formats of [parse_date]
    and once as an ISO date with a time; the last row has no date. *)
Definition five_month_rows : list Row :=
  [ [("Amount", Some "$1,000"); ("Quantity", Some "2"); ("TotalOrders", Some "1");
     ("InvoiceDate", Some "2024-01-15"); ("Country", Some " India ");
     ("PaymentMode", Some "UPI")];
    [("Amount", Some "250.50"); ("Quantity", Some "1"); ("TotalOrders", Some "3");
     ("InvoiceDate", Some "15/02/2024"); ("Country", Some "India");
     ("PaymentMode", Some "Card")];
    [("Amount", Some "300"); ("Quantity", Some "4"); ("TotalOrders", Some "2");
     ("InvoiceDate", Some "03/25/2024"); ("Country", Some "USA");
     ("PaymentMode", Some "UPI")];
    [("Amount", Some "120"); ("Quantity", Some "1"); ("TotalOrders", Some "1");
     ("InvoiceDate", Some "2024/04/01"); ("Country", Some "");
     ("PaymentMode", Some "Cash")];
    [("Amount", Some "80"); ("Quantity", Some "3"); ("TotalOrders", Some "5");
     ("InvoiceDate", Some "2024-05-07 10:30:00"); ("Country", Some "USA");
     ("PaymentMode", Some "UPI")];
    [("Amount", Some "75"); ("Quantity", Some "5"); ("TotalOrders", Some "4");
     ("InvoiceDate", Some "n/a"); ("Country", Some "India");
     ("PaymentMode", Some "Card")] ].

(** The same sheet with one more column in front. *)
Definition five_month_rows_with_email : list Row :=
  map (fun r => ("Email", Some "buyer@example.com") :: r) five_month_rows.

(* ------------------------------------------------------------------ *)
(** ** [test_database] *)

Module Probe.

(** The dictionary [response], a field for each of its six keys.  The
    texts are those of the source, in UTF-8. *)
Record Report : Type := mkReport {
  backend : string;
  database : string;
  database_url : option string;
  database_name : option string;
  connection_status : string;
  collections : list string
}.

(** What the database object does.  [name] is [db.name] when
    [hasattr(db, 'name')]; reading the attribute is taken not to raise.
    [list_collection_names] is the list that [db.list_collection_names()]
    returns, or the text [str(e)] of the exception [e] that the inner
    [try] catches when the call, or the slice of its result, raises. *)
Record Database : Type := mkDatabase {
  name : option string;
  list_collection_names : string + list string
}.

(** What [from database import db] does: it raises ImportError, it raises
    another exception [e] (with [str(e)]), or it binds [db], to None or to
    a database object. *)
Inductive import_db : Type :=
| ImportError_raised
| Exception_raised (message : string)
| Imported (db : option Database).

(** [s[:n]] on ASCII text: the first [n] bytes, which there are the
    first [n] characters.  (On other text Python keeps [n] characters,
    which are more bytes.) *)
Definition prefix (n : nat) (s : string) : string := String.substring 0 n s.

(** Truthiness of [os.getenv(k)]: set, and not empty. *)
Definition is_set (v : option string) : bool :=
  match v with
  | Some s => Str.nonempty s
  | None => false
  end.

Definition set_database (v : string) (r : Report) : Report :=
  mkReport (backend r) v (database_url r) (database_name r)
           (connection_status r) (collections r).

Definition set_database_url (v : string) (r : Report) : Report :=
  mkReport (backend r) (database r) (Some v) (database_name r)
           (connection_status r) (collections r).

Definition set_database_name (v : string) (r : Report) : Report :=
  mkReport (backend r) (database r) (database_url r) (Some v)
           (connection_status r) (collections r).

Definition set_connection_status (v : string) (r : Report) : Report :=
  mkReport (backend r) (database r) (database_url r) (database_name r)
           v (collections r).

Definition set_collections (v : list string) (r : Report) : Report :=
  mkReport (backend r) (database r) (database_url r) (database_name r)
           (connection_status r) v.

(** Lines 68-75. *)
Definition initial : Report :=
  {| backend := "✅ Running";
     database := "❌ Not Available";
     database_url := None;
     database_name := None;
     connection_status := "Not Connected";
     collections := [] |}.

(** Lines 77-100: the [try] and its handlers.  The import is the first
    statement of the [try], so an import that raises leaves [response]
    untouched for the handler. *)
Definition probe (imp : import_db) (response : Report) : Report :=
  match imp with
  | Imported (Some db) =>
      let response := set_database "✅ Available" response in
      let response := set_database_url "✅ Configured" response in
      let response :=
        set_database_name
          (match name db with Some n => n | None => "✅ Connected" end)
          response in
      let response := set_connection_status "Connected" response in
      match list_collection_names db with
      | inr names =>
          let response := set_collections (firstn 10 names) response in
          set_database "✅ Connected & Working" response
      | inl message =>
          set_database ("⚠️  Connected but Error: " ++ prefix 50 message) response
      end
  | Imported None => set_database "⚠️  Available but not initialized" response
  | ImportError_raised =>
      set_database "❌ Database module not found (run enable-database first)" response
  | Exception_raised message =>
      set_database ("❌ Error: " ++ prefix 50 message) response
  end.

(** [test_database], given what the import does and the environment. *)
Definition test_database (imp : import_db) (getenv : string -> option string)
  : Report :=
  let response := probe imp initial in
  let response :=
    set_database_url
      (if is_set (getenv "DATABASE_URL") then "✅ Set" else "❌ Not Set") response in
  let response :=
    set_database_name
      (if is_set (getenv "DATABASE_NAME") then "✅ Set" else "❌ Not Set") response in
  response.

End Probe.

(** A database with twelve collections, and an environment that sets
    DATABASE_URL only. *)
Definition twelve_collections : Probe.Database :=
  Probe.mkDatabase (Some "sales")
    (inr ["c01"; "c02"; "c03"; "c04"; "c05"; "c06";
          "c07"; "c08"; "c09"; "c10"; "c11"; "c12"]).

Definition url_only (k : string) : option string :=
  if String.eqb k "DATABASE_URL" then Some "mongodb://localhost" else None.

(* ------------------------------------------------------------------ *)
(** * Properties *)

(** ** The error monad *)

Lemma bind_Ok {A B} (r : result A) (k : A -> result B) b :
  bind r k = Ok b -> exists a, r = Ok a /\ k a = Ok b.
Proof. destruct r; simpl; [eauto | discriminate]. Qed.

Lemma bind_Raise {A B} (r : result A) (k : A -> result B) e :
  bind r k = Raise e -> r = Raise e \/ exists a, r = Ok a /\ k a = Raise e.
Proof. destruct r; simpl; [eauto | intros [= ->]; auto]. Qed.

Ltac inv_bind H :=
  let x := fresh "x" in
  let Hx := fresh "Hx" in
  apply bind_Ok in H; destruct H as (x & Hx & H).

(** ** [to_float] is total *)

Lemma float_of_str_cases s :
  (exists x, float_of_str s = Ok x) \/ float_of_str s = Raise ValueError.
Proof.
  unfold float_of_str.
  destruct (match s with String "-" r => (true, r) | _ => (false, s) end) as [neg s1].
  destruct (Str.span_digits s1) as [ip s2].
  destruct (match s2 with String "." r => Str.span_digits r | _ => ([], s2) end) as [fp s3].
  destruct s3; destruct (ip ++ fp)%list; eauto.
Qed.

Lemma to_float_total (val : option string) : exists x, to_float val = Ok x.
Proof.
  destruct val as [v|]; simpl; [|eauto].
  unfold to_float.
  destruct (negb (Str.nonempty (Str.strip v))); [eauto|].
  destruct (Str.nonempty (CURRENCY_RE_sub (Str.strip v))); [|eauto].
  destruct (float_of_str_cases (CURRENCY_RE_sub (Str.strip v))) as [[x ->] | ->]; eauto.
Qed.

Lemma row_amount_Ok rrow : row_amount rrow = Ok (amount_of rrow).
Proof.
  unfold amount_of, row_amount.
  destruct (to_float_total (row_get rrow "Amount" (Some "0"))) as [x ->]. reflexivity.
Qed.

Lemma row_total_orders_Ok rrow : row_total_orders rrow = Ok (orders_of rrow).
Proof.
  unfold orders_of, row_total_orders.
  destruct (to_float_total (row_get rrow "TotalOrders" (Some "0"))) as [x ->]. reflexivity.
Qed.

(** ** Dictionaries *)

Module DictFacts.
Import Dict.

Lemma get_set {V} (d : dict V) k v k' :
  get (set d k v) k' = if String.eqb k k' then Some v else get d k'.
Proof.
  induction d as [|[k0 v0] d IH]; simpl.
  - reflexivity.
  - destruct (String.eqb_spec k0 k) as [->|Hne]; simpl.
    + destruct (String.eqb k k'); reflexivity.
    + rewrite IH. destruct (String.eqb_spec k0 k') as [->|]; [|reflexivity].
      destruct (String.eqb_spec k k'); congruence.
Qed.

Lemma keys_set {V} (d : dict V) k v : keys (set d k v) = set_add (keys d) k.
Proof.
  unfold set_add, keys.
  induction d as [|[k0 v0] d IH]; simpl; [reflexivity|].
  rewrite (String.eqb_sym k k0).
  destruct (String.eqb k0 k); simpl; [reflexivity|].
  rewrite IH. destruct (existsb (String.eqb k) (map fst d)); reflexivity.
Qed.

Lemma get_None_iff {V} (d : dict V) k : get d k = None <-> ~ In k (keys d).
Proof.
  unfold keys. induction d as [|[k0 v0] d IH]; simpl; [tauto|].
  destruct (String.eqb_spec k0 k) as [->|Hne].
  - split; [discriminate | tauto].
  - rewrite IH. tauto.
Qed.

Lemma get_In {V} (d : dict V) k v : get d k = Some v -> In (k, v) d.
Proof.
  induction d as [|[k0 v0] d IH]; simpl; [discriminate|].
  destruct (String.eqb_spec k0 k) as [->|]; [intros [= ->]; auto | auto].
Qed.

Lemma In_get {V} (d : dict V) k v :
  NoDup (keys d) -> In (k, v) d -> get d k = Some v.
Proof.
  unfold keys. induction d as [|[k0 v0] d IH]; simpl; [tauto|].
  intros Hnd [Heq|Hin]; inversion Hnd; subst.
  - inversion Heq; subst. now rewrite String.eqb_refl.
  - destruct (String.eqb_spec k0 k) as [->|]; [|auto].
    exfalso. apply H1. now apply (in_map fst) in Hin.
Qed.

End DictFacts.

(** ** Keys in insertion order *)

Lemma existsb_eqb_In k l : existsb (String.eqb k) l = true <-> In k l.
Proof.
  rewrite existsb_exists. split.
  - intros (x & Hin & Heq). apply String.eqb_eq in Heq. now subst.
  - intros Hin. exists k. split; [assumption | apply String.eqb_refl].
Qed.

Lemma fold_set_add ks : forall seen,
  fold_left set_add ks seen = (seen ++ new_keys ks seen)%list.
Proof.
  induction ks as [|k ks IH]; intros seen; simpl.
  - now rewrite app_nil_r.
  - rewrite IH. unfold set_add.
    destruct (existsb (String.eqb k) seen); [reflexivity|].
    now rewrite <- app_assoc.
Qed.

Lemma new_keys_In ks : forall seen k,
  In k (new_keys ks seen) <-> In k ks /\ ~ In k seen.
Proof.
  induction ks as [|k0 ks IH]; intros seen k; simpl; [tauto|].
  destruct (existsb (String.eqb k0) seen) eqn:E.
  - apply existsb_eqb_In in E. rewrite IH. split; [tauto|].
    intros [[->|] ?]; tauto.
  - assert (~ In k0 seen) by (rewrite <- existsb_eqb_In; congruence).
    simpl. rewrite IH, in_app_iff. simpl.
    destruct (string_dec k0 k) as [->|]; [tauto|]. tauto.
Qed.

Lemma new_keys_NoDup ks : forall seen, NoDup (new_keys ks seen).
Proof.
  induction ks as [|k0 ks IH]; intros seen; simpl; [constructor|].
  destruct (existsb (String.eqb k0) seen); [apply IH|].
  constructor; [|apply IH].
  rewrite new_keys_In, in_app_iff. simpl. tauto.
Qed.

Lemma first_index_cons_ne k k0 l :
  k0 <> k -> first_index k (k0 :: l) = S (first_index k l).
Proof. intros H. simpl. destruct (String.eqb_spec k0 k); congruence. Qed.

Lemma StronglySorted_impl_In {A} (R R' : A -> A -> Prop) l :
  (forall x y, In x l -> In y l -> R x y -> R' x y) ->
  StronglySorted R l -> StronglySorted R' l.
Proof.
  induction l as [|a l IH]; intros Himp Hs; [constructor|].
  inversion Hs; subst. constructor.
  - apply IH; [|assumption]. intros; apply Himp; simpl; auto.
  - rewrite Forall_forall in *. intros y Hy. apply Himp; simpl; auto.
Qed.

(** New keys stand in the order of their first occurrences. *)
Lemma new_keys_first_index ks : forall seen,
  StronglySorted (fun k1 k2 => (first_index k1 ks < first_index k2 ks)%nat)
                 (new_keys ks seen).
Proof.
  induction ks as [|k0 ks IH]; intros seen; simpl new_keys; [constructor|].
  destruct (existsb (String.eqb k0) seen) eqn:E.
  - apply existsb_eqb_In in E.
    apply StronglySorted_impl_In with (2 := IH seen).
    intros x y Hx Hy Hlt. apply new_keys_In in Hx, Hy.
    rewrite !first_index_cons_ne by (intros ->; tauto). lia.
  - constructor.
    + apply StronglySorted_impl_In with (2 := IH (seen ++ [k0])%list).
      intros x y Hx Hy Hlt. apply new_keys_In in Hx, Hy.
      rewrite in_app_iff in Hx, Hy. simpl in Hx, Hy.
      rewrite !first_index_cons_ne by (intros ->; tauto). lia.
    + apply Forall_forall. intros y Hy. apply new_keys_In in Hy.
      rewrite in_app_iff in Hy. simpl in Hy.
      rewrite (first_index_cons_ne y) by (intros ->; tauto).
      simpl. rewrite String.eqb_refl. lia.
Qed.

(** ** A dictionary filled by a grouped fold *)

Section Grouped.
Context {X V : Type}.
Variable key : X -> string.
Variable val : X -> V.
Variable op : V -> V -> V.
Variable zero : V.


Lemma grouped_get_default xs : forall d k,
  Dict.get_default (fold_left (upd key val op zero) xs d) k zero =
  fold_left op (map val (List.filter (fun x => String.eqb (key x) k) xs))
            (Dict.get_default d k zero).
Proof.
  induction xs as [|x xs IH]; intros d k; simpl; [reflexivity|].
  rewrite IH.
  assert (E : Dict.get_default (upd key val op zero d x) k zero =
              if String.eqb (key x) k
              then op (Dict.get_default d k zero) (val x)
              else Dict.get_default d k zero).
  { unfold upd, Dict.get_default at 1. rewrite DictFacts.get_set.
    destruct (String.eqb_spec (key x) k) as [->|]; reflexivity. }
  rewrite E. destruct (String.eqb (key x) k); reflexivity.
Qed.

Lemma grouped_keys xs : forall d,
  Dict.keys (fold_left (upd key val op zero) xs d) = fold_left set_add (map key xs) (Dict.keys d).
Proof.
  induction xs as [|x xs IH]; intros d; simpl; [reflexivity|].
  rewrite IH. unfold upd. now rewrite DictFacts.keys_set.
Qed.

Lemma grouped_keys_empty xs :
  Dict.keys (fold_left (upd key val op zero) xs []) = new_keys (map key xs) [].
Proof. rewrite grouped_keys. simpl. now rewrite fold_set_add. Qed.

Lemma grouped_get xs k :
  Dict.get (fold_left (upd key val op zero) xs []) k =
  if existsb (String.eqb k) (map key xs)
  then Some (fold_left op (map val (List.filter (fun x => String.eqb (key x) k) xs)) zero)
  else None.
Proof.
  destruct (existsb (String.eqb k) (map key xs)) eqn:E.
  - apply existsb_eqb_In in E.
    destruct (Dict.get (fold_left (upd key val op zero) xs []) k) as [v|] eqn:G.
    + f_equal. pose proof (grouped_get_default xs [] k) as D.
      unfold Dict.get_default at 1 in D. rewrite G in D. exact D.
    + apply DictFacts.get_None_iff in G. exfalso. apply G.
      rewrite grouped_keys_empty, new_keys_In. simpl. tauto.
  - apply DictFacts.get_None_iff. rewrite grouped_keys_empty, new_keys_In.
    rewrite <- existsb_eqb_In. intros [H _]. congruence.
Qed.
End Grouped.

Lemma count_fold {X} (xs : list X) : forall z,
  fold_left Z.add (map (fun _ => 1) xs) z = z + Z.of_nat (List.length xs).
Proof.
  induction xs as [|x xs IH]; intros z; simpl List.length; simpl fold_left; [lia|].
  rewrite IH. lia.
Qed.

(** ** The loop, on rows whose quantities convert *)

Section Loop.
Variable fromisoformat : string -> result Date.date.


Lemma step_fields a rrow :
  step fromisoformat a rrow =
  match row_qty rrow with
  | Ok _ => Ok (accumulate a (fields_of fromisoformat rrow))
  | Raise e => Raise e
  end.
Proof.
  unfold step, fields_of, qty_of.
  rewrite row_amount_Ok, row_total_orders_Ok. simpl.
  destruct (row_qty rrow); reflexivity.
Qed.

Lemma aggregate_from_Ok rows : forall a a',
  aggregate_from fromisoformat a rows = Ok a' ->
  Forall converts rows /\
  a' = fold_left (fun a r => accumulate a (fields_of fromisoformat r)) rows a.
Proof.
  induction rows as [|r rows IH]; intros a a'; simpl.
  - intros [= ->]. split; [constructor | reflexivity].
  - rewrite step_fields. destruct (row_qty r) as [q|e] eqn:E; simpl; [|discriminate].
    intros H. apply IH in H as [HF ->]. split; [|reflexivity].
    constructor; [now exists q | assumption].
Qed.

Lemma aggregate_from_converts rows : forall a,
  Forall converts rows ->
  aggregate_from fromisoformat a rows =
  Ok (fold_left (fun a r => accumulate a (fields_of fromisoformat r)) rows a).
Proof.
  induction rows as [|r rows IH]; intros a HF; simpl; [reflexivity|].
  inversion HF as [|? ? [q Hq] HF']; subst.
  rewrite step_fields, Hq. simpl. now apply IH.
Qed.

Lemma aggregate_from_Raise rows : forall a e,
  aggregate_from fromisoformat a rows = Raise e -> ~ Forall converts rows.
Proof.
  intros a e H HF. rewrite aggregate_from_converts in H by assumption. discriminate.
Qed.

(** Each accumulator is a grouped fold of its own. *)
Lemma fold_accumulate rows : forall a,
  let a' := fold_left (fun a r => accumulate a (fields_of fromisoformat r)) rows a in
  total_revenue a' = fold_left PrimFloat.add (map amount_of rows) (total_revenue a) /\
  qty_per_month a' =
    fold_left (upd (month_key fromisoformat) qty_of Z.add 0) rows (qty_per_month a) /\
  revenue_per_month a' =
    fold_left (upd (month_key fromisoformat) amount_of PrimFloat.add 0%float)
              rows (revenue_per_month a) /\
  engagement_per_month a' =
    fold_left (upd (month_key fromisoformat) orders_of PrimFloat.add 0%float)
              rows (engagement_per_month a) /\
  country_sales a' =
    fold_left (upd (fun r => category r "Country") amount_of PrimFloat.add 0%float)
              rows (country_sales a) /\
  payment_counts a' =
    fold_left (upd (fun r => category r "PaymentMode") (fun _ => 1) Z.add 0)
              rows (payment_counts a) /\
  months_set a' = fold_left set_add (map (month_key fromisoformat) rows) (months_set a).
Proof.
  induction rows as [|r rows IH]; intros a; simpl.
  - repeat split.
  - specialize (IH (accumulate a (fields_of fromisoformat r))). simpl in IH.
    destruct IH as (H1 & H2 & H3 & H4 & H5 & H6 & H7).
    rewrite H1, H2, H3, H4, H5, H6, H7. repeat split.
Qed.

Lemma aggregate_Ok rows a :
  aggregate fromisoformat rows = Ok a ->
  Forall converts rows /\
  total_revenue a = total_amount rows /\
  qty_per_month a = fold_left (upd (month_key fromisoformat) qty_of Z.add 0) rows [] /\
  revenue_per_month a =
    fold_left (upd (month_key fromisoformat) amount_of PrimFloat.add 0%float) rows [] /\
  engagement_per_month a =
    fold_left (upd (month_key fromisoformat) orders_of PrimFloat.add 0%float) rows [] /\
  country_sales a =
    fold_left (upd (fun r => category r "Country") amount_of PrimFloat.add 0%float)
              rows [] /\
  payment_counts a =
    fold_left (upd (fun r => category r "PaymentMode") (fun _ => 1) Z.add 0) rows [] /\
  months_set a = new_keys (map (month_key fromisoformat) rows) [].
Proof.
  unfold aggregate. intros H. apply aggregate_from_Ok in H as [HF ->].
  split; [assumption|].
  pose proof (fold_accumulate rows empty_accumulators) as H. simpl in H.
  destruct H as (H1 & H2 & H3 & H4 & H5 & H6 & H7).
  rewrite H1, H2, H3, H4, H5, H6, H7, fold_set_add. repeat split.
Qed.
End Loop.

(** ** Order on floats, from the specification of the primitives *)

Module FloatOrder.

Ltac cmp_cases :=
  repeat match goal with
    | H : context [Z.compare ?x ?y] |- _ => destruct (Z.compare_spec x y)
    | |- context [Z.compare ?x ?y] => destruct (Z.compare_spec x y)
    | H : context [Pos.compare_cont Eq ?x ?y] |- _ =>
        change (Pos.compare_cont Eq x y) with (Pos.compare x y) in H;
        destruct (Pos.compare_spec x y)
    | |- context [Pos.compare_cont Eq ?x ?y] =>
        change (Pos.compare_cont Eq x y) with (Pos.compare x y);
        destruct (Pos.compare_spec x y)
    end.

Ltac by_cases a b :=
  destruct a as [[]|[]| |[] ? ?], b as [[]|[]| |[] ? ?]; simpl; intros;
  try discriminate; try reflexivity; try congruence;
  cmp_cases; simpl in *; subst; try discriminate; try reflexivity; try lia.

Lemma SFcompare_opp a b : SFcompare (SFopp a) (SFopp b) = SFcompare b a.
Proof. by_cases a b. Qed.

Lemma SFleb_trans a b c :
  SFleb a b = true -> SFleb b c = true -> SFleb a c = true.
Proof.
  unfold SFleb.
  destruct a as [[]|[]| |[] ma ea], b as [[]|[]| |[] mb eb],
           c as [[]|[]| |[] mc ec]; simpl; intros H1 H2;
    try discriminate; try reflexivity;
    cmp_cases; simpl in *; subst; try discriminate; try reflexivity; try lia.
Qed.

Lemma SFleb_total a b :
  SFeqb a a = true -> SFeqb b b = true -> SFltb a b = false -> SFleb b a = true.
Proof. unfold SFeqb, SFleb, SFltb. by_cases a b. Qed.

Lemma SFltb_SFleb a b : SFltb a b = true -> SFleb a b = true.
Proof. unfold SFleb, SFltb. destruct (SFcompare a b) as [[]|]; congruence. Qed.

Lemma SFeqb_not_SFltb a b : SFeqb a b = true -> SFltb a b = false.
Proof. unfold SFeqb, SFltb. destruct (SFcompare a b) as [[]|]; congruence. Qed.

Lemma SFleb_not_SFltb a b : SFleb a b = true -> SFltb b a = false.
Proof. unfold SFleb, SFltb. by_cases a b. Qed.

Lemma SFltb_not_SFeqb a b : SFltb a b = true -> SFeqb b a = false.
Proof. unfold SFeqb, SFltb. by_cases a b. Qed.

(** [-x < -y] exactly when [y < x]. *)
Lemma ltb_opp (x y : float) : (- x <? - y)%float = (y <? x)%float.
Proof. rewrite !ltb_spec, !opp_spec. unfold SFltb. now rewrite SFcompare_opp. Qed.

Lemma leb_trans (x y z : float) :
  (x <=? y)%float = true -> (y <=? z)%float = true -> (x <=? z)%float = true.
Proof. rewrite !leb_spec. apply SFleb_trans. Qed.

(** Two numbers that are not NaN are comparable. *)
Lemma leb_total (x y : float) :
  is_nan x = false -> is_nan y = false ->
  (x <? y)%float = false -> (y <=? x)%float = true.
Proof.
  unfold is_nan. rewrite !negb_false_iff, !eqb_spec, ltb_spec, leb_spec.
  apply SFleb_total.
Qed.

Lemma ltb_leb (x y : float) : (x <? y)%float = true -> (x <=? y)%float = true.
Proof. rewrite ltb_spec, leb_spec. apply SFltb_SFleb. Qed.

Lemma eqb_not_ltb (x y : float) : (x =? y)%float = true -> (x <? y)%float = false.
Proof. rewrite ltb_spec, eqb_spec. apply SFeqb_not_SFltb. Qed.

Lemma leb_not_ltb (x y : float) : (x <=? y)%float = true -> (y <? x)%float = false.
Proof. rewrite ltb_spec, leb_spec. apply SFleb_not_SFltb. Qed.

(** A positive divisor is not zero. *)
Lemma positive_not_zero (y : float) :
  (0 <? y)%float = true -> (y =? 0)%float = false.
Proof. rewrite ltb_spec, eqb_spec. apply SFltb_not_SFeqb. Qed.

End FloatOrder.

(** ** [sorted] *)

Section Sorting.
Context {A : Type}.
Variable lt : A -> A -> bool.

Lemma sort_insert_perm x l : Permutation (sort_insert lt x l) (x :: l).
Proof.
  induction l as [|y l IH]; simpl; [reflexivity|].
  destruct (lt y x); [|reflexivity].
  rewrite IH. apply perm_swap.
Qed.

Lemma sorted_perm l : Permutation (sorted lt l) l.
Proof.
  induction l as [|x l IH]; [reflexivity|].
  change (sorted lt (x :: l)) with (sort_insert lt x (sorted lt l)).
  rewrite sort_insert_perm. now constructor.
Qed.

Lemma sorted_In l x : In x (sorted lt l) <-> In x l.
Proof.
  split; apply Permutation_in; [|symmetry]; apply sorted_perm.
Qed.

Lemma sort_insert_In x y l : In y (sort_insert lt x l) <-> y = x \/ In y l.
Proof.
  split.
  - intros H. apply (Permutation_in _ (sort_insert_perm x l)) in H.
    simpl in H. intuition.
  - intros H. apply (Permutation_in _ (Permutation_sym (sort_insert_perm x l))).
    simpl. intuition.
Qed.

(** What an insertion keeps: a relation that holds from every element
    smaller than [x] to [x], and from [x] to every element. *)
Lemma sort_insert_keeps (Q : A -> A -> Prop) x l :
  (forall y, In y l -> lt y x = true -> Q y x) ->
  (forall y, In y l -> Q x y) ->
  StronglySorted Q l -> StronglySorted Q (sort_insert lt x l).
Proof.
  induction l as [|y l IH]; intros Hlt Hall Hs; simpl.
  - repeat constructor.
  - inversion Hs as [|? ? Hs' Hy]; subst.
    destruct (lt y x) eqn:E.
    + constructor.
      * apply IH; [ intros z Hz Hzx; apply Hlt; simpl; auto
                  | intros z Hz; apply Hall; simpl; auto
                  | assumption ].
      * rewrite Forall_forall in *. intros z Hz.
        apply sort_insert_In in Hz as [->|Hz]; [apply Hlt; simpl; auto | auto].
    + constructor; [assumption|].
      apply Forall_forall. intros z Hz. apply Hall. assumption.
Qed.

(** Stability: what was in order [B] before sorting and is not strictly
    out of key order stays as it was. *)
Lemma sorted_stable (B : A -> A -> Prop) l :
  StronglySorted B l ->
  StronglySorted (fun x y => lt x y = true \/ B x y) (sorted lt l).
Proof.
  induction l as [|x l IH]; intros Hs; [constructor|].
  change (sorted lt (x :: l)) with (sort_insert lt x (sorted lt l)).
  inversion Hs as [|? ? Hs' Hx]; subst.
  apply sort_insert_keeps; [intros; left; assumption | | auto].
  intros y Hy. right. rewrite Forall_forall in Hx. apply Hx.
  now apply (proj1 (sorted_In _ _)).
Qed.

(** Order: a transitive [R] that follows from [lt] one way and from
    its failure the other way holds along the sorted list. *)
Lemma sort_insert_ordered (R : A -> A -> Prop) x l :
  (forall y, In y l -> lt y x = true -> R y x) ->
  (forall y, In y l -> lt y x = false -> R x y) ->
  (forall a b c, R a b -> R b c -> R a c) ->
  StronglySorted R l -> StronglySorted R (sort_insert lt x l).
Proof.
  induction l as [|y l IH]; intros Hlt Hge Htr Hs; simpl.
  - repeat constructor.
  - inversion Hs as [|? ? Hs' Hy]; subst.
    destruct (lt y x) eqn:E.
    + constructor.
      * apply IH; [ intros z Hz Hzx; apply Hlt; simpl; auto
                  | intros z Hz Hzx; apply Hge; simpl; auto
                  | assumption | assumption ].
      * rewrite Forall_forall in *. intros z Hz.
        apply sort_insert_In in Hz as [->|Hz]; [apply Hlt; simpl; auto | auto].
    + constructor; [assumption|].
      assert (R x y) by (apply Hge; simpl; auto).
      rewrite Forall_forall in *. intros z [<-|Hz]; [assumption|].
      apply Htr with y; auto.
Qed.

Lemma sorted_ordered (R : A -> A -> Prop) l :
  (forall x y, In x l -> In y l -> lt y x = true -> R y x) ->
  (forall x y, In x l -> In y l -> lt y x = false -> R x y) ->
  (forall a b c, R a b -> R b c -> R a c) ->
  StronglySorted R (sorted lt l).
Proof.
  induction l as [|x l IH]; intros Hlt Hge Htr; [constructor|].
  change (sorted lt (x :: l)) with (sort_insert lt x (sorted lt l)).
  apply sort_insert_ordered; auto.
  - intros y Hy. apply (proj1 (sorted_In _ _)) in Hy. apply Hlt; simpl; auto.
  - intros y Hy. apply (proj1 (sorted_In _ _)) in Hy. apply Hge; simpl; auto.
  - apply IH; [ intros a b Ha Hb; apply Hlt; simpl; auto
              | intros a b Ha Hb; apply Hge; simpl; auto
              | assumption ].
Qed.
End Sorting.

Lemma StronglySorted_map {A B} (f : A -> B) (R : B -> B -> Prop) l :
  StronglySorted (fun x y => R (f x) (f y)) l -> StronglySorted R (map f l).
Proof.
  induction 1 as [|a l Hs IH Ha]; simpl; constructor; [assumption|].
  rewrite Forall_forall in *. intros y Hy.
  apply in_map_iff in Hy as (x & <- & Hx). auto.
Qed.

(** ** The end-to-end scenario *)

(** C1.  On the two rows of the specification's end-to-end scenario
    (amounts 100 and 200, dated 2024-01-15 and 2024-02-10, countries A and
    B) the analysis returns totalRevenue 300, thisMonthRevenue 200,
    avgGrowth 100.0, the revenue trend Jan 100, Feb 200 and the country
    sales B 200 then A 100; the endpoint returns that response when the
    fetched CSV text holds these two rows.  The ISO parser is never
    consulted, so this holds for every behaviour of it. *)
Theorem scenario_two_rows :
  forall fromisoformat,
  exists resp,
    analyse fromisoformat scenario_rows = Ok resp /\
    get_analysis fromisoformat plain_DictReader (FetchResponse 200 scenario_csv)
      = Ok resp /\
    totalRevenue (kpis resp) = PyFloat 300 /\
    thisMonthRevenue (kpis resp) = PyFloat 200 /\
    avgGrowth (kpis resp) = PyFloat 100 /\
    revenueTrend resp = [("Jan", PyFloat 100); ("Feb", PyFloat 200)] /\
    countrySales resp = [("B", PyFloat 200); ("A", PyFloat 100)].
Proof.
  intros fromisoformat. eexists. split; [vm_compute; reflexivity|].
  split; [vm_compute; reflexivity|]. repeat split.
Qed.

(** ** [to_float] against the specification's [toNumber] *)

(** C3, counterexample.  On the text 1-2 the specification's stripping
    drops the inner minus sign and reads 12, while [to_float] keeps it,
    fails to parse 1-2 and returns 0. *)
Lemma to_float_minus_inside :
  to_float (Some "1-2") = Ok 0%float /\
  toNumber_spec (Some "1-2") = 12%float /\
  to_float (Some "1-2") <> Ok (toNumber_spec (Some "1-2")).
Proof.
  split; [reflexivity|]. split; [reflexivity|].
  intros H.
  apply (f_equal (fun r => match r with
                           | Ok x => (x =? 12)%float
                           | Raise _ => false
                           end)) in H.
  vm_compute in H. discriminate.
Qed.

Lemma filter_lstrip s : CURRENCY_RE_sub (Str.lstrip s) = CURRENCY_RE_sub s.
Proof.
  unfold CURRENCY_RE_sub. induction s as [|c s IH]; simpl; [reflexivity|].
  destruct (Str.is_space c) eqn:E; [|reflexivity].
  rewrite IH.
  assert (K : keeps_char c = false).
  { destruct c as [[] [] [] [] [] [] [] []]; vm_compute in E |- *; congruence. }
  now rewrite K.
Qed.

Lemma filter_rstrip s : CURRENCY_RE_sub (Str.rstrip s) = CURRENCY_RE_sub s.
Proof.
  unfold CURRENCY_RE_sub. induction s as [|c s IH]; simpl; [reflexivity|].
  destruct (Str.rstrip s) as [|c' s'] eqn:R.
  - simpl in IH. rewrite <- IH.
    destruct (Str.is_space c) eqn:E; simpl; [|reflexivity].
    assert (K : keeps_char c = false).
    { destruct c as [[] [] [] [] [] [] [] []]; vm_compute in E |- *; congruence. }
    now rewrite K.
  - rewrite <- IH. reflexivity.
Qed.

Lemma filter_strip s : CURRENCY_RE_sub (Str.strip s) = CURRENCY_RE_sub s.
Proof. unfold Str.strip. now rewrite filter_rstrip, filter_lstrip. Qed.

Lemma float_of_str_empty : float_of_str "" = Raise ValueError.
Proof. reflexivity. Qed.

(** C3, amended.  [to_float] never raises.  It removes every character
    that is not a digit, a decimal point or a minus sign, wherever the
    minus sign stands, and returns the float of what remains when that is
    a decimal numeral, and 0 when the input is absent or empty or when
    what remains is no numeral; the text $1,234.56 gives 1234.56, the
    empty text gives 0 and abc gives 0. *)
Theorem to_float_strips_and_parses :
  (forall val,
     to_float val =
     Ok match val with
        | None => 0%float
        | Some v =>
            match float_of_str (CURRENCY_RE_sub v) with
            | Ok x => x
            | Raise _ => 0%float
            end
        end) /\
  to_float (Some "$1,234.56") = Ok 0x1.34a3d70a3d70ap+10%float /\
  to_float (Some "") = Ok 0%float /\
  to_float (Some "abc") = Ok 0%float.
Proof.
  split; [|repeat split].
  intros [v|]; [|reflexivity].
  unfold to_float. rewrite filter_strip.
  destruct (Str.nonempty (Str.strip v)) eqn:N; simpl.
  - destruct (Str.nonempty (CURRENCY_RE_sub v)) eqn:M.
    + destruct (float_of_str_cases (CURRENCY_RE_sub v)) as [[x ->] | ->]; reflexivity.
    + destruct (CURRENCY_RE_sub v); [reflexivity | discriminate].
  - assert (E : CURRENCY_RE_sub v = "").
    { rewrite <- filter_strip. destruct (Str.strip v); [reflexivity | discriminate]. }
    now rewrite E.
Qed.

Lemma first_format_app s before : forall fmt after,
  Forall (fun f => raises (Date.strptime s f)) before ->
  first_format s (before ++ fmt :: after) =
  match Date.strptime s fmt with
  | Ok d => Some d
  | Raise _ => first_format s after
  end.
Proof.
  induction before as [|f before IH]; intros fmt after HF; simpl; [reflexivity|].
  inversion HF as [|? ? [e He] HF']; subst. rewrite He. now apply IH.
Qed.

Lemma first_format_none s fmts :
  Forall (fun f => raises (Date.strptime s f)) fmts -> first_format s fmts = None.
Proof.
  induction 1 as [|f fmts [e He] HF IH]; simpl; [reflexivity|]. now rewrite He.
Qed.

Lemma nonempty_true v : v <> "" -> Str.nonempty v = true.
Proof. destruct v; [congruence | reflexivity]. Qed.

Section Claims.
Variable fromisoformat : string -> result Date.date.
Variable DictReader : string -> result (list Row).


(** C4.  The date of a cell is the result of the first of the four
    formats year-month-day, day/month/year, month/day/year,
    year/month/day, tried in that order on the stripped text, that
    parses; when all four fail it is the result of the ISO parse, and
    none when that fails too.  So 2024-03-05 is March 5 2024,
    05/03/2024 fails the first format and is March 5 2024 by
    day/month/year, and all four formats fail on the text not a date,
    which gives none once the ISO parse rejects it. *)
Theorem to_date_first_format_then_iso :
  date_formats = ["%Y-%m-%d"; "%d/%m/%Y"; "%m/%d/%Y"; "%Y/%m/%d"] /\
  (forall v before fmt after d,
      v <> "" ->
      date_formats = (before ++ fmt :: after)%list ->
      Forall (fun f => raises (Date.strptime (Str.strip v) f)) before ->
      Date.strptime (Str.strip v) fmt = Ok d ->
      to_date fromisoformat (Some v) = Some d) /\
  (forall v,
      Forall (fun f => raises (Date.strptime (Str.strip v) f)) date_formats ->
      to_date fromisoformat (Some v) =
      match fromisoformat (Str.strip v) with
      | Ok d => Some d
      | Raise _ => None
      end) /\
  to_date fromisoformat None =
    match fromisoformat "" with
    | Ok d => Some d
    | Raise _ => None
    end /\
  to_date fromisoformat (Some "2024-03-05") = Some (Date.mkdate 2024 3 5) /\
  raises (Date.strptime "05/03/2024" "%Y-%m-%d") /\
  Date.strptime "05/03/2024" "%d/%m/%Y" = Ok (Date.mkdate 2024 3 5) /\
  to_date fromisoformat (Some "05/03/2024") = Some (Date.mkdate 2024 3 5) /\
  Forall (fun f => raises (Date.strptime "not a date" f)) date_formats /\
  (raises (fromisoformat "not a date") -> to_date fromisoformat (Some "not a date") = None).
Proof.
  split; [reflexivity|]. split; [|split; [|split; [reflexivity | repeat split]]].
  - intros v before fmt after d Hv Hf Hb Hd.
    unfold to_date, parse_date.
    rewrite (nonempty_true v Hv). simpl negb. cbv iota. rewrite Hf.
    rewrite first_format_app by assumption. now rewrite Hd.
  - intros v Hall. unfold to_date, parse_date.
    destruct (Str.nonempty v) eqn:N; simpl negb; cbv iota.
    + rewrite first_format_none by assumption.
      unfold or_str. now rewrite N.
    + destruct v; [reflexivity | discriminate].
  - eexists; reflexivity.
  - repeat constructor; eexists; reflexivity.
  - intros [e He].
    assert (E : to_date fromisoformat (Some "not a date") =
                match fromisoformat "not a date" with
                | Ok d => Some d
                | Raise _ => None
                end) by reflexivity.
    rewrite E, He. reflexivity.
Qed.

Lemma summarise_source a resp : summarise a = Ok resp -> source resp = "sheet".
Proof.
  unfold summarise. intros H.
  repeat (let x := fresh "x" in let Hx := fresh "Hx" in
          apply bind_Ok in H; destruct H as (x & Hx & H)).
  now injection H as <-.
Qed.

Lemma analyse_source rows resp : analyse fromisoformat rows = Ok resp -> source resp = "sheet".
Proof.
  unfold analyse. intros H. apply bind_Ok in H as (a & _ & H).
  now apply summarise_source in H.
Qed.

(** C5.  When the fetch raises, or answers with a status other than
    200, the endpoint returns the fixed example dataset, whose source is
    fallback, and no error; a response computed after a successful fetch
    has the source sheet. *)
Theorem fallback_on_failed_fetch :
  get_analysis fromisoformat DictReader FetchRaised = Ok fallback /\
  (forall status_code text,
      status_code <> 200 ->
      get_analysis fromisoformat DictReader (FetchResponse status_code text) = Ok fallback) /\
  source fallback = "fallback" /\
  (forall text resp,
      get_analysis fromisoformat DictReader (FetchResponse 200 text) = Ok resp ->
      source resp = "sheet").
Proof.
  split; [reflexivity|]. split; [|split; [reflexivity|]].
  - intros st text Hst. unfold get_analysis. simpl.
    destruct (Z.eqb_spec st 200); [contradiction | reflexivity].
  - intros text resp. unfold get_analysis. simpl.
    destruct (DictReader text) as [[|r rows]|e]; simpl; try discriminate.
    apply analyse_source.
Qed.

(** C6.  When the fetch answers 200 and the CSV text holds no data
    row, the endpoint raises the HTTP error 422 and does not return the
    fallback dataset. *)
Theorem no_rows_is_422 text :
  DictReader text = Ok [] ->
  get_analysis fromisoformat DictReader (FetchResponse 200 text) =
    Raise (HTTPException 422 "No rows in sheet") /\
  get_analysis fromisoformat DictReader (FetchResponse 200 text) <> Ok fallback.
Proof.
  intros H. unfold get_analysis. simpl. rewrite H. simpl.
  split; [reflexivity | discriminate].
Qed.
End Claims.

(** C4 at an ISO parser that knows a date followed by a time of day. *)
Lemma to_date_first_format_then_iso_witness :
  to_date iso_date_time (Some "2024-03-05") = Some (Date.mkdate 2024 3 5) /\
  to_date iso_date_time (Some "05/03/2024") = Some (Date.mkdate 2024 3 5) /\
  to_date iso_date_time (Some "not a date") = None /\
  to_date iso_date_time (Some "2024-03-05 10:30:00") = Some (Date.mkdate 2024 3 5).
Proof.
  pose proof (to_date_first_format_then_iso iso_date_time)
    as (_ & _ & Hiso & _ & H1 & _ & _ & H2 & _ & H3).
  split; [exact H1|]. split; [exact H2|]. split.
  - apply H3. eexists; vm_compute; reflexivity.
  - rewrite Hiso; [vm_compute; reflexivity|].
    repeat constructor; eexists; vm_compute; reflexivity.
Defined.

(** C6 at a CSV text that is its header line alone. *)
Lemma no_rows_is_422_witness :
  plain_DictReader header_only = Ok [] /\
  get_analysis iso_date_time plain_DictReader (FetchResponse 200 header_only) =
    Raise (HTTPException 422 "No rows in sheet").
Proof.
  split; [vm_compute; reflexivity|].
  apply (no_rows_is_422 iso_date_time plain_DictReader header_only).
  vm_compute; reflexivity.
Defined.

(** C5 at a 503 answer and at the scenario's CSV text. *)
Lemma fallback_on_failed_fetch_witness :
  get_analysis iso_date_time plain_DictReader (FetchResponse 503 "Service Unavailable")
    = Ok fallback /\
  exists resp,
    get_analysis iso_date_time plain_DictReader (FetchResponse 200 scenario_csv) = Ok resp /\
    source resp = "sheet".
Proof.
  pose proof (fallback_on_failed_fetch iso_date_time plain_DictReader)
    as (_ & Hbad & _ & Hgood).
  split; [apply Hbad; discriminate|].
  eexists. split; [vm_compute; reflexivity|].
  apply (Hgood scenario_csv). vm_compute. reflexivity.
Defined.

(** ** Month keys *)

Lemma digit_char_not_u r : 0 <= r < 10 -> ascii_of_N (Z.to_N (48 + r)) <> "u"%char.
Proof.
  intros Hr.
  assert (H : r = 0 \/ r = 1 \/ r = 2 \/ r = 3 \/ r = 4 \/ r = 5 \/ r = 6 \/
              r = 7 \/ r = 8 \/ r = 9) by lia.
  repeat (destruct H as [-> | H]; [vm_compute; discriminate|]).
  subst; vm_compute; discriminate.
Qed.

Lemma zero_padded_4 n :
  exists c1 c2 c3 c4,
    Str.zero_padded 4 n = String c1 (String c2 (String c3 (String c4 ""))) /\
    c1 <> "u"%char.
Proof.
  do 4 eexists. split; [simpl; reflexivity|].
  apply digit_char_not_u. apply Z.mod_pos_bound. lia.
Qed.

Lemma strftime_Y_m_shape d :
  Date.strftime_Y_m d <> "unknown" /\ Date.strftime_Y_m d <> "".
Proof.
  unfold Date.strftime_Y_m.
  destruct (zero_padded_4 (Date.year d)) as (c1 & c2 & c3 & c4 & -> & Hc).
  simpl. split; congruence.
Qed.

Section MonthKeys.
Variable fromisoformat : string -> result Date.date.

Lemma month_key_nonempty rrow : month_key fromisoformat rrow <> "".
Proof.
  unfold month_key. destruct (invoice_date fromisoformat rrow).
  - apply strftime_Y_m_shape.
  - discriminate.
Qed.

Lemma dated_iff rrow :
  dated fromisoformat rrow = negb (String.eqb (month_key fromisoformat rrow) "unknown").
Proof.
  unfold dated, month_key.
  destruct (invoice_date fromisoformat rrow) as [d|]; [|reflexivity].
  destruct (String.eqb_spec (Date.strftime_Y_m d) "unknown") as [E|]; [|reflexivity].
  now apply strftime_Y_m_shape in E.
Qed.
End MonthKeys.

(** ** [summarise], taken apart *)

Lemma summarise_unfold a :
  summarise a =
  (avg_growth <- growth (this_month_revenue_of a) (last_month_revenue_of a) ;;
   avg_qty_per_month <- avg_qty_of a ;;
   trend <- trend_of a ;;
   engagement <- engagement_of a ;;
   Ok {| source := "sheet";
         kpis := {| totalRevenue := PyFloat (Num.round2 (total_revenue a));
                    thisMonthRevenue := PyFloat (Num.round2 (this_month_revenue_of a));
                    avgGrowth := PyFloat (Num.round2 avg_growth);
                    avgQtyPerMonth := py_round2 avg_qty_per_month |};
         revenueTrend := trend;
         engagementTrend := engagement;
         countrySales := country_list_of a;
         paymentDistribution := payment_list_of a |}).
Proof. reflexivity. Qed.

Lemma summarise_Ok a resp :
  summarise a = Ok resp ->
  exists g q trend eng,
    growth (this_month_revenue_of a) (last_month_revenue_of a) = Ok g /\
    avg_qty_of a = Ok q /\
    trend_of a = Ok trend /\
    engagement_of a = Ok eng /\
    resp = {| source := "sheet";
              kpis := {| totalRevenue := PyFloat (Num.round2 (total_revenue a));
                         thisMonthRevenue := PyFloat (Num.round2 (this_month_revenue_of a));
                         avgGrowth := PyFloat (Num.round2 g);
                         avgQtyPerMonth := py_round2 q |};
              revenueTrend := trend;
              engagementTrend := eng;
              countrySales := country_list_of a;
              paymentDistribution := payment_list_of a |}.
Proof.
  rewrite summarise_unfold. intros H.
  apply bind_Ok in H as (g & Hg & H).
  apply bind_Ok in H as (q & Hq & H).
  apply bind_Ok in H as (t & Ht & H).
  apply bind_Ok in H as (e & He & H).
  exists g, q, t, e. repeat split; try assumption. now injection H as <-.
Qed.

(** ** No division by zero *)

Lemma nzd_bind {A B} (r : result A) (k : A -> result B) :
  no_zero_division r -> (forall a, no_zero_division (k a)) ->
  no_zero_division (bind r k).
Proof.
  unfold no_zero_division. destruct r as [a|e]; simpl; [auto|].
  intros H _ [= ->]. now apply H.
Qed.

Lemma nzd_Ok {A} (a : A) : no_zero_division (Ok a).
Proof. discriminate. Qed.

Lemma nzd_mapM {A B} (f : A -> result B) l :
  (forall a, no_zero_division (f a)) -> no_zero_division (mapM f l).
Proof.
  intros Hf. induction l as [|a l IH]; simpl; [apply nzd_Ok|].
  apply nzd_bind; [apply Hf|]. intros b.
  apply nzd_bind; [apply IH|]. intros; apply nzd_Ok.
Qed.

Lemma nzd_to_float v : no_zero_division (to_float v).
Proof. destruct (to_float_total v) as [x ->]. apply nzd_Ok. Qed.

Lemma nzd_int_of_float x : no_zero_division (Num.int_of_float x).
Proof. unfold Num.int_of_float. destruct (Prim2SF x); discriminate. Qed.

Lemma nzd_strptime s fmt : no_zero_division (Date.strptime s fmt).
Proof.
  unfold Date.strptime.
  destruct (Date.matches (Date.compile fmt) s (Date.mkdate 1900 1 1)) as [|[d [|]] ?];
    try discriminate.
  destruct (Date.valid _ _ _); discriminate.
Qed.

Lemma nzd_month_label m : no_zero_division (month_label m).
Proof.
  unfold month_label.
  destruct (_ && _); [|apply nzd_Ok].
  apply nzd_bind; [apply nzd_strptime | intros; apply nzd_Ok].
Qed.

Lemma nzd_growth x y : no_zero_division (growth x y).
Proof.
  unfold growth. destruct (0 <? y)%float eqn:E; [|apply nzd_Ok].
  unfold Num.float_truediv. rewrite (FloatOrder.positive_not_zero y E).
  simpl. apply nzd_Ok.
Qed.

Lemma nzd_int_truediv a b : b <> 0 -> no_zero_division (Num.int_truediv a b).
Proof.
  unfold Num.int_truediv. destruct b; [congruence| |]; intros _;
    destruct (Num.is_finite _); discriminate.
Qed.

Lemma nzd_summarise a : no_zero_division (summarise a).
Proof.
  rewrite summarise_unfold.
  apply nzd_bind; [apply nzd_growth|]. intros g.
  apply nzd_bind.
  { unfold avg_qty_of. destruct (0 <? _) eqn:E; [|apply nzd_Ok].
    apply nzd_bind; [|intros; apply nzd_Ok]. apply nzd_int_truediv. lia. }
  intros q. apply nzd_bind.
  { apply nzd_mapM. intros m. apply nzd_bind; [apply nzd_month_label|].
    intros l. apply nzd_bind; [|intros; apply nzd_Ok].
    unfold Dict.index. destruct (Dict.get _ _); discriminate. }
  intros t. apply nzd_bind; [|intros; apply nzd_Ok].
  apply nzd_mapM. intros m. apply nzd_bind; [apply nzd_month_label|].
  intros; apply nzd_Ok.
Qed.

Section NoZeroDivision.
Variable fromisoformat : string -> result Date.date.

Lemma nzd_step a rrow : no_zero_division (step fromisoformat a rrow).
Proof.
  unfold step.
  apply nzd_bind; [apply nzd_to_float|]. intros x.
  apply nzd_bind.
  { unfold row_qty. apply nzd_bind; [apply nzd_to_float|].
    intros; apply nzd_int_of_float. }
  intros q. apply nzd_bind; [apply nzd_to_float|]. intros; apply nzd_Ok.
Qed.

Lemma nzd_aggregate_from rows : forall a,
  no_zero_division (aggregate_from fromisoformat a rows).
Proof.
  induction rows as [|r rows IH]; intros a; simpl; [apply nzd_Ok|].
  apply nzd_bind; [apply nzd_step | intros; apply IH].
Qed.

Lemma nzd_analyse rows : no_zero_division (analyse fromisoformat rows).
Proof.
  unfold analyse. apply nzd_bind; [apply nzd_aggregate_from|].
  intros; apply nzd_summarise.
Qed.
End NoZeroDivision.

Lemma or_str_Some_empty s : or_str (Some s) "" = s.
Proof. destruct s; reflexivity. Qed.

Lemma nth_from_end_1 {A} (l : list A) x : nth_from_end 1 (l ++ [x]) = Some x.
Proof. unfold nth_from_end. now rewrite rev_app_distr. Qed.

Lemma nth_from_end_2 {A} (l : list A) x y : nth_from_end 2 (l ++ [x; y]) = Some x.
Proof. unfold nth_from_end. now rewrite rev_app_distr. Qed.

Lemma nth_from_end_short {A} (l : list A) :
  (List.length l < 2)%nat ->
  (if (2 <=? List.length l)%nat then nth_from_end 2 l else None) = None.
Proof. intros H. destruct (Nat.leb_spec 2 (List.length l)); [lia | reflexivity]. Qed.

Section Lookups.
Variable fromisoformat : string -> result Date.date.

Lemma valid_months_observed rows a :
  aggregate fromisoformat rows = Ok a -> valid_months_of a = observed_months fromisoformat rows.
Proof.
  intros H. apply aggregate_Ok in H as (_ & _ & _ & _ & _ & _ & _ & Hms).
  unfold valid_months_of, observed_months. now rewrite Hms.
Qed.

Lemma revenue_lookup rows a m :
  aggregate fromisoformat rows = Ok a ->
  Dict.get_default (revenue_per_month a) m 0%float = month_revenue fromisoformat rows m.
Proof.
  intros H. apply aggregate_Ok in H as (_ & _ & _ & Hrev & _).
  rewrite Hrev.
  apply (grouped_get_default (month_key fromisoformat) amount_of PrimFloat.add
                             0%float rows []).
Qed.

Lemma engagement_lookup rows a m :
  aggregate fromisoformat rows = Ok a ->
  Dict.get_default (engagement_per_month a) m 0%float = month_engagement fromisoformat rows m.
Proof.
  intros H. apply aggregate_Ok in H as (_ & _ & _ & _ & Heng & _).
  rewrite Heng.
  apply (grouped_get_default (month_key fromisoformat) orders_of PrimFloat.add
                             0%float rows []).
Qed.

Lemma qty_lookup rows a m :
  aggregate fromisoformat rows = Ok a ->
  Dict.get_default (qty_per_month a) m 0 = month_qty fromisoformat rows m.
Proof.
  intros H. apply aggregate_Ok in H as (_ & _ & Hqty & _).
  rewrite Hqty. apply (grouped_get_default (month_key fromisoformat) qty_of Z.add 0 rows []).
Qed.

Lemma revenue_get rows a m :
  aggregate fromisoformat rows = Ok a ->
  Dict.get (revenue_per_month a) m =
  if existsb (String.eqb m) (map (month_key fromisoformat) rows)
  then Some (month_revenue fromisoformat rows m) else None.
Proof.
  intros H. apply aggregate_Ok in H as (_ & _ & _ & Hrev & _).
  rewrite Hrev.
  apply (grouped_get (month_key fromisoformat) amount_of PrimFloat.add 0%float rows m).
Qed.

Lemma no_row_of_empty_month rows :
  List.filter (has_month fromisoformat "") rows = [].
Proof.
  induction rows as [|r rows IH]; simpl; [reflexivity|].
  unfold has_month at 1.
  destruct (String.eqb_spec (month_key fromisoformat r) "") as [E|]; [|assumption].
  now apply month_key_nonempty in E.
Qed.

Lemma month_revenue_empty rows : month_revenue fromisoformat rows "" = 0%float.
Proof. unfold month_revenue. now rewrite no_row_of_empty_month. Qed.

(** The growth the response reports, from the revenues of the two
    latest months. *)
Lemma growth_of_months rows a resp :
  aggregate fromisoformat rows = Ok a -> summarise a = Ok resp ->
  (forall earlier prev cur,
      observed_months fromisoformat rows = (earlier ++ [prev; cur])%list ->
      growth (month_revenue fromisoformat rows cur)
             (month_revenue fromisoformat rows prev) <> Raise ZeroDivisionError /\
      forall g, growth (month_revenue fromisoformat rows cur)
                       (month_revenue fromisoformat rows prev) = Ok g ->
                avgGrowth (kpis resp) = PyFloat (Num.round2 g)) /\
  ((List.length (observed_months fromisoformat rows) < 2)%nat ->
   avgGrowth (kpis resp) = PyFloat 0).
Proof.
  intros Ha Hs.
  apply summarise_Ok in Hs as (g & q & t & e & Hg & _ & _ & _ & ->).
  unfold this_month_revenue_of, last_month_revenue_of in Hg.
  rewrite (valid_months_observed rows a Ha) in Hg.
  rewrite !(revenue_lookup rows a _ Ha) in Hg. simpl avgGrowth.
  split.
  - intros earlier prev cur Hm. split; [apply nzd_growth|].
    rewrite Hm in Hg.
    change (earlier ++ [prev; cur])%list with (earlier ++ [prev] ++ [cur])%list in Hg at 1.
    rewrite app_assoc, nth_from_end_1, nth_from_end_2 in Hg.
    rewrite length_app in Hg. simpl List.length in Hg.
    replace (2 <=? List.length earlier + 2)%nat with true in Hg
      by (symmetry; apply Nat.leb_le; lia).
    rewrite !or_str_Some_empty in Hg.
    intros g' Hg'. congruence.
  - intros Hlen. rewrite (nth_from_end_short _ Hlen) in Hg.
    simpl or_str in Hg at 2. rewrite month_revenue_empty in Hg.
    unfold growth in Hg. change (0 <? 0)%float with false in Hg.
    now injection Hg as <-.
Qed.
End Lookups.

(** C2, counterexample.  With a revenue of 3 in January and 4 in
    February the response's avgGrowth is 33.33, not the percentage
    (4 - 3) / 3 * 100 itself. *)
Lemma avg_growth_is_not_the_raw_percentage :
  exists resp,
    analyse iso_date_time thirds_rows = Ok resp /\
    observed_months iso_date_time thirds_rows = ["2024-01"; "2024-02"] /\
    month_revenue iso_date_time thirds_rows "2024-01" = 3%float /\
    month_revenue iso_date_time thirds_rows "2024-02" = 4%float /\
    avgGrowth (kpis resp) = PyFloat 33.33%float /\
    avgGrowth (kpis resp) <> PyFloat ((4 - 3) / 3 * 100)%float.
Proof.
  eexists. split; [vm_compute; reflexivity|].
  repeat split; try (vm_compute; reflexivity).
  intros H.
  apply (f_equal (fun n => match n with
                           | PyFloat f => (f =? 33.33)%float
                           | PyInt _ => false
                           end)) in H.
  vm_compute in H. discriminate.
Qed.

Section Growth.
Variable fromisoformat : string -> result Date.date.

(** C2, amended.  The analysis never raises a division error.  The
    growth of lines 214-216 is ((current - previous) / previous) * 100
    when previous is strictly positive and 0 otherwise.  In a computed
    response avgGrowth is that percentage rounded to two decimals, where
    current and previous are the revenues of the two latest observed
    months, when previous is strictly positive; it is 0 when previous is
    not positive (zero, negative or NaN) and when fewer than two months
    were observed. *)
Theorem avg_growth_is_the_rounded_percentage :
  (forall rows, analyse fromisoformat rows <> Raise ZeroDivisionError) /\
  (forall rc rp,
      growth rc rp =
      Ok (if (0 <? rp)%float then ((rc - rp) / rp * 100)%float else 0%float)) /\
  (forall rows resp,
      analyse fromisoformat rows = Ok resp ->
      (forall earlier prev cur,
          observed_months fromisoformat rows = (earlier ++ [prev; cur])%list ->
          let rp := month_revenue fromisoformat rows prev in
          let rc := month_revenue fromisoformat rows cur in
          ((0 <? rp)%float = true ->
           avgGrowth (kpis resp) = PyFloat (Num.round2 ((rc - rp) / rp * 100))) /\
          ((0 <? rp)%float = false -> avgGrowth (kpis resp) = PyFloat 0) /\
          ((rp <=? 0)%float = true -> avgGrowth (kpis resp) = PyFloat 0)) /\
      ((List.length (observed_months fromisoformat rows) < 2)%nat ->
       avgGrowth (kpis resp) = PyFloat 0)).
Proof.
  split; [apply nzd_analyse|]. split.
  { intros rc rp. unfold growth, Num.float_truediv.
    destruct (0 <? rp)%float eqn:Hp; [|reflexivity].
    now rewrite (FloatOrder.positive_not_zero rp Hp). }
  intros rows resp H. unfold analyse in H.
  apply bind_Ok in H as (a & Ha & Hs).
  destruct (growth_of_months fromisoformat rows a resp Ha Hs) as [Hmonths Hshort].
  split; [|exact Hshort].
  intros earlier prev cur Hm rp rc.
  destruct (Hmonths earlier prev cur Hm) as [_ Hg].
  fold rp rc in Hg.
  assert (Hpos : (0 <? rp)%float = true ->
                 avgGrowth (kpis resp) = PyFloat (Num.round2 ((rc - rp) / rp * 100))).
  { intros Hp. apply Hg. unfold growth, Num.float_truediv.
    now rewrite Hp, (FloatOrder.positive_not_zero rp Hp). }
  assert (Hnon : (0 <? rp)%float = false -> avgGrowth (kpis resp) = PyFloat 0).
  { intros Hp. rewrite (Hg 0%float); [reflexivity|].
    unfold growth. now rewrite Hp. }
  split; [exact Hpos|]. split; [exact Hnon|].
  intros Hle. apply Hnon. now apply FloatOrder.leb_not_ltb.
Qed.
End Growth.

(** C2, amended, at a revenue of 3 in January and 4 in February. *)
Lemma avg_growth_is_the_rounded_percentage_witness :
  exists resp,
    analyse iso_date_time thirds_rows = Ok resp /\
    avgGrowth (kpis resp) = PyFloat (Num.round2 ((4 - 3) / 3 * 100)).
Proof.
  eexists. split; [vm_compute; reflexivity|].
  destruct (avg_growth_is_the_rounded_percentage iso_date_time) as (_ & _ & H).
  destruct (H thirds_rows _ eq_refl) as [Hm _].
  destruct (Hm [] "2024-01" "2024-02" eq_refl) as [Hpos _].
  apply Hpos. vm_compute. reflexivity.
Defined.

Lemma StronglySorted_unmap {A B} (f : A -> B) (R : B -> B -> Prop) l :
  StronglySorted R (map f l) -> StronglySorted (fun x y => R (f x) (f y)) l.
Proof.
  induction l as [|a l IH]; simpl; intros H; [constructor|].
  inversion H as [|? ? Hs Ha]; subst. constructor; [auto|].
  rewrite Forall_forall in *. intros y Hy. apply Ha. now apply in_map.
Qed.

Lemma map_fst_pair {A B} (g : string -> B) (l : list (string * A)) (h : string * A -> string * B) :
  (forall kv, In kv l -> h kv = (fst kv, g (fst kv))) ->
  map h l = map (fun k => (k, g k)) (map fst l).
Proof.
  intros H. rewrite map_map. apply map_ext_in. exact H.
Qed.

(** ** The two breakdowns, on the rows *)

Section Breakdowns.
Variable fromisoformat : string -> result Date.date.

Lemma country_keys rows a :
  aggregate fromisoformat rows = Ok a ->
  Dict.keys (country_sales a) = new_keys (countries_of rows) [].
Proof.
  intros H. apply aggregate_Ok in H as (_ & _ & _ & _ & _ & Hcs & _).
  rewrite Hcs. apply grouped_keys_empty.
Qed.

Lemma payment_keys rows a :
  aggregate fromisoformat rows = Ok a ->
  Dict.keys (payment_counts a) = new_keys (payments_of rows) [].
Proof.
  intros H. apply aggregate_Ok in H as (_ & _ & _ & _ & _ & _ & Hpc & _).
  rewrite Hpc. apply grouped_keys_empty.
Qed.

Lemma country_item rows a kv :
  aggregate fromisoformat rows = Ok a -> In kv (country_sales a) ->
  snd kv = country_revenue rows (fst kv).
Proof.
  intros Ha Hin. destruct kv as [c v]. simpl.
  apply DictFacts.In_get in Hin.
  2:{ rewrite (country_keys rows a Ha). apply new_keys_NoDup. }
  apply aggregate_Ok in Ha as (_ & _ & _ & _ & _ & Hcs & _).
  rewrite Hcs, grouped_get in Hin.
  destruct (existsb _ _); [|discriminate]. now injection Hin as <-.
Qed.

Lemma payment_item rows a kv :
  aggregate fromisoformat rows = Ok a -> In kv (payment_counts a) ->
  snd kv = payment_count rows (fst kv).
Proof.
  intros Ha Hin. destruct kv as [p v]. simpl.
  apply DictFacts.In_get in Hin.
  2:{ rewrite (payment_keys rows a Ha). apply new_keys_NoDup. }
  apply aggregate_Ok in Ha as (_ & _ & _ & _ & _ & _ & Hpc & _).
  rewrite Hpc, grouped_get in Hin.
  destruct (existsb _ _); [|discriminate]. injection Hin as <-.
  rewrite count_fold. reflexivity.
Qed.

Lemma country_list_names a :
  map fst (country_list_of a) = map fst (sorted neg_float_key (country_sales a)).
Proof. unfold country_list_of. rewrite map_map. reflexivity. Qed.

Lemma payment_list_names a :
  map fst (payment_list_of a) = map fst (sorted neg_int_key (payment_counts a)).
Proof. unfold payment_list_of. rewrite map_map. reflexivity. Qed.

Lemma country_list_values rows a :
  aggregate fromisoformat rows = Ok a ->
  country_list_of a =
  map (fun c => (c, PyFloat (Num.round2 (country_revenue rows c))))
      (map fst (country_list_of a)).
Proof.
  intros Ha. rewrite country_list_names. unfold country_list_of.
  apply map_fst_pair with (g := fun c => PyFloat (Num.round2 (country_revenue rows c))).
  intros kv Hin. apply (proj1 (sorted_In _ _ _)) in Hin.
  now rewrite (country_item rows a kv Ha Hin).
Qed.

Lemma payment_list_values rows a :
  aggregate fromisoformat rows = Ok a ->
  payment_list_of a =
  map (fun p => (p, PyInt (payment_count rows p))) (map fst (payment_list_of a)).
Proof.
  intros Ha. rewrite payment_list_names. unfold payment_list_of.
  apply map_fst_pair with (g := fun p => PyInt (payment_count rows p)).
  intros kv Hin. apply (proj1 (sorted_In _ _ _)) in Hin.
  now rewrite (payment_item rows a kv Ha Hin).
Qed.

(** Payment modes: descending counts, ties in order of first row. *)
Lemma payment_names_sorted rows a :
  aggregate fromisoformat rows = Ok a ->
  let names := map fst (sorted neg_int_key (payment_counts a)) in
  Permutation names (new_keys (payments_of rows) []) /\
  StronglySorted (fun p q => payment_count rows q <= payment_count rows p) names /\
  StronglySorted (fun p q => payment_count rows p = payment_count rows q ->
                             (first_index p (payments_of rows)
                              < first_index q (payments_of rows))%nat) names.
Proof.
  intros Ha names. subst names.
  assert (Hitem : forall kv, In kv (sorted neg_int_key (payment_counts a)) ->
                             snd kv = payment_count rows (fst kv)).
  { intros kv Hin. apply (proj1 (sorted_In _ _ _)) in Hin.
    now apply payment_item with a. }
  split; [|split].
  - rewrite <- (payment_keys rows a Ha). unfold Dict.keys.
    apply Permutation_map, sorted_perm.
  - apply StronglySorted_map.
    apply StronglySorted_impl_In
      with (R := fun x y : string * Z => snd y <= snd x).
    + intros x y Hx Hy. now rewrite <- (Hitem x Hx), <- (Hitem y Hy).
    + apply sorted_ordered; unfold neg_int_key.
      * intros x y _ _ H. apply Z.ltb_lt in H. lia.
      * intros x y _ _ H. apply Z.ltb_ge in H. lia.
      * intros x y z. lia.
  - apply StronglySorted_map.
    apply StronglySorted_impl_In
      with (R := fun x y : string * Z =>
                   neg_int_key x y = true \/
                   (first_index (fst x) (payments_of rows)
                    < first_index (fst y) (payments_of rows))%nat).
    + intros x y Hx Hy [Hlt|Hb] Heq; [|exact Hb].
      rewrite <- (Hitem x Hx), <- (Hitem y Hy) in Heq.
      unfold neg_int_key in Hlt. apply Z.ltb_lt in Hlt. lia.
    + apply sorted_stable.
      apply (StronglySorted_unmap fst
               (fun k1 k2 => (first_index k1 (payments_of rows)
                              < first_index k2 (payments_of rows))%nat)).
      change (map fst (payment_counts a)) with (Dict.keys (payment_counts a)).
      rewrite (payment_keys rows a Ha). apply new_keys_first_index.
Qed.

(** The countries as [sorted] lists them: ties in order of first row;
    descending revenue when no sum is NaN. *)
Lemma country_names_sorted rows a :
  aggregate fromisoformat rows = Ok a ->
  let names := map fst (sorted neg_float_key (country_sales a)) in
  Permutation names (new_keys (countries_of rows) []) /\
  StronglySorted
    (fun c d => (country_revenue rows c =? country_revenue rows d)%float = true ->
                (first_index c (countries_of rows)
                 < first_index d (countries_of rows))%nat) names /\
  ((forall c, In c names -> is_nan (country_revenue rows c) = false) ->
   StronglySorted
     (fun c d => (country_revenue rows d <=? country_revenue rows c)%float = true)
     names).
Proof.
  intros Ha names. subst names.
  assert (Hitem : forall kv, In kv (sorted neg_float_key (country_sales a)) ->
                             snd kv = country_revenue rows (fst kv)).
  { intros kv Hin. apply (proj1 (sorted_In _ _ _)) in Hin.
    now apply country_item with a. }
  split; [|split].
  - rewrite <- (country_keys rows a Ha). unfold Dict.keys.
    apply Permutation_map, sorted_perm.
  - apply StronglySorted_map.
    apply StronglySorted_impl_In
      with (R := fun x y : string * float =>
                   neg_float_key x y = true \/
                   (first_index (fst x) (countries_of rows)
                    < first_index (fst y) (countries_of rows))%nat).
    + intros x y Hx Hy [Hlt|Hb] Heq; [|exact Hb].
      rewrite <- (Hitem x Hx), <- (Hitem y Hy) in Heq.
      unfold neg_float_key in Hlt. rewrite FloatOrder.ltb_opp in Hlt.
      rewrite ltb_spec in Hlt. apply FloatOrder.SFltb_not_SFeqb in Hlt.
      rewrite eqb_spec in Heq. congruence.
    + apply sorted_stable.
      apply (StronglySorted_unmap fst
               (fun k1 k2 => (first_index k1 (countries_of rows)
                              < first_index k2 (countries_of rows))%nat)).
      change (map fst (country_sales a)) with (Dict.keys (country_sales a)).
      rewrite (country_keys rows a Ha). apply new_keys_first_index.
  - intros Hnan. apply StronglySorted_map.
    apply StronglySorted_impl_In
      with (R := fun x y : string * float => (snd y <=? snd x)%float = true).
    + intros x y Hx Hy. now rewrite <- (Hitem x Hx), <- (Hitem y Hy).
    + assert (Hn : forall x, In x (country_sales a) -> is_nan (snd x) = false).
      { intros x Hx. rewrite (country_item rows a x Ha Hx). apply Hnan.
        apply in_map. now apply sorted_In. }
      apply sorted_ordered; unfold neg_float_key.
      * intros x y _ _ H. rewrite FloatOrder.ltb_opp in H.
        now apply FloatOrder.ltb_leb.
      * intros x y Hx Hy H. rewrite FloatOrder.ltb_opp in H.
        apply FloatOrder.leb_total; auto.
      * intros x y z Hxy Hyz. eapply FloatOrder.leb_trans; eassumption.
Qed.
End Breakdowns.

Lemma filter_idem {A} (p : A -> bool) l :
  List.filter p (List.filter p l) = List.filter p l.
Proof.
  induction l as [|x l IH]; simpl; [reflexivity|].
  destruct (p x) eqn:E; simpl; [rewrite E; f_equal|]; assumption.
Qed.

Lemma existsb_filter_known k l :
  known k = true ->
  existsb (String.eqb k) (List.filter known l) = existsb (String.eqb k) l.
Proof.
  intros Hk. induction l as [|x l IH]; simpl; [reflexivity|].
  destruct (known x) eqn:E; simpl; [now rewrite IH|].
  rewrite IH. destruct (String.eqb_spec k x) as [->|]; [congruence | reflexivity].
Qed.

(** Dropping a key from the input drops it from the new keys and
    leaves the others where they were. *)
Lemma filter_new_keys ks : forall seen,
  List.filter known (new_keys ks seen) =
  new_keys (List.filter known ks) (List.filter known seen).
Proof.
  induction ks as [|k ks IH]; intros seen; simpl; [reflexivity|].
  destruct (known k) eqn:Hk; simpl.
  - rewrite (existsb_filter_known k seen Hk).
    destruct (existsb (String.eqb k) seen); [apply IH|].
    simpl. rewrite Hk, IH, filter_app. simpl. now rewrite Hk.
  - destruct (existsb (String.eqb k) seen); [apply IH|].
    simpl. rewrite Hk, IH, filter_app. simpl. rewrite Hk. now rewrite app_nil_r.
Qed.

Lemma mapM_ext_in {A B} (f g : A -> result B) l :
  (forall x, In x l -> f x = g x) -> mapM f l = mapM g l.
Proof.
  induction l as [|x l IH]; intros H; simpl; [reflexivity|].
  rewrite (H x) by (simpl; auto). rewrite IH; [reflexivity|].
  intros; apply H; simpl; auto.
Qed.

Lemma In_last_n {A} n (l : list A) x : In x (last_n n l) -> In x l.
Proof.
  unfold last_n. intros H.
  rewrite <- (firstn_skipn (List.length l - n) l). apply in_or_app. now right.
Qed.

Lemma In_nth_from_end {A} n (l : list A) x : nth_from_end n l = Some x -> In x l.
Proof.
  unfold nth_from_end. intros H. apply nth_error_In in H. now apply in_rev.
Qed.

Lemma In_valid_months a m : In m (valid_months_of a) -> known m = true.
Proof.
  unfold valid_months_of. intros H. apply (proj1 (sorted_In _ _ _)) in H.
  now apply filter_In in H.
Qed.

Lemma known_empty : known "" = true.
Proof. reflexivity. Qed.

Section Undated.
Variable fromisoformat : string -> result Date.date.

Lemma dated_known rrow : dated fromisoformat rrow = known (month_key fromisoformat rrow).
Proof. apply dated_iff. Qed.

Lemma month_keys_of_dated rows :
  map (month_key fromisoformat) (List.filter (dated fromisoformat) rows) =
  List.filter known (map (month_key fromisoformat) rows).
Proof.
  induction rows as [|r rows IH]; simpl; [reflexivity|].
  rewrite dated_known. destruct (known (month_key fromisoformat r)); simpl; now rewrite IH.
Qed.

Lemma observed_months_of_dated rows :
  observed_months fromisoformat (List.filter (dated fromisoformat) rows) =
  observed_months fromisoformat rows.
Proof.
  unfold observed_months. f_equal.
  change (fun m => negb (String.eqb m "unknown")) with known.
  rewrite month_keys_of_dated, !filter_new_keys, filter_idem. reflexivity.
Qed.

Lemma rows_of_known_month rows m :
  known m = true ->
  List.filter (has_month fromisoformat m) (List.filter (dated fromisoformat) rows) =
  List.filter (has_month fromisoformat m) rows.
Proof.
  intros Hm. induction rows as [|r rows IH]; simpl; [reflexivity|].
  destruct (has_month fromisoformat m r) eqn:E.
  - assert (D : dated fromisoformat r = true).
    { rewrite dated_known. unfold has_month in E.
      apply String.eqb_eq in E. now rewrite E. }
    rewrite D. simpl. rewrite E. now f_equal.
  - destruct (dated fromisoformat r); simpl; [rewrite E|]; assumption.
Qed.

Lemma converts_dated rows :
  Forall converts rows -> Forall converts (List.filter (dated fromisoformat) rows).
Proof.
  intros H. apply Forall_forall. intros r Hr. apply filter_In in Hr as [Hr _].
  rewrite Forall_forall in H. auto.
Qed.

Lemma aggregate_dated rows a :
  aggregate fromisoformat rows = Ok a ->
  exists a', aggregate fromisoformat (List.filter (dated fromisoformat) rows) = Ok a'.
Proof.
  intros H. apply aggregate_Ok in H as (HF & _).
  eexists. apply aggregate_from_converts. now apply converts_dated.
Qed.

Section SameMonths.
Variables (rows : list Row) (a a' : accumulators).
Hypothesis Ha : aggregate fromisoformat rows = Ok a.
Hypothesis Ha' : aggregate fromisoformat (List.filter (dated fromisoformat) rows) = Ok a'.

Lemma same_valid_months : valid_months_of a' = valid_months_of a.
Proof.
  rewrite (valid_months_observed _ _ _ Ha), (valid_months_observed _ _ _ Ha').
  apply observed_months_of_dated.
Qed.

Lemma same_revenue m :
  known m = true ->
  Dict.get_default (revenue_per_month a') m 0%float =
  Dict.get_default (revenue_per_month a) m 0%float.
Proof.
  intros Hm. rewrite (revenue_lookup _ _ _ m Ha), (revenue_lookup _ _ _ m Ha').
  unfold month_revenue. now rewrite rows_of_known_month.
Qed.

Lemma same_engagement m :
  known m = true ->
  Dict.get_default (engagement_per_month a') m 0%float =
  Dict.get_default (engagement_per_month a) m 0%float.
Proof.
  intros Hm. rewrite (engagement_lookup _ _ _ m Ha), (engagement_lookup _ _ _ m Ha').
  unfold month_engagement. now rewrite rows_of_known_month.
Qed.

Lemma same_qty m :
  known m = true ->
  Dict.get_default (qty_per_month a') m 0 = Dict.get_default (qty_per_month a) m 0.
Proof.
  intros Hm. rewrite (qty_lookup _ _ _ m Ha), (qty_lookup _ _ _ m Ha').
  unfold month_qty. now rewrite rows_of_known_month.
Qed.

Lemma same_revenue_index m :
  known m = true ->
  Dict.index (revenue_per_month a') m = Dict.index (revenue_per_month a) m.
Proof.
  intros Hm. unfold Dict.index.
  rewrite (revenue_get _ _ _ m Ha), (revenue_get _ _ _ m Ha').
  rewrite month_keys_of_dated, (existsb_filter_known m _ Hm).
  unfold month_revenue. now rewrite rows_of_known_month.
Qed.

Lemma known_month_or_empty (o : option string) :
  (forall m, o = Some m -> In m (valid_months_of a)) ->
  known (or_str o "") = true.
Proof.
  intros H. destruct o as [m|]; [|reflexivity].
  rewrite or_str_Some_empty. apply In_valid_months with a. now apply H.
Qed.

Lemma same_this_month : this_month_revenue_of a' = this_month_revenue_of a.
Proof.
  unfold this_month_revenue_of. rewrite same_valid_months.
  apply same_revenue. apply known_month_or_empty.
  intros m. apply In_nth_from_end.
Qed.

Lemma same_last_month : last_month_revenue_of a' = last_month_revenue_of a.
Proof.
  unfold last_month_revenue_of. rewrite same_valid_months.
  apply same_revenue. apply known_month_or_empty.
  intros m. destruct (2 <=? _)%nat; [apply In_nth_from_end | discriminate].
Qed.

Lemma same_avg_qty : avg_qty_of a' = avg_qty_of a.
Proof.
  unfold avg_qty_of. rewrite same_valid_months.
  rewrite (map_ext_in (fun m => Dict.get_default (qty_per_month a') m 0)
                      (fun m => Dict.get_default (qty_per_month a) m 0));
    [reflexivity|].
  intros m Hm. apply same_qty. now apply In_valid_months with a.
Qed.

Lemma same_trend : trend_of a' = trend_of a.
Proof.
  unfold trend_of. rewrite same_valid_months. apply mapM_ext_in.
  intros m Hm. apply In_last_n, In_valid_months in Hm.
  now rewrite same_revenue_index.
Qed.

Lemma same_engagement_trend : engagement_of a' = engagement_of a.
Proof.
  unfold engagement_of. rewrite same_valid_months. apply mapM_ext_in.
  intros m Hm. apply In_last_n, In_valid_months in Hm.
  now rewrite same_engagement.
Qed.
End SameMonths.

(** The month-based outputs do not see the undated rows. *)
Lemma month_outputs_of_dated rows resp :
  analyse fromisoformat rows = Ok resp ->
  exists resp',
    analyse fromisoformat (List.filter (dated fromisoformat) rows) = Ok resp' /\
    revenueTrend resp' = revenueTrend resp /\
    engagementTrend resp' = engagementTrend resp /\
    avgQtyPerMonth (kpis resp') = avgQtyPerMonth (kpis resp) /\
    thisMonthRevenue (kpis resp') = thisMonthRevenue (kpis resp) /\
    avgGrowth (kpis resp') = avgGrowth (kpis resp).
Proof.
  unfold analyse. intros H. apply bind_Ok in H as (a & Ha & Hs).
  destruct (aggregate_dated rows a Ha) as [a' Ha'].
  apply summarise_Ok in Hs as (g & q & t & e & Hg & Hq & Ht & He & ->).
  rewrite Ha'. simpl bind. rewrite summarise_unfold.
  rewrite (same_this_month rows a a' Ha Ha'), (same_last_month rows a a' Ha Ha'),
    (same_avg_qty rows a a' Ha Ha'), (same_trend rows a a' Ha Ha'),
    (same_engagement_trend rows a a' Ha Ha'), Hg, Hq, Ht, He.
  simpl. eexists. split; [reflexivity|]. simpl. repeat split.
Qed.

Lemma unknown_not_observed rows : ~ In "unknown" (observed_months fromisoformat rows).
Proof.
  unfold observed_months. intros H.
  apply (proj1 (sorted_In _ _ _)) in H. apply filter_In in H as [_ H]. discriminate.
Qed.

Lemma avg_qty_formula rows a resp :
  aggregate fromisoformat rows = Ok a -> summarise a = Ok resp ->
  exists q,
    Num.int_truediv
      (fold_left Z.add (map (month_qty fromisoformat rows) (observed_months fromisoformat rows)) 0)
      (Z.max 1 (Z.of_nat (List.length (observed_months fromisoformat rows)))) = Ok q /\
    avgQtyPerMonth (kpis resp) = PyFloat (Num.round2 q).
Proof.
  intros Ha Hs.
  apply summarise_Ok in Hs as (g & q & t & e & _ & Hq & _ & _ & ->).
  unfold avg_qty_of in Hq. rewrite (valid_months_observed _ rows a Ha) in Hq.
  rewrite (map_ext _ (month_qty fromisoformat rows)) in Hq
    by (intros m; apply (qty_lookup _ rows a m Ha)).
  destruct (0 <? _) eqn:E; [|lia].
  apply bind_Ok in Hq as (x & Hx & Hq). injection Hq as <-.
  exists x. split; [assumption | reflexivity].
Qed.
End Undated.

(** C8, counterexample.  Country B receives an amount read as plus
    infinity and one read as minus infinity, so its sum is NaN; the
    response lists A (revenue 1) before C (revenue 2).  The sort sees the
    keys -1, NaN, -2, of which none is smaller than the one before it:
    the list is one run already in order, for Python's sort as for the
    one written here. *)
Lemma country_sales_out_of_order_with_nan :
  exists resp,
    analyse iso_date_time nan_rows = Ok resp /\
    map fst (countrySales resp) = ["A"; "B"; "C"] /\
    country_revenue nan_rows "A" = 1%float /\
    is_nan (country_revenue nan_rows "B") = true /\
    country_revenue nan_rows "C" = 2%float /\
    ~ StronglySorted
        (fun c d => (country_revenue nan_rows d <=? country_revenue nan_rows c)%float = true)
        (map fst (countrySales resp)).
Proof.
  eexists. split; [vm_compute; reflexivity|].
  split; [vm_compute; reflexivity|].
  split; [vm_compute; reflexivity|].
  split; [vm_compute; reflexivity|].
  split; [vm_compute; reflexivity|].
  cbn [countrySales map fst]. intros H.
  inversion H as [|? ? _ Hall]; subst.
  inversion Hall as [|? ? _ Hall']; subst.
  inversion Hall' as [|? ? HC _]; subst.
  vm_compute in HC. discriminate.
Qed.

Section BreakdownClaims.
Variable fromisoformat : string -> result Date.date.

(** The values and the names of the two breakdowns. *)
Lemma breakdown_values rows resp :
  analyse fromisoformat rows = Ok resp ->
  (paymentDistribution resp =
     map (fun p => (p, PyInt (payment_count rows p)))
         (map fst (paymentDistribution resp)) /\
   Permutation (map fst (paymentDistribution resp))
               (new_keys (payments_of rows) [])) /\
  (countrySales resp =
     map (fun c => (c, PyFloat (Num.round2 (country_revenue rows c))))
         (map fst (countrySales resp)) /\
   Permutation (map fst (countrySales resp)) (new_keys (countries_of rows) [])).
Proof.
  unfold analyse. intros H. apply bind_Ok in H as (a & Ha & Hs).
  apply summarise_Ok in Hs as (g & q & t & e & _ & _ & _ & _ & ->).
  cbn [paymentDistribution countrySales].
  destruct (payment_names_sorted fromisoformat rows a Ha) as (P1 & _).
  destruct (country_names_sorted fromisoformat rows a Ha) as (C1 & _).
  rewrite payment_list_names, country_list_names.
  split; split; try assumption.
  - rewrite <- payment_list_names. now apply payment_list_values with fromisoformat.
  - rewrite <- country_list_names. now apply country_list_values with fromisoformat.
Qed.

(** C8, amended.  In a computed response paymentDistribution holds
    each payment mode once with its number of rows, in descending order
    of that number, modes with equal numbers in the order of their first
    rows; countrySales holds each country once with its revenue rounded
    to two decimals and, whenever no country's revenue is NaN, in
    descending order of revenue, countries of equal revenue in the order
    of their first rows. *)
Theorem breakdowns_sorted_descending rows resp :
  analyse fromisoformat rows = Ok resp ->
  let pays := map fst (paymentDistribution resp) in
  let names := map fst (countrySales resp) in
  (paymentDistribution resp = map (fun p => (p, PyInt (payment_count rows p))) pays /\
   Permutation pays (new_keys (payments_of rows) []) /\
   StronglySorted (fun p q => payment_count rows q <= payment_count rows p) pays /\
   StronglySorted
     (fun p q => payment_count rows p = payment_count rows q ->
                 (first_index p (payments_of rows)
                  < first_index q (payments_of rows))%nat) pays) /\
  (countrySales resp =
     map (fun c => (c, PyFloat (Num.round2 (country_revenue rows c)))) names /\
   Permutation names (new_keys (countries_of rows) []) /\
   ((forall c, In c names -> is_nan (country_revenue rows c) = false) ->
    StronglySorted
      (fun c d => (country_revenue rows d <=? country_revenue rows c)%float = true)
      names /\
    StronglySorted
      (fun c d => (country_revenue rows c =? country_revenue rows d)%float = true ->
                  (first_index c (countries_of rows)
                   < first_index d (countries_of rows))%nat) names)).
Proof.
  unfold analyse. intros H. apply bind_Ok in H as (a & Ha & Hs).
  apply summarise_Ok in Hs as (g & q & t & e & _ & _ & _ & _ & ->).
  cbv zeta. cbn [paymentDistribution countrySales].
  rewrite payment_list_names, country_list_names.
  destruct (payment_names_sorted fromisoformat rows a Ha) as (P1 & P2 & P3).
  destruct (country_names_sorted fromisoformat rows a Ha) as (C1 & C2 & C3).
  split; [split; [|auto] | split; [|auto]].
  - rewrite <- payment_list_names. now apply payment_list_values with fromisoformat.
  - rewrite <- country_list_names. now apply country_list_values with fromisoformat.
Qed.

Lemma In_new_keys_all ks k : In k ks -> In k (new_keys ks []).
Proof. intros H. apply new_keys_In. simpl. tauto. Qed.

(** Every row, dated or not, is in the three totals. *)
Lemma totals_on_all_rows rows resp :
  analyse fromisoformat rows = Ok resp ->
  totalRevenue (kpis resp) = PyFloat (Num.round2 (total_amount rows)) /\
  countrySales resp =
    map (fun c => (c, PyFloat (Num.round2 (country_revenue rows c))))
        (map fst (countrySales resp)) /\
  paymentDistribution resp =
    map (fun p => (p, PyInt (payment_count rows p)))
        (map fst (paymentDistribution resp)) /\
  (forall r, In r rows ->
             In (category r "Country") (map fst (countrySales resp)) /\
             In (category r "PaymentMode") (map fst (paymentDistribution resp))).
Proof.
  intros H.
  pose proof (breakdown_values rows resp H) as ((P1 & P2) & (C1 & C2)).
  unfold analyse in H. apply bind_Ok in H as (a & Ha & Hs).
  apply summarise_Ok in Hs as (g & q & t & e & _ & _ & _ & _ & ->).
  apply aggregate_Ok in Ha as (_ & Htot & _).
  cbn [totalRevenue kpis]. rewrite Htot.
  split; [reflexivity|]. split; [exact C1|]. split; [exact P1|].
  intros r Hr. split.
  + apply (Permutation_in _ (Permutation_sym C2)).
    apply In_new_keys_all. unfold countries_of.
    now apply (in_map (fun r => category r "Country")).
  + apply (Permutation_in _ (Permutation_sym P2)).
    apply In_new_keys_all. unfold payments_of.
    now apply (in_map (fun r => category r "PaymentMode")).
Qed.

(** C9.  In a computed response every row, with or without a readable
    date, is counted in totalRevenue, in its country's sales and in its
    payment mode's count.  A row without a readable date has the month
    key unknown, which is no observed month: the numerator of
    avgQtyPerMonth sums the quantities of the observed months, which are
    those of the dated rows, and revenueTrend, engagementTrend,
    avgQtyPerMonth, thisMonthRevenue and avgGrowth are what the dated
    rows alone give. *)
Theorem undated_rows_only_in_totals rows resp :
  analyse fromisoformat rows = Ok resp ->
  (totalRevenue (kpis resp) = PyFloat (Num.round2 (total_amount rows)) /\
   countrySales resp =
     map (fun c => (c, PyFloat (Num.round2 (country_revenue rows c))))
         (map fst (countrySales resp)) /\
   paymentDistribution resp =
     map (fun p => (p, PyInt (payment_count rows p)))
         (map fst (paymentDistribution resp)) /\
   (forall r, In r rows ->
              In (category r "Country") (map fst (countrySales resp)) /\
              In (category r "PaymentMode") (map fst (paymentDistribution resp)))) /\
  ((forall r, dated fromisoformat r = false -> month_key fromisoformat r = "unknown") /\
   ~ In "unknown" (observed_months fromisoformat rows) /\
   (forall m, In m (observed_months fromisoformat rows) ->
              month_qty fromisoformat rows m =
              month_qty fromisoformat (List.filter (dated fromisoformat) rows) m) /\
   exists q,
     Num.int_truediv
       (fold_left Z.add (map (month_qty fromisoformat rows) (observed_months fromisoformat rows)) 0)
       (Z.max 1 (Z.of_nat (List.length (observed_months fromisoformat rows)))) = Ok q /\
     avgQtyPerMonth (kpis resp) = PyFloat (Num.round2 q)) /\
  (exists resp',
     analyse fromisoformat (List.filter (dated fromisoformat) rows) = Ok resp' /\
     revenueTrend resp' = revenueTrend resp /\
     engagementTrend resp' = engagementTrend resp /\
     avgQtyPerMonth (kpis resp') = avgQtyPerMonth (kpis resp) /\
     thisMonthRevenue (kpis resp') = thisMonthRevenue (kpis resp) /\
     avgGrowth (kpis resp') = avgGrowth (kpis resp)).
Proof.
  intros H. split; [|split].
  - now apply totals_on_all_rows.
  - split; [|split; [apply unknown_not_observed | split]].
    + intros r Hr. unfold dated in Hr. unfold month_key.
      destruct (invoice_date fromisoformat r); [discriminate | reflexivity].
    + intros m Hm. unfold month_qty. rewrite rows_of_known_month; [reflexivity|].
      unfold observed_months in Hm.
      apply (proj1 (sorted_In _ _ _)) in Hm. now apply filter_In in Hm.
    + unfold analyse in H. apply bind_Ok in H as (a & Ha & Hs).
      now apply avg_qty_formula with a.
  - now apply month_outputs_of_dated.
Qed.

End BreakdownClaims.

Section NoDates.
Variable fromisoformat : string -> result Date.date.
Variable DictReader : string -> result (list Row).

(** X1.  Rows of which none has a readable date, all with a quantity that
    converts: the endpoint answers with the source sheet, zero
    thisMonthRevenue, avgGrowth and avgQtyPerMonth, empty trends, and
    the totals of all rows. *)
Theorem no_dates_zero_month_figures rows :
  rows <> [] ->
  Forall converts rows ->
  (forall r, In r rows -> dated fromisoformat r = false) ->
  exists resp,
    analyse fromisoformat rows = Ok resp /\
    (forall text, DictReader text = Ok rows ->
                  get_analysis fromisoformat DictReader (FetchResponse 200 text) = Ok resp) /\
    source resp = "sheet" /\
    thisMonthRevenue (kpis resp) = PyFloat 0 /\
    avgGrowth (kpis resp) = PyFloat 0 /\
    avgQtyPerMonth (kpis resp) = PyFloat 0 /\
    revenueTrend resp = [] /\
    engagementTrend resp = [] /\
    totalRevenue (kpis resp) = PyFloat (Num.round2 (total_amount rows)) /\
    countrySales resp =
      map (fun c => (c, PyFloat (Num.round2 (country_revenue rows c))))
          (map fst (countrySales resp)) /\
    paymentDistribution resp =
      map (fun p => (p, PyInt (payment_count rows p)))
          (map fst (paymentDistribution resp)).
Proof.
  intros Hne HF Hund.
  assert (Ha : aggregate fromisoformat rows =
               Ok (fold_left (fun a r => accumulate a (fields_of fromisoformat r))
                             rows empty_accumulators))
    by now apply aggregate_from_converts.
  remember (fold_left (fun a r => accumulate a (fields_of fromisoformat r))
                      rows empty_accumulators) as a eqn:Ea.
  clear Ea.
  assert (Hnone : List.filter (dated fromisoformat) rows = []).
  { clear -Hund. induction rows as [|r rows IH]; simpl; [reflexivity|].
    rewrite (Hund r) by (simpl; auto). apply IH. intros; apply Hund; simpl; auto. }
  assert (Hvm : valid_months_of a = []).
  { rewrite (valid_months_observed _ rows a Ha).
    rewrite <- observed_months_of_dated, Hnone. reflexivity. }
  assert (Hs : exists resp, summarise a = Ok resp /\
               thisMonthRevenue (kpis resp) = PyFloat 0 /\
               avgGrowth (kpis resp) = PyFloat 0 /\
               avgQtyPerMonth (kpis resp) = PyFloat 0 /\
               revenueTrend resp = [] /\ engagementTrend resp = []).
  { assert (M : this_month_revenue_of a = 0%float).
    { unfold this_month_revenue_of. rewrite Hvm.
      change (or_str (nth_from_end 1 []) "") with "".
      now rewrite (revenue_lookup _ rows a "" Ha), month_revenue_empty. }
    assert (L : last_month_revenue_of a = 0%float).
    { unfold last_month_revenue_of. rewrite Hvm.
      change (or_str (if (2 <=? List.length (@nil string))%nat
                      then nth_from_end 2 [] else None) "") with "".
      now rewrite (revenue_lookup _ rows a "" Ha), month_revenue_empty. }
    assert (Q : avg_qty_of a = Ok (PyFloat 0)).
    { unfold avg_qty_of. rewrite Hvm. vm_compute. reflexivity. }
    assert (T : trend_of a = Ok []).
    { unfold trend_of. rewrite Hvm. reflexivity. }
    assert (E : engagement_of a = Ok []).
    { unfold engagement_of. rewrite Hvm. reflexivity. }
    rewrite summarise_unfold, M, L, Q, T, E.
    change (growth 0 0) with (@Ok float 0%float). cbn [bind].
    eexists. split; [reflexivity|].
    cbn [thisMonthRevenue avgGrowth avgQtyPerMonth kpis revenueTrend
         engagementTrend py_round2].
    change (Num.round2 0) with 0%float. repeat split. }
  destruct Hs as (resp & Hs & R1 & R2 & R3 & R4 & R5).
  assert (H : analyse fromisoformat rows = Ok resp).
  { unfold analyse. rewrite Ha. exact Hs. }
  exists resp. split; [exact H|].
  destruct (totals_on_all_rows fromisoformat rows resp H) as (T1 & T2 & T3 & _).
  split; [|split; [now apply analyse_source with fromisoformat rows | auto 12]].
  intros text Ht. unfold get_analysis. simpl. rewrite Ht. simpl.
  destruct rows; [congruence | exact H].
Qed.
End NoDates.

(** C8, amended, on the scenario's rows. *)
Lemma breakdowns_sorted_descending_witness :
  exists resp,
    analyse iso_date_time scenario_rows = Ok resp /\
    map fst (countrySales resp) = ["B"; "A"] /\
    StronglySorted
      (fun c d => (country_revenue scenario_rows d
                   <=? country_revenue scenario_rows c)%float = true)
      (map fst (countrySales resp)) /\
    map fst (paymentDistribution resp) = ["Cash"; "Card"] /\
    StronglySorted
      (fun p q => payment_count scenario_rows p = payment_count scenario_rows q ->
                  (first_index p (payments_of scenario_rows)
                   < first_index q (payments_of scenario_rows))%nat)
      (map fst (paymentDistribution resp)).
Proof.
  eexists. split; [vm_compute; reflexivity|].
  split; [vm_compute; reflexivity|].
  match goal with
  | |- context [countrySales ?r] =>
      destruct (breakdowns_sorted_descending iso_date_time scenario_rows r)
        as ((_ & _ & _ & Hties) & (_ & _ & Hdesc)); [vm_compute; reflexivity|]
  end.
  split; [|split; [vm_compute; reflexivity | exact Hties]].
  refine (proj1 (Hdesc _)). cbn [countrySales map fst].
  intros c [<-|[<-|[]]]; vm_compute; reflexivity.
Defined.

(** C9 on the scenario's rows and one more row without a date. *)
Lemma undated_rows_only_in_totals_witness :
  exists resp,
    analyse iso_date_time rows_with_undated = Ok resp /\
    totalRevenue (kpis resp) = PyFloat 350 /\
    countrySales resp = [("B", PyFloat 200); ("A", PyFloat 150)] /\
    paymentDistribution resp = [("Cash", PyInt 2); ("Card", PyInt 1)] /\
    exists resp',
      analyse iso_date_time (List.filter (dated iso_date_time) rows_with_undated)
        = Ok resp' /\
      revenueTrend resp' = revenueTrend resp /\
      engagementTrend resp' = engagementTrend resp /\
      avgQtyPerMonth (kpis resp') = avgQtyPerMonth (kpis resp).
Proof.
  eexists. split; [vm_compute; reflexivity|].
  split; [vm_compute; reflexivity|].
  split; [vm_compute; reflexivity|].
  split; [vm_compute; reflexivity|].
  match goal with
  | |- context [revenueTrend ?r] =>
      destruct (undated_rows_only_in_totals iso_date_time rows_with_undated r)
        as (_ & _ & resp' & H & T & E & Q & _); [vm_compute; reflexivity|]
  end.
  exists resp'. auto.
Defined.

(** C10, failing input.  One data row without a readable date whose
    Quantity is the digit 1 followed by 309 zeros: [to_float] reads
    infinity, [int] of it raises OverflowError, and the endpoint raises
    instead of returning a response. *)
Lemma huge_quantity_aborts :
  plain_DictReader overflow_csv = Ok overflow_rows /\
  Forall (fun r => dated iso_date_time r = false) overflow_rows /\
  to_float (Some huge) = Ok infinity /\
  analyse iso_date_time overflow_rows = Raise OverflowError /\
  get_analysis iso_date_time plain_DictReader (FetchResponse 200 overflow_csv)
    = Raise OverflowError.
Proof.
  split; [vm_compute; reflexivity|].
  split; [repeat constructor|].
  split; [vm_compute; reflexivity|].
  split; vm_compute; reflexivity.
Qed.

(** X1 at an example.  Two rows without a date. *)
Lemma no_dates_zero_month_figures_witness :
  exists resp,
    analyse iso_date_time undated_rows = Ok resp /\
    source resp = "sheet" /\
    thisMonthRevenue (kpis resp) = PyFloat 0 /\
    avgGrowth (kpis resp) = PyFloat 0 /\
    avgQtyPerMonth (kpis resp) = PyFloat 0 /\
    revenueTrend resp = [] /\
    engagementTrend resp = [] /\
    totalRevenue (kpis resp) = PyFloat 15.
Proof.
  destruct (no_dates_zero_month_figures iso_date_time plain_DictReader undated_rows)
    as (resp & H & _ & S & M & G & Q & T & E & R & _).
  - discriminate.
  - repeat constructor; eexists; vm_compute; reflexivity.
  - intros r [<-|[<-|[]]]; vm_compute; reflexivity.
  - exists resp. repeat (split; [assumption|]).
    rewrite R. vm_compute. reflexivity.
Defined.

Lemma iter_pos_iter {A} (f : A -> A) n : forall x,
  iter_pos f n x = Pos.iter f x n.
Proof.
  induction n as [n IH|n IH|]; intros x; simpl.
  - rewrite !IH. now rewrite <- !Pos.iter_swap.
  - now rewrite !IH.
  - reflexivity.
Qed.

Lemma Zpos_iter_xO p k : Zpos (Pos.iter xO p k) = Zpos p * 2 ^ Zpos k.
Proof.
  induction k as [|k IH] using Pos.peano_ind.
  - simpl. lia.
  - rewrite Pos.iter_succ, Pos2Z.inj_xO, IH, Pos2Z.inj_succ, Z.pow_succ_r by lia. lia.
Qed.

Lemma digits_iter_xO p k :
  Zpos (digits2_pos (Pos.iter xO p k)) = Zpos (digits2_pos p) + Zpos k.
Proof.
  induction k as [|k IH] using Pos.peano_ind.
  - simpl. lia.
  - rewrite Pos.iter_succ. simpl digits2_pos. rewrite Pos2Z.inj_succ, IH. lia.
Qed.

(** A mantissa that is another one times a power of two. *)
Lemma scaled_cases m p k :
  0 <= k -> Zpos m = Zpos p * 2 ^ k ->
  (k = 0 /\ m = p) \/ (exists n, k = Zpos n /\ m = Pos.iter xO p n).
Proof.
  intros Hk H. destruct k as [|n|n]; [left | right | lia].
  - split; [reflexivity|]. rewrite Z.pow_0_r in H. lia.
  - exists n. split; [reflexivity|]. rewrite <- Zpos_iter_xO in H. congruence.
Qed.

Lemma digits_scaled m p k :
  0 <= k -> Zpos m = Zpos p * 2 ^ k ->
  Zpos (digits2_pos m) = Zpos (digits2_pos p) + k.
Proof.
  intros Hk H. destruct (scaled_cases m p k Hk H) as [[-> ->] | (n & -> & ->)].
  - lia.
  - apply digits_iter_xO.
Qed.

Lemma shr_iter_xO q n :
  iter_pos shr_1 n (Build_shr_record (Zpos (Pos.iter xO q n)) false false) =
  Build_shr_record (Zpos q) false false.
Proof.
  rewrite iter_pos_iter. revert q.
  induction n as [|n IH] using Pos.peano_ind; intros q.
  - reflexivity.
  - rewrite Pos.iter_succ_r, Pos.iter_succ. simpl shr_1. apply IH.
Qed.

(** Rounding a mantissa of 53 digits changes nothing. *)
Lemma round_aux_normal s m e :
  Zpos (digits2_pos m) = 53 -> -1074 <= e <= 971 ->
  binary_round_aux prec emax s (Zpos m) e loc_Exact = S754_finite s m e.
Proof.
  intros Hd He. unfold binary_round_aux, shr_fexp, fexp, emin, Zdigits2.
  rewrite Hd.
  replace (Z.max (53 + e - prec) (3 - emax - prec) - e) with 0
    by (unfold prec, emax; lia).
  cbn [shr shr_record_of_loc shr_m loc_of_shr_record round_nearest_even].
  rewrite Hd.
  replace (Z.max (53 + e - prec) (3 - emax - prec) - e) with 0
    by (unfold prec, emax; lia).
  cbn [shr shr_record_of_loc shr_m].
  replace (e <=? emax - prec) with true; [reflexivity|].
  symmetry. apply Z.leb_le. unfold prec, emax. lia.
Qed.

(** Rounding a mantissa of 53 digits followed by zeros drops the zeros. *)
Lemma round_aux_shift s q n e :
  Zpos (digits2_pos q) = 53 -> -1074 <= e + Zpos n <= 971 ->
  binary_round_aux prec emax s (Zpos (Pos.iter xO q n)) e loc_Exact =
  S754_finite s q (e + Zpos n).
Proof.
  intros Hd He. unfold binary_round_aux, shr_fexp, fexp, emin, Zdigits2.
  rewrite digits_iter_xO, Hd.
  replace (Z.max (53 + Zpos n + e - prec) (3 - emax - prec) - e) with (Zpos n)
    by (unfold prec, emax; lia).
  cbn [shr shr_record_of_loc]. rewrite shr_iter_xO.
  cbn [shr_m loc_of_shr_record round_nearest_even]. rewrite Hd.
  replace (Z.max (53 + (e + Zpos n) - prec) (3 - emax - prec) - (e + Zpos n)) with 0
    by (unfold prec, emax; lia).
  cbn [shr shr_record_of_loc shr_m].
  replace (e + Zpos n <=? emax - prec) with true; [reflexivity|].
  symmetry. apply Z.leb_le. unfold prec, emax. lia.
Qed.

(** [binary_round] finds the 53-digit mantissa [q] and exponent [t] of a
    value that has one. *)
Lemma binary_round_exact s m e q t :
  Zpos (digits2_pos q) = 53 -> -1074 <= t <= 971 ->
  (t <= e /\ Zpos q = Zpos m * 2 ^ (e - t) \/
   e < t /\ Zpos m = Zpos q * 2 ^ (t - e)) ->
  binary_round prec emax s m e = S754_finite s q t.
Proof.
  intros Hd Ht Hv. unfold binary_round, shl_align.
  assert (Hf : fexp prec emax (Zpos (digits2_pos m) + e) = t).
  { unfold fexp, emin, prec, emax.
    destruct Hv as [[Hle Hv] | [Hlt Hv]].
    - pose proof (digits_scaled q m (e - t) ltac:(lia) Hv). lia.
    - pose proof (digits_scaled m q (t - e) ltac:(lia) Hv). lia. }
  rewrite Hf.
  destruct Hv as [[Hle Hv] | [Hlt Hv]].
  - destruct (scaled_cases q m (e - t) ltac:(lia) Hv) as [[E ->] | (n & E & ->)].
    + replace (t - e) with 0 by lia. replace e with t by lia.
      now apply round_aux_normal.
    + replace (t - e) with (Zneg n) by lia.
      apply round_aux_normal; [|assumption].
      now rewrite digits_iter_xO in Hd |- *.
  - destruct (scaled_cases m q (t - e) ltac:(lia) Hv) as [[E ->] | (n & E & ->)];
      [lia|].
    rewrite E. replace t with (e + Zpos n) by lia.
    apply round_aux_shift; [assumption | lia].
Qed.

Lemma digits2_pos_size p : digits2_pos p = Pos.size p.
Proof. induction p; simpl; congruence. Qed.

Lemma digits_bound p n : 0 <= n -> Zpos p < 2 ^ n -> Zpos (digits2_pos p) <= n.
Proof.
  intros Hn H. rewrite digits2_pos_size.
  pose proof (Pos.size_le p) as L.
  apply Pos2Z.pos_le_pos in L. rewrite Pos2Z.inj_pow in L.
  change (Z.pos 2) with 2 in L.
  destruct (Z_le_gt_dec (Zpos (Pos.size p)) n) as [|G]; [assumption|].
  exfalso.
  assert (2 ^ (n + 1) <= 2 ^ Zpos (Pos.size p)) by (apply Z.pow_le_mono_r; lia).
  rewrite Z.pow_add_r, Z.pow_1_r in H0 by lia. lia.
Qed.

Section Normal.
Variable p : positive.
Hypothesis Hp : Zpos p < 2 ^ 53.

Lemma small_digits : Zpos (digits2_pos p) <= 53.
Proof. apply digits_bound; [lia | assumption]. Qed.

Lemma mantissa_of_value :
  Zpos (mantissa_of p) = Zpos p * 2 ^ (53 - Zpos (digits2_pos p)).
Proof.
  unfold mantissa_of. pose proof small_digits.
  rewrite Z2Pos.id; [reflexivity|].
  apply Z.mul_pos_pos; [lia|]. apply Z.pow_pos_nonneg; lia.
Qed.

Lemma mantissa_of_digits : Zpos (digits2_pos (mantissa_of p)) = 53.
Proof.
  pose proof small_digits.
  rewrite (digits_scaled _ p (53 - Zpos (digits2_pos p)));
    [lia | lia | apply mantissa_of_value].
Qed.

Lemma exponent_of_range : -1074 <= exponent_of p <= 971.
Proof. unfold exponent_of. pose proof small_digits. lia. Qed.

(** Whatever the scaling [p * 2^k] with exponent [-k], rounding gives the
    normal form of [p]. *)
Lemma binary_round_scaled s m k :
  0 <= k -> Zpos m = Zpos p * 2 ^ k ->
  binary_round prec emax s m (- k) =
  S754_finite s (mantissa_of p) (exponent_of p).
Proof.
  intros Hk Hm. pose proof small_digits as Hd.
  apply binary_round_exact;
    [apply mantissa_of_digits | apply exponent_of_range |].
  rewrite mantissa_of_value, Hm. unfold exponent_of.
  destruct (Z_le_gt_dec (Zpos (digits2_pos p) - 53) (- k)) as [L|G].
  - left. split; [assumption|].
    rewrite <- Z.mul_assoc, <- Z.pow_add_r by lia. f_equal. f_equal. lia.
  - right. split; [lia|].
    rewrite <- Z.mul_assoc, <- Z.pow_add_r by lia. f_equal. f_equal. lia.
Qed.

Lemma valid_normal s :
  valid_binary (S754_finite s (mantissa_of p) (exponent_of p)) = true.
Proof.
  unfold SpecFloat.valid_binary, bounded, canonical_mantissa, fexp, emin.
  rewrite mantissa_of_digits. pose proof exponent_of_range as R.
  apply andb_true_intro. split.
  - apply Z.eqb_eq. unfold prec, emax. lia.
  - apply Z.leb_le. unfold prec, emax. lia.
Qed.
End Normal.

Lemma SFZ_pos p : Zpos p < 2 ^ 53 ->
  SFZ (Zpos p) = S754_finite false (mantissa_of p) (exponent_of p).
Proof.
  intros Hp. unfold SFZ, binary_normalize.
  apply (binary_round_scaled p Hp false p 0); [lia|]. rewrite Z.pow_0_r. lia.
Qed.

Lemma SFZ_neg p : Zpos p < 2 ^ 53 ->
  SFZ (Zneg p) = S754_finite true (mantissa_of p) (exponent_of p).
Proof.
  intros Hp. unfold SFZ, binary_normalize.
  apply (binary_round_scaled p Hp true p 0); [lia|]. rewrite Z.pow_0_r. lia.
Qed.

Lemma SFZ_valid z : Z.abs z < 2 ^ 53 -> valid_binary (SFZ z) = true.
Proof.
  intros Hz. destruct z as [|p|p].
  - reflexivity.
  - rewrite SFZ_pos by (simpl in Hz; lia). now apply valid_normal.
  - rewrite SFZ_neg by (simpl in Hz; lia). now apply valid_normal.
Qed.




Lemma SFZ_nonzero z :
  z <> 0 -> Z.abs z < 2 ^ 53 ->
  SFZ z = S754_finite (sign_of z) (mantissa_of (Z.to_pos (Z.abs z)))
                      (exponent_of (Z.to_pos (Z.abs z))).
Proof.
  intros Hz Hb. destruct z as [|p|p]; [congruence | |].
  - apply SFZ_pos. simpl in Hb. lia.
  - apply SFZ_neg. simpl in Hb. lia.
Qed.



(** ** The same on primitive floats *)

Lemma Prim2SF_float_of_Z z :
  Z.abs z < 2 ^ 53 -> Prim2SF (float_of_Z z) = SFZ z.
Proof. intros H. apply Prim2SF_SF2Prim. now apply SFZ_valid. Qed.



(** ** Sums of whole amounts *)

Lemma Permutation_filter {A} (p : A -> bool) l l' :
  Permutation l l' -> Permutation (List.filter p l) (List.filter p l').
Proof.
  induction 1 as [|x l l' _ IH|x y l|l l' l'' _ IH1 _ IH2]; simpl.
  - constructor.
  - destruct (p x); [now constructor | assumption].
  - destruct (p x), (p y); try reflexivity. apply perm_swap.
  - now transitivity (List.filter p l').
Qed.





Lemma zsum_le_sum_abs l : Z.abs (zsum l) <= sum_abs l.
Proof. induction l; simpl; lia. Qed.





Section Permuted.
Variable fromisoformat : string -> result Date.date.



End Permuted.


(* ------------------------------------------------------------------ *)
(** * Further properties of the code *)

(** ** The order of month keys *)

Lemma ascii_compare_lt_trans a b c :
  Ascii.compare a b = Lt -> Ascii.compare b c = Lt -> Ascii.compare a c = Lt.
Proof.
  unfold Ascii.compare. rewrite !N.compare_lt_iff. lia.
Qed.

Lemma string_compare_lt_trans : forall a b c,
  String.compare a b = Lt -> String.compare b c = Lt -> String.compare a c = Lt.
Proof.
  induction a as [|x a IH]; intros [|y b] [|z c]; simpl; try congruence.
  destruct (Ascii.compare x y) eqn:Exy; try discriminate;
    destruct (Ascii.compare y z) eqn:Eyz; try discriminate; intros Hab Hbc.
  - apply Ascii.compare_eq_iff in Exy, Eyz. subst.
    replace (Ascii.compare z z) with Eq
      by (symmetry; unfold Ascii.compare; apply N.compare_refl).
    now apply IH with b.
  - apply Ascii.compare_eq_iff in Exy. subst. now rewrite Eyz.
  - apply Ascii.compare_eq_iff in Eyz. subst. now rewrite Exy.
  - now rewrite (ascii_compare_lt_trans x y z).
Qed.

Lemma string_ltb_trans a b c :
  String.ltb a b = true -> String.ltb b c = true -> String.ltb a c = true.
Proof.
  unfold String.ltb.
  destruct (String.compare a b) eqn:Eab; try discriminate.
  destruct (String.compare b c) eqn:Ebc; try discriminate.
  now rewrite (string_compare_lt_trans a b c).
Qed.

Lemma string_ltb_total a b :
  String.ltb a b = false -> a = b \/ String.ltb b a = true.
Proof.
  unfold String.ltb. rewrite (String.compare_antisym b a).
  destruct (String.compare a b) eqn:E; simpl; try discriminate; intros _.
  - left. now apply String.compare_eq_iff.
  - now right.
Qed.

Lemma sorted_strings_ascending l :
  NoDup l -> StronglySorted (fun a b => String.ltb a b = true) (sorted String.ltb l).
Proof.
  intros Hnd.
  assert (Hnd' : NoDup (sorted String.ltb l)).
  { apply (Permutation_NoDup (Permutation_sym (sorted_perm String.ltb l)) Hnd). }
  assert (Hle : StronglySorted (fun a b => a = b \/ String.ltb a b = true)
                               (sorted String.ltb l)).
  { apply sorted_ordered.
    - intros x y _ _ H. now right.
    - intros x y _ _ H. destruct (string_ltb_total y x H) as [->|]; auto.
    - intros a b c [->|Hab] [->|Hbc]; auto. right. now apply string_ltb_trans with b. }
  induction Hle as [|x r Hs IH Hx]; [constructor|].
  inversion Hnd' as [|? ? Hnot Hnd'']; subst.
  constructor; [auto|].
  rewrite Forall_forall in *. intros y Hy.
  destruct (Hx y Hy) as [->|]; [contradiction | assumption].
Qed.

Lemma NoDup_filter {A} (p : A -> bool) l : NoDup l -> NoDup (List.filter p l).
Proof.
  induction 1 as [|x l Hx Hnd IH]; simpl; [constructor|].
  destruct (p x); [|assumption].
  constructor; [|assumption]. intros H. apply filter_In in H. tauto.
Qed.

(** ** [mapM] and the slices *)

Lemma mapM_Forall2 {A B} (f : A -> result B) l : forall r,
  mapM f l = Ok r -> Forall2 (fun x y => f x = Ok y) l r.
Proof.
  induction l as [|x l IH]; simpl; intros r H.
  - injection H as <-. constructor.
  - apply bind_Ok in H as (y & Hy & H).
    apply bind_Ok in H as (ys & Hys & H). injection H as <-.
    constructor; auto.
Qed.

Lemma Forall2_mapM {A B} (f : A -> result B) l r :
  Forall2 (fun x y => f x = Ok y) l r -> mapM f l = Ok r.
Proof.
  induction 1 as [|x y l r Hxy _ IH]; simpl; [reflexivity|].
  now rewrite Hxy, IH.
Qed.

Lemma Forall2_skipn {A B} (R : A -> B -> Prop) n : forall l r,
  Forall2 R l r -> Forall2 R (skipn n l) (skipn n r).
Proof.
  induction n as [|n IH]; intros l r H; simpl; [assumption|].
  destruct H; [constructor | now apply IH].
Qed.

Lemma Forall2_last_n {A B} (R : A -> B -> Prop) n l r :
  Forall2 R l r -> Forall2 R (last_n n l) (last_n n r).
Proof.
  intros H. unfold last_n. rewrite <- (Forall2_length H).
  now apply Forall2_skipn.
Qed.

Lemma length_last_n {A} n (l : list A) :
  List.length (last_n n l) = Nat.min n (List.length l).
Proof. unfold last_n. rewrite length_skipn. lia. Qed.

Lemma last_n_last_n {A} n k (l : list A) :
  (n <= k)%nat -> last_n n (last_n k l) = last_n n l.
Proof.
  intros H. unfold last_n. rewrite length_skipn, skipn_skipn. f_equal. lia.
Qed.

Lemma last_n_map {A B} (f : A -> B) n l : last_n n (map f l) = map f (last_n n l).
Proof. unfold last_n. now rewrite length_map, skipn_map. Qed.

Lemma last_app_nonempty {A} (l1 l2 : list A) d :
  l2 <> [] -> last (l1 ++ l2)%list d = last l2 d.
Proof.
  intros H. induction l1 as [|x l1 IH]; [reflexivity|].
  rewrite <- IH. simpl.
  destruct (l1 ++ l2)%list eqn:E; [|reflexivity].
  apply app_eq_nil in E. tauto.
Qed.

Lemma last_last_n {A} n (l : list A) d : (0 < n)%nat -> last (last_n n l) d = last l d.
Proof.
  intros Hn. unfold last_n.
  destruct (Nat.le_gt_cases (List.length l) n) as [H|H].
  - replace (List.length l - n)%nat with 0%nat by lia. reflexivity.
  - transitivity (last (firstn (List.length l - n) l ++ skipn (List.length l - n) l)%list d);
      [|now rewrite firstn_skipn].
    symmetry. apply last_app_nonempty.
    intros E. apply (f_equal (@List.length A)) in E.
    rewrite length_skipn in E. simpl in E. lia.
Qed.

Lemma Forall2_In_right {A B} (R : A -> B -> Prop) l r y :
  Forall2 R l r -> In y r -> exists x, In x l /\ R x y.
Proof.
  induction 1 as [|x y' l r Hxy _ IH]; simpl; [intros []|].
  intros [<-|Hin]; [eauto|].
  destruct (IH Hin) as (x' & Hx' & HR). eauto.
Qed.

Lemma Forall2_In_left {A B} (R : A -> B -> Prop) l r x :
  Forall2 R l r -> In x l -> exists y, In y r /\ R x y.
Proof.
  induction 1 as [|x' y l r Hxy _ IH]; simpl; [intros []|].
  intros [<-|Hin]; [eauto|].
  destruct (IH Hin) as (y' & Hy' & HR). eauto.
Qed.

(** ** The two trends and the latest month *)

Section Trends.
Variable fromisoformat : string -> result Date.date.

Lemma observed_months_ascending rows :
  StronglySorted (fun m m' => String.ltb m m' = true)
                 (observed_months fromisoformat rows).
Proof.
  unfold observed_months. apply sorted_strings_ascending.
  apply NoDup_filter, new_keys_NoDup.
Qed.

Lemma observed_month_has_row rows m :
  In m (observed_months fromisoformat rows) ->
  existsb (String.eqb m) (map (month_key fromisoformat) rows) = true.
Proof.
  unfold observed_months. intros H.
  apply (proj1 (sorted_In _ _ _)) in H. apply filter_In in H as [H _].
  apply new_keys_In in H as [H _]. now apply existsb_eqb_In.
Qed.

Lemma revenue_index rows a m :
  aggregate fromisoformat rows = Ok a ->
  In m (observed_months fromisoformat rows) ->
  Dict.index (revenue_per_month a) m = Ok (month_revenue fromisoformat rows m).
Proof.
  intros Ha Hm. unfold Dict.index.
  rewrite (revenue_get fromisoformat rows a m Ha).
  now rewrite (observed_month_has_row rows m Hm).
Qed.

Lemma trend_entries rows a trend :
  aggregate fromisoformat rows = Ok a -> trend_of a = Ok trend ->
  Forall2 (fun m e =>
             month_label m = Ok (fst e) /\
             snd e = PyFloat (Num.round2 (month_revenue fromisoformat rows m)))
          (last_n 4 (observed_months fromisoformat rows)) trend.
Proof.
  intros Ha Ht. unfold trend_of in Ht.
  rewrite (valid_months_observed fromisoformat rows a Ha) in Ht.
  apply mapM_Forall2 in Ht.
  assert (Hin : forall m, In m (last_n 4 (observed_months fromisoformat rows)) ->
                          In m (observed_months fromisoformat rows))
    by (intros m; apply In_last_n).
  induction Ht as [|m e ms es Hme _ IH]; constructor.
  - apply bind_Ok in Hme as (label & Hl & Hme).
    rewrite (revenue_index rows a m Ha) in Hme by (apply Hin; simpl; auto).
    simpl in Hme. injection Hme as <-. auto.
  - apply IH. intros m' Hm'. apply Hin. simpl. auto.
Qed.

Lemma engagement_entries rows a eng :
  aggregate fromisoformat rows = Ok a -> engagement_of a = Ok eng ->
  Forall2 (fun m e =>
             month_label m = Ok (fst e) /\
             snd e = PyFloat (Num.round2 (month_engagement fromisoformat rows m)))
          (last_n 3 (observed_months fromisoformat rows)) eng.
Proof.
  intros Ha Ht. unfold engagement_of in Ht.
  rewrite (valid_months_observed fromisoformat rows a Ha) in Ht.
  apply mapM_Forall2 in Ht.
  induction Ht as [|m e ms es Hme _ IH]; constructor; [|assumption].
  apply bind_Ok in Hme as (label & Hl & Hme).
  rewrite (engagement_lookup fromisoformat rows a m Ha) in Hme.
  injection Hme as <-. auto.
Qed.

Lemma labels_of_entries {V} (f : string -> V) ms (es : list (string * V)) :
  Forall2 (fun m e => month_label m = Ok (fst e) /\ snd e = f m) ms es ->
  mapM month_label ms = Ok (map fst es).
Proof.
  intros H. apply Forall2_mapM.
  induction H as [|m e ms es [Hl _] _ IH]; simpl; constructor; assumption.
Qed.

Lemma values_of_entries {V} (f : string -> V) ms (es : list (string * V)) :
  Forall2 (fun m e => month_label m = Ok (fst e) /\ snd e = f m) ms es ->
  map snd es = map f ms.
Proof.
  induction 1 as [|m e ms es [_ Hv] _ IH]; simpl; [reflexivity|].
  now rewrite Hv, IH.
Qed.

(** X2.  The trends are windows on the observed months.  In a computed
    response revenueTrend holds, for each of the last four observed
    months (all of them when there are fewer) in ascending order of month
    key, the month's label and its revenue rounded to two decimals;
    engagementTrend does the same with the last three months and the sum
    of TotalOrders.  So the trends have min(4, n) and min(3, n) entries
    for n observed months, and the months of engagementTrend are the last
    three of revenueTrend. *)
Theorem trends_are_windows_on_observed_months rows resp :
  analyse fromisoformat rows = Ok resp ->
  let months := observed_months fromisoformat rows in
  StronglySorted (fun m m' => String.ltb m m' = true) months /\
  Forall2 (fun m e =>
             month_label m = Ok (fst e) /\
             snd e = PyFloat (Num.round2 (month_revenue fromisoformat rows m)))
          (last_n 4 months) (revenueTrend resp) /\
  Forall2 (fun m e =>
             month_label m = Ok (fst e) /\
             snd e = PyFloat (Num.round2 (month_engagement fromisoformat rows m)))
          (last_n 3 months) (engagementTrend resp) /\
  List.length (revenueTrend resp) = Nat.min 4 (List.length months) /\
  List.length (engagementTrend resp) = Nat.min 3 (List.length months) /\
  map fst (engagementTrend resp) = last_n 3 (map fst (revenueTrend resp)).
Proof.
  intros H months. unfold analyse in H. apply bind_Ok in H as (a & Ha & Hs).
  apply summarise_Ok in Hs as (g & q & t & e & _ & _ & Ht & He & ->).
  cbn [revenueTrend engagementTrend].
  pose proof (trend_entries rows a t Ha Ht) as Ft.
  pose proof (engagement_entries rows a e Ha He) as Fe.
  fold months in Ft, Fe.
  split; [apply observed_months_ascending|].
  split; [exact Ft|]. split; [exact Fe|].
  split; [rewrite <- (Forall2_length Ft); apply length_last_n|].
  split; [rewrite <- (Forall2_length Fe); apply length_last_n|].
  pose proof (labels_of_entries
                (fun m => PyFloat (Num.round2 (month_revenue fromisoformat rows m)))
                _ _ Ft) as Lt.
  pose proof (labels_of_entries
                (fun m => PyFloat (Num.round2 (month_engagement fromisoformat rows m)))
                _ _ Fe) as Le.
  apply mapM_Forall2 in Lt.
  apply (Forall2_last_n _ 3) in Lt.
  rewrite last_n_last_n in Lt by lia.
  apply Forall2_mapM in Lt. rewrite Le in Lt.
  now injection Lt.
Qed.

End Trends.

(** ** Every row is counted once *)

Lemma zsum_map_perm {A} (f : A -> Z) l l' :
  Permutation l l' -> zsum (map f l) = zsum (map f l').
Proof. induction 1; simpl in *; lia. Qed.

Lemma count_cons (k k0 : string) ks :
  Z.of_nat (List.length (List.filter (String.eqb k) (k0 :: ks))) =
  (if String.eqb k k0 then 1 else 0) +
  Z.of_nat (List.length (List.filter (String.eqb k) ks)).
Proof.
  cbn [List.filter]. destruct (String.eqb k k0); cbn [List.length]; lia.
Qed.

(** Summed over distinct keys, the occurrences of the keys in [ks] are
    the elements of [ks] that are among the keys. *)
Lemma zsum_counts keys : NoDup keys -> forall ks,
  zsum (map (fun k => Z.of_nat (List.length (List.filter (String.eqb k) ks))) keys) =
  Z.of_nat (List.length (List.filter (fun k => existsb (String.eqb k) keys) ks)).
Proof.
  intros Hnd. induction ks as [|k0 ks IH].
  - simpl. induction keys; simpl; [reflexivity|]. inversion Hnd; subst. auto.
  - rewrite (map_ext _ (fun k => (if String.eqb k k0 then 1 else 0) +
                                 Z.of_nat (List.length (List.filter (String.eqb k) ks))))
      by (intros; apply count_cons).
    assert (E : forall l : list string,
              zsum (map (fun k => (if String.eqb k k0 then 1 else 0) +
                                  Z.of_nat (List.length (List.filter (String.eqb k) ks))) l) =
              zsum (map (fun k => if String.eqb k k0 then 1 else 0) l) +
              zsum (map (fun k => Z.of_nat (List.length (List.filter (String.eqb k) ks))) l)).
    { induction l as [|x l IHl]; simpl; [reflexivity|]. rewrite IHl. lia. }
    rewrite E, IH. clear E IH.
    assert (F : zsum (map (fun k => if String.eqb k k0 then 1 else 0) keys) =
                if existsb (String.eqb k0) keys then 1 else 0).
    { clear ks. induction Hnd as [|x l Hx Hnd IH]; simpl; [reflexivity|].
      rewrite IH. rewrite (String.eqb_sym k0 x).
      destruct (String.eqb_spec x k0) as [->|]; simpl; [|reflexivity].
      destruct (existsb (String.eqb k0) l) eqn:E; [|reflexivity].
      apply existsb_eqb_In in E. contradiction. }
    rewrite F. cbn [List.filter].
    destruct (existsb (String.eqb k0) keys); cbn [List.length]; lia.
Qed.

Lemma filter_all {A} (p : A -> bool) l :
  (forall x, In x l -> p x = true) -> List.filter p l = l.
Proof.
  induction l as [|x l IH]; simpl; intros H; [reflexivity|].
  rewrite H by auto. f_equal. apply IH. auto.
Qed.

Lemma payment_count_as_occurrences rows p :
  payment_count rows p =
  Z.of_nat (List.length (List.filter (String.eqb p) (payments_of rows))).
Proof.
  unfold payment_count, payments_of, has_payment. f_equal.
  induction rows as [|r rows IH]; simpl; [reflexivity|].
  rewrite (String.eqb_sym p). destruct (String.eqb _ p); simpl; now rewrite IH.
Qed.

Section Counts.
Variable fromisoformat : string -> result Date.date.

(** X4.  paymentDistribution counts every row once.  In a computed response
    the payment modes are listed once each, every count is at least 1,
    and the counts add up to the number of rows; every country is listed
    once too. *)
Theorem payment_counts_add_up_to_the_rows rows resp :
  analyse fromisoformat rows = Ok resp ->
  let pays := map fst (paymentDistribution resp) in
  NoDup pays /\
  NoDup (map fst (countrySales resp)) /\
  paymentDistribution resp = map (fun p => (p, PyInt (payment_count rows p))) pays /\
  (forall p, In p pays -> 1 <= payment_count rows p) /\
  zsum (map (payment_count rows) pays) = Z.of_nat (List.length rows).
Proof.
  intros H pays.
  destruct (breakdown_values fromisoformat rows resp H) as ((Pv & Pp) & (_ & Cp)).
  fold pays in Pv, Pp.
  assert (Hnd : NoDup pays).
  { apply (Permutation_NoDup (Permutation_sym Pp)), new_keys_NoDup. }
  split; [exact Hnd|].
  split; [apply (Permutation_NoDup (Permutation_sym Cp)), new_keys_NoDup|].
  split; [exact Pv|].
  assert (Hin : forall p, In p pays <-> In p (payments_of rows)).
  { intros p. split; intros Hp.
    - apply (Permutation_in _ Pp) in Hp. now apply new_keys_In in Hp.
    - apply (Permutation_in _ (Permutation_sym Pp)). apply new_keys_In. simpl. tauto. }
  split.
  - intros p Hp. apply Hin in Hp. rewrite payment_count_as_occurrences.
    assert (In p (List.filter (String.eqb p) (payments_of rows)))
      by (apply filter_In; split; [assumption | apply String.eqb_refl]).
    destruct (List.filter (String.eqb p) (payments_of rows)); simpl in *; [tauto | lia].
  - rewrite (map_ext _ (fun k => Z.of_nat (List.length
                                  (List.filter (String.eqb k) (payments_of rows)))))
      by (intros; apply payment_count_as_occurrences).
    rewrite (zsum_counts pays Hnd), filter_all.
    + unfold payments_of. now rewrite length_map.
    + intros k Hk. apply existsb_eqb_In. now apply Hin.
Qed.

End Counts.

(** ** [strip] *)

Lemma lstrip_head s :
  match Str.lstrip s with
  | String c _ => Str.is_space c = false
  | EmptyString => True
  end.
Proof.
  induction s as [|c s IH]; simpl; [exact I|].
  destruct (Str.is_space c) eqn:E; [exact IH | exact E].
Qed.

Lemma lstrip_fixed c s : Str.is_space c = false -> Str.lstrip (String c s) = String c s.
Proof. intros H. simpl. now rewrite H. Qed.

Lemma rstrip_head c s :
  Str.is_space c = false -> exists s', Str.rstrip (String c s) = String c s'.
Proof.
  intros H. simpl. destruct (Str.rstrip s); [rewrite H|]; eauto.
Qed.

Lemma rstrip_idem s : Str.rstrip (Str.rstrip s) = Str.rstrip s.
Proof.
  induction s as [|c s IH]; simpl; [reflexivity|].
  destruct (Str.rstrip s) as [|c' s'] eqn:E.
  - destruct (Str.is_space c) eqn:Ec; simpl; [reflexivity | now rewrite Ec].
  - simpl. simpl in IH. now rewrite IH.
Qed.

Lemma strip_idem s : Str.strip (Str.strip s) = Str.strip s.
Proof.
  unfold Str.strip.
  pose proof (lstrip_head s) as H.
  destruct (Str.lstrip s) as [|c t]; [reflexivity|].
  destruct (rstrip_head c t H) as [t' E]. rewrite E.
  rewrite (lstrip_fixed c t' H), <- E. apply rstrip_idem.
Qed.

Lemma strip_Unknown : Str.strip "Unknown" = "Unknown".
Proof. reflexivity. Qed.

(** ** Country and payment names *)

Lemma category_cases rrow k :
  (category rrow k = "Unknown" /\
   forall v, row_get rrow k None = Some v -> Str.strip v = "" \/ Str.strip v = "Unknown") \/
  (exists v, row_get rrow k None = Some v /\ Str.strip v <> "" /\
             category rrow k = Str.strip v).
Proof.
  unfold category.
  destruct (row_get rrow k None) as [v|]; [|left; split; [reflexivity | discriminate]].
  destruct v as [|c v]; [left; split; [reflexivity | intros ? [= <-]; auto]|].
  cbn [or_str Str.nonempty].
  destruct (Str.strip (String c v)) as [|c' v'] eqn:E.
  - left. split; [reflexivity|]. intros ? [= <-]. auto.
  - right. exists (String c v). rewrite E. repeat split; discriminate || reflexivity.
Qed.

Section Names.
Variable fromisoformat : string -> result Date.date.

(** X5.  The names of the two breakdowns, for cells of ASCII text.  A row's
    Country (and PaymentMode) is Unknown when the cell is missing or None;
    when the cell is ASCII text it is the cell without the ASCII
    whitespace around it, and Unknown when that leaves nothing, so it is
    never empty nor padded, and cells that differ only in surrounding
    ASCII whitespace are one bucket.  In a computed response over rows
    whose Country and PaymentMode cells are None or ASCII text no name of
    countrySales or paymentDistribution is empty or padded. *)
Theorem breakdown_names_are_stripped rrow k :
  (row_get rrow k None = None -> category rrow k = "Unknown") /\
  (forall v, row_get rrow k None = Some v -> ascii_text v = true ->
             category rrow k = (if Str.nonempty (Str.strip v) then Str.strip v
                                else "Unknown") /\
             category rrow k <> "" /\
             Str.strip (category rrow k) = category rrow k) /\
  (forall rows resp name,
      (forall r, In r rows ->
                 ascii_cell (row_get r "Country" None) = true /\
                 ascii_cell (row_get r "PaymentMode" None) = true) ->
      analyse fromisoformat rows = Ok resp ->
      In name (map fst (countrySales resp)) \/
      In name (map fst (paymentDistribution resp)) ->
      name <> "" /\ Str.strip name = name).
Proof.
  assert (Hshape : forall r key, category r key <> "" /\
                                 Str.strip (category r key) = category r key).
  { intros r key.
    destruct (category_cases r key) as [[-> _] | (v & _ & Hne & ->)].
    - split; [discriminate | reflexivity].
    - split; [assumption | apply strip_idem]. }
  split; [|split].
  - intros H. unfold category. now rewrite H.
  - intros v Hv _. split; [|apply Hshape].
    destruct (category_cases rrow k) as [[E Hu] | (v' & Hv' & Hne & E)].
    + rewrite E. destruct (Hu v Hv) as [-> | ->]; reflexivity.
    + rewrite Hv in Hv'. injection Hv' as <-. rewrite E.
      destruct (Str.strip v); [contradiction | reflexivity].
  - intros rows resp name _ H Hin.
    destruct (breakdown_values fromisoformat rows resp H) as ((_ & Pp) & (_ & Cp)).
    assert (Hrow : exists r key, name = category r key).
    { destruct Hin as [Hin|Hin].
      - apply (Permutation_in _ Cp) in Hin. apply new_keys_In in Hin as [Hin _].
        unfold countries_of in Hin. apply in_map_iff in Hin as (r & <- & _). eauto.
      - apply (Permutation_in _ Pp) in Hin. apply new_keys_In in Hin as [Hin _].
        unfold payments_of in Hin. apply in_map_iff in Hin as (r & <- & _). eauto. }
    destruct Hrow as (r & key & ->). apply Hshape.
Qed.

End Names.

(** ** Rounding never makes a NaN *)

Lemma shr_1_nonneg mrs : 0 <= shr_m mrs -> 0 <= shr_m (shr_1 mrs).
Proof.
  destruct mrs as [m r s]. simpl. intros H.
  destruct m as [|[p|p|]|p]; simpl; lia.
Qed.

Lemma iter_pos_invariant {A} (f : A -> A) (P : A -> Prop) :
  (forall x, P x -> P (f x)) -> forall n x, P x -> P (SpecFloat.iter_pos f n x).
Proof.
  intros Hf. induction n as [n IH|n IH|]; intros x Hx; simpl; auto.
Qed.

Lemma shr_fexp_nonneg m e l :
  0 <= m -> 0 <= shr_m (fst (shr_fexp prec emax m e l)).
Proof.
  intros H. unfold shr_fexp, shr.
  assert (H0 : 0 <= shr_m (shr_record_of_loc m l))
    by (destruct l as [|[]]; simpl; assumption).
  destruct (fexp prec emax (Zdigits2 m + e) - e); simpl; try assumption.
  now apply (iter_pos_invariant shr_1 (fun r => 0 <= shr_m r) shr_1_nonneg).
Qed.

Lemma round_nearest_even_nonneg m l : 0 <= m -> 0 <= round_nearest_even m l.
Proof.
  intros H. destruct l as [|[]]; simpl; try lia.
  destruct (Z.even m); lia.
Qed.

Lemma binary_round_aux_not_nan s m e l :
  0 <= m -> binary_round_aux prec emax s m e l <> S754_nan.
Proof.
  intros H. unfold binary_round_aux.
  pose proof (shr_fexp_nonneg m e l H) as H1.
  destruct (shr_fexp prec emax m e l) as [mrs' e'].
  simpl fst in H1.
  pose proof (shr_fexp_nonneg _ e' loc_Exact
                (round_nearest_even_nonneg (shr_m mrs') (loc_of_shr_record mrs') H1)) as H2.
  destruct (shr_fexp prec emax _ e' loc_Exact) as [mrs'' e''].
  simpl fst in H2.
  destruct (shr_m mrs'') as [|p|p]; [discriminate | | lia].
  destruct (e'' <=? emax - prec); discriminate.
Qed.

Lemma binary_round_not_nan s m e : binary_round prec emax s m e <> S754_nan.
Proof.
  unfold binary_round.
  destruct (shl_align m e _) as [mz ez].
  apply binary_round_aux_not_nan. lia.
Qed.

Lemma binary_normalize_not_nan m e s : binary_normalize prec emax m e s <> S754_nan.
Proof.
  destruct m; simpl; [discriminate | apply binary_round_not_nan ..].
Qed.

Lemma SFopp_not_nan x : x <> S754_nan -> SFopp x <> S754_nan.
Proof. destruct x; simpl; congruence. Qed.

(** A specification float other than NaN stands for a primitive float
    other than NaN, whether or not it is in range. *)
Lemma SF2Prim_not_nan x : x <> S754_nan -> Prim2SF (SF2Prim x) <> S754_nan.
Proof.
  intros H.
  destruct x as [[]|[]| |s m e];
    [vm_compute; discriminate ..| contradiction |].
  unfold SF2Prim.
  assert (F : Prim2SF (Z.ldexp (of_uint63 (Uint63.of_Z (Z.pos m))) e) <> S754_nan).
  { rewrite FloatLemmas.Z_ldexp_spec, of_uint63_spec. unfold SFldexp.
    pose proof (binary_normalize_not_nan
                  (Uint63.to_Z (Uint63.of_Z (Z.pos m))) 0 false) as N.
    destruct (binary_normalize prec emax _ 0 false); try congruence.
    apply binary_round_not_nan. }
  destruct s; [|exact F].
  rewrite opp_spec. now apply SFopp_not_nan.
Qed.

Lemma SF_of_ratio_not_nan neg m d : Num.SF_of_ratio neg m d <> S754_nan.
Proof.
  unfold Num.SF_of_ratio.
  assert (H : 0 <= fst (fst (SFdiv_core_binary prec emax (Z.pos m) 0 (Z.pos d) 0))).
  { unfold SFdiv_core_binary.
    set (s := 0 - 0 - _).
    set (m' := match s with Z.pos _ => _ | Z0 => _ | Z.neg _ => _ end).
    assert (Hm : 0 <= m').
    { unfold m'. destruct s; try lia. apply Z.shiftl_nonneg. lia. }
    pose proof (Z.div_eucl_eq m' (Z.pos d) ltac:(lia)) as E.
    pose proof (Z.mod_pos_bound m' (Z.pos d) ltac:(lia)) as B.
    unfold Z.modulo in B.
    destruct (Z.div_eucl m' (Z.pos d)) as [q r]. simpl. nia. }
  destruct (SFdiv_core_binary prec emax (Z.pos m) 0 (Z.pos d) 0) as [[q e] l].
  now apply binary_round_aux_not_nan.
Qed.

Lemma float_of_ratio_not_nan neg m d :
  Prim2SF (Num.float_of_ratio neg m d) <> S754_nan.
Proof.
  unfold Num.float_of_ratio.
  destruct m as [|p|p];
    [ destruct neg; vm_compute; discriminate
    | apply SF2Prim_not_nan, SF_of_ratio_not_nan
    | destruct neg; vm_compute; discriminate ].
Qed.

Lemma float_of_str_not_nan s x : float_of_str s = Ok x -> Prim2SF x <> S754_nan.
Proof.
  unfold float_of_str.
  destruct (match s with String "-" r => (true, r) | _ => (false, s) end) as [neg s1].
  destruct (Str.span_digits s1) as [ip s2].
  destruct (match s2 with String "." r => Str.span_digits r | _ => ([], s2) end) as [fp s3].
  destruct s3; [|discriminate].
  destruct (ip ++ fp)%list; [discriminate|].
  intros [= <-]. apply float_of_ratio_not_nan.
Qed.

Lemma to_float_not_nan val x : to_float val = Ok x -> Prim2SF x <> S754_nan.
Proof.
  assert (Z0' : Prim2SF 0%float <> S754_nan) by (vm_compute; discriminate).
  destruct val as [v|]; simpl; [|intros [= <-]; exact Z0'].
  unfold to_float.
  destruct (negb (Str.nonempty (Str.strip v))); [intros [= <-]; exact Z0'|].
  destruct (Str.nonempty (CURRENCY_RE_sub (Str.strip v))); [|intros [= <-]; exact Z0'].
  destruct (float_of_str (CURRENCY_RE_sub (Str.strip v))) as [y|e] eqn:E.
  - intros [= <-]. now apply float_of_str_not_nan with (1 := E).
  - destruct e; try discriminate. intros [= <-]; exact Z0'.
Qed.

Lemma not_nan_is_nan x : Prim2SF x <> S754_nan -> is_nan x = false.
Proof.
  intros N. unfold is_nan. rewrite eqb_spec.
  destruct (Prim2SF x) as [[]|[]| |[] m e]; try reflexivity; try contradiction;
    unfold SFeqb, SFcompare; rewrite Z.compare_refl, Pos.compare_cont_refl;
    reflexivity.
Qed.

(** ** Dates written with zero-padded fields *)

Lemma digit_char r :
  0 <= r < 10 ->
  Str.is_digit (ascii_of_N (Z.to_N (48 + r))) = true /\
  Str.digit_value (ascii_of_N (Z.to_N (48 + r))) = r.
Proof.
  intros Hr.
  assert (H : r = 0 \/ r = 1 \/ r = 2 \/ r = 3 \/ r = 4 \/ r = 5 \/ r = 6 \/
              r = 7 \/ r = 8 \/ r = 9) by lia.
  repeat (destruct H as [-> | H]; [split; reflexivity|]).
  subst; split; reflexivity.
Qed.

Lemma digit_not_sep c sep :
  Str.is_digit c = true -> Str.is_digit sep = false -> Ascii.eqb c sep = false.
Proof.
  intros Hc Hs. destruct (Ascii.eqb_spec c sep) as [->|]; congruence.
Qed.

Lemma zero_padded_2 n :
  Str.zero_padded 2 n =
  String (ascii_of_N (Z.to_N (48 + (n / 10) mod 10)))
         (String (ascii_of_N (Z.to_N (48 + n mod 10))) "").
Proof. reflexivity. Qed.

Lemma zero_padded_4_digits n :
  Str.zero_padded 4 n =
  String (ascii_of_N (Z.to_N (48 + (n / 10 / 10 / 10) mod 10)))
    (String (ascii_of_N (Z.to_N (48 + (n / 10 / 10) mod 10)))
       (String (ascii_of_N (Z.to_N (48 + (n / 10) mod 10)))
          (String (ascii_of_N (Z.to_N (48 + n mod 10))) ""))).
Proof. reflexivity. Qed.

Lemma small_cases (P : Z -> Prop) lo hi :
  (forall k, (k < Z.to_nat (hi - lo + 1))%nat -> P (lo + Z.of_nat k)) ->
  forall n, lo <= n <= hi -> P n.
Proof.
  intros H n Hn. replace n with (lo + Z.of_nat (Z.to_nat (n - lo))) by lia.
  apply H. lia.
Qed.

Ltac enumerate n H :=
  let k := fresh "k" in let Hk := fresh "Hk" in
  revert n H;
  match goal with
  | |- forall n : Z, ?lo <= n <= ?hi -> @?P n => apply (small_cases P lo hi)
  end;
  intros k Hk; simpl in Hk;
  repeat (destruct k as [|k]; [clear Hk; simpl Z.add | apply PeanoNat.lt_S_n in Hk]);
  [.. | exfalso; inversion Hk].

(** The first way each directive matches a zero-padded field. *)
Lemma alt_day d r :
  1 <= d <= 31 ->
  hd_error (Date.alternatives Date.Dir_d (Str.zero_padded 2 d ++ r)) = Some (d, r).
Proof. intros H. enumerate d H; reflexivity. Qed.

Lemma alt_month m r :
  1 <= m <= 12 ->
  hd_error (Date.alternatives Date.Dir_m (Str.zero_padded 2 m ++ r)) = Some (m, r).
Proof. intros H. enumerate m H; reflexivity. Qed.

Lemma alt_year y r :
  0 <= y <= 9999 ->
  Date.alternatives Date.Dir_Y (Str.zero_padded 4 y ++ r) = [(y, r)].
Proof.
  intros H. rewrite zero_padded_4_digits. cbn [append Date.alternatives].
  destruct (digit_char ((y / 10 / 10 / 10) mod 10)) as [D1 V1];
    [apply Z.mod_pos_bound; lia|].
  destruct (digit_char ((y / 10 / 10) mod 10)) as [D2 V2];
    [apply Z.mod_pos_bound; lia|].
  destruct (digit_char ((y / 10) mod 10)) as [D3 V3];
    [apply Z.mod_pos_bound; lia|].
  destruct (digit_char (y mod 10)) as [D4 V4]; [apply Z.mod_pos_bound; lia|].
  rewrite D1, D2, D3, D4. cbn [andb].
  unfold Str.digits_value. cbn [fold_left]. rewrite V1, V2, V3, V4.
  do 2 f_equal. Z.div_mod_to_equations. lia.
Qed.

Lemma alt_lit c r : Date.alternatives (Date.Lit c) (String c r) = [(0, r)].
Proof. simpl. now rewrite Ascii.eqb_refl. Qed.

Lemma alt_lit_other c a r :
  Ascii.eqb a c = false -> Date.alternatives (Date.Lit c) (String a r) = [].
Proof. intros H. simpl. now rewrite H. Qed.

(** ** Matching a format *)

Lemma hd_flat_map {A B} (f : A -> list B) l a x :
  hd_error l = Some a -> hd_error (f a) = Some x ->
  hd_error (flat_map f l) = Some x.
Proof.
  destruct l as [|a' l]; [discriminate|]. intros [= ->] H. simpl.
  destruct (f a); [discriminate|]. exact H.
Qed.

Lemma flat_map_nil {A B} (f : A -> list B) l :
  (forall a, In a l -> f a = []) -> flat_map f l = [].
Proof.
  induction l as [|a l IH]; simpl; intros H; [reflexivity|].
  rewrite (H a) by auto. apply IH. auto.
Qed.

Lemma matches_head d fmt s acc v r x :
  hd_error (Date.alternatives d s) = Some (v, r) ->
  hd_error (Date.matches fmt r (Date.set_field d v acc)) = Some x ->
  hd_error (Date.matches (d :: fmt) s acc) = Some x.
Proof.
  intros Ha Hm. cbn [Date.matches].
  now apply (hd_flat_map _ _ (v, r) x Ha).
Qed.

Lemma matches_single d fmt s acc v r :
  Date.alternatives d s = [(v, r)] ->
  Date.matches (d :: fmt) s acc = Date.matches fmt r (Date.set_field d v acc).
Proof. intros H. cbn [Date.matches]. rewrite H. simpl. apply app_nil_r. Qed.

Lemma matches_none d fmt s acc :
  (forall v r, In (v, r) (Date.alternatives d s) ->
               Date.matches fmt r (Date.set_field d v acc) = []) ->
  Date.matches (d :: fmt) s acc = [].
Proof.
  intros H. cbn [Date.matches]. apply flat_map_nil. intros [v r]. apply H.
Qed.

Lemma strptime_head s fmt d :
  hd_error (Date.matches (Date.compile fmt) s (Date.mkdate 1900 1 1)) = Some (d, "") ->
  Date.strptime s fmt =
  if Date.valid (Date.year d) (Date.month d) (Date.day d) then Ok d
  else Raise ValueError.
Proof.
  unfold Date.strptime. intros H.
  destruct (Date.matches _ s _) as [|[d' r] l]; [discriminate|].
  now injection H as -> ->.
Qed.

Lemma strptime_no_match s fmt :
  Date.matches (Date.compile fmt) s (Date.mkdate 1900 1 1) = [] ->
  Date.strptime s fmt = Raise ValueError.
Proof. unfold Date.strptime. now intros ->. Qed.

(** A date that [strptime] returns is a date of the calendar. *)
Lemma strptime_valid s fmt d :
  Date.strptime s fmt = Ok d ->
  Date.valid (Date.year d) (Date.month d) (Date.day d) = true.
Proof.
  unfold Date.strptime.
  destruct (Date.matches _ s _) as [|[d' [|]] l]; try discriminate.
  destruct (Date.valid _ _ _) eqn:E; [|discriminate].
  now intros [= <-].
Qed.

(** What a day or month directive leaves: the text after one character
    or after two. *)
Lemma two_chars_rest c lo hi a b t v r :
  In (v, r) (Date.two_chars c lo hi (String a (String b t))) -> r = t.
Proof.
  unfold Date.two_chars. destruct (_ && _); [|intros []].
  intros [[= _ <-]|[]]. reflexivity.
Qed.

Lemma one_char_rest lo hi a t v r :
  In (v, r) (Date.one_char lo hi (String a t)) -> r = t.
Proof.
  unfold Date.one_char. destruct (Date.in_range _ _ _); [|intros []].
  intros [[= _ <-]|[]]. reflexivity.
Qed.

Lemma day_or_month_rest d a b t v r :
  d = Date.Dir_d \/ d = Date.Dir_m ->
  In (v, r) (Date.alternatives d (String a (String b t))) ->
  r = String b t \/ r = t.
Proof.
  intros [-> | ->]; cbn [Date.alternatives]; rewrite !in_app_iff; intros H;
    repeat (destruct H as [H|H]);
    first [ right; now apply two_chars_rest in H
          | left; now apply one_char_rest in H ].
Qed.

(** A day or month directive followed by a separator cannot start a
    text whose second and third characters are digits. *)
Lemma day_or_month_then_sep d sep fmt a b c t acc :
  d = Date.Dir_d \/ d = Date.Dir_m ->
  Str.is_digit sep = false ->
  Str.is_digit b = true -> Str.is_digit c = true ->
  Date.matches (d :: Date.Lit sep :: fmt) (String a (String b (String c t))) acc = [].
Proof.
  intros Hd Hsep Hb Hc. apply matches_none. intros v r Hin.
  apply (day_or_month_rest d a b _ v r Hd) in Hin as [-> | ->];
    apply matches_none; intros v' r' Hin';
    rewrite alt_lit_other in Hin' by (now apply digit_not_sep); destruct Hin'.
Qed.

(** A year directive needs four digits. *)
Lemma year_needs_digits fmt a b c t acc :
  Str.is_digit c = false ->
  Date.matches (Date.Dir_Y :: fmt) (String a (String b (String c t))) acc = [].
Proof.
  intros Hc. apply matches_none. intros v r. cbn [Date.alternatives].
  destruct t as [|e t]; [intros []|].
  rewrite Hc. rewrite !andb_false_r. cbn [andb]. intros [].
Qed.

Lemma padded_2_digits n :
  0 <= n ->
  exists a b, Str.zero_padded 2 n = String a (String b "") /\
              Str.is_digit a = true /\ Str.is_digit b = true.
Proof.
  intros H. rewrite zero_padded_2. do 2 eexists. split; [reflexivity|].
  split; apply digit_char; apply Z.mod_pos_bound; lia.
Qed.

Lemma padded_4_digits n :
  0 <= n ->
  exists a b c e, Str.zero_padded 4 n = String a (String b (String c (String e ""))) /\
                  Str.is_digit a = true /\ Str.is_digit b = true /\
                  Str.is_digit c = true /\ Str.is_digit e = true.
Proof.
  intros H. rewrite zero_padded_4_digits. do 4 eexists. split; [reflexivity|].
  repeat split; apply digit_char; apply Z.mod_pos_bound; lia.
Qed.

(** Year, month, day with a separator. *)
Lemma match_year_month_day sep y m d acc :
  0 <= y <= 9999 -> 1 <= m <= 12 -> 1 <= d <= 31 ->
  hd_error (Date.matches [Date.Dir_Y; Date.Lit sep; Date.Dir_m; Date.Lit sep; Date.Dir_d]
              (Str.zero_padded 4 y ++ String sep
                 (Str.zero_padded 2 m ++ String sep (Str.zero_padded 2 d ++ ""))) acc)
  = Some (Date.mkdate y m d, "").
Proof.
  intros Hy Hm Hd.
  rewrite (matches_single _ _ _ _ _ _ (alt_year y _ Hy)).
  rewrite (matches_single _ _ _ _ _ _ (alt_lit sep _)).
  apply (matches_head _ _ _ _ m _ _ (alt_month m _ Hm)).
  rewrite (matches_single _ _ _ _ _ _ (alt_lit sep _)).
  apply (matches_head _ _ _ _ d _ _ (alt_day d _ Hd)).
  reflexivity.
Qed.

(** Two fields of a day and a month, then the year. *)
Lemma match_day_month_year dir1 dir2 f1 f2 y acc :
  hd_error (Date.alternatives dir1 (Str.zero_padded 2 f1 ++ String "/"
              (Str.zero_padded 2 f2 ++ String "/" (Str.zero_padded 4 y ++ ""))))
    = Some (f1, String "/" (Str.zero_padded 2 f2 ++ String "/" (Str.zero_padded 4 y ++ ""))) ->
  hd_error (Date.alternatives dir2
              (Str.zero_padded 2 f2 ++ String "/" (Str.zero_padded 4 y ++ "")))
    = Some (f2, String "/" (Str.zero_padded 4 y ++ "")) ->
  0 <= y <= 9999 ->
  hd_error (Date.matches [dir1; Date.Lit "/"; dir2; Date.Lit "/"; Date.Dir_Y]
              (Str.zero_padded 2 f1 ++ String "/"
                 (Str.zero_padded 2 f2 ++ String "/" (Str.zero_padded 4 y ++ ""))) acc)
  = Some (Date.set_field Date.Dir_Y y
            (Date.set_field dir2 f2 (Date.set_field dir1 f1 acc)), "").
Proof.
  intros H1 H2 Hy.
  apply (matches_head _ _ _ _ f1 _ _ H1).
  rewrite (matches_single _ _ _ _ _ _ (alt_lit "/" _)).
  apply (matches_head _ _ _ _ f2 _ _ H2).
  rewrite (matches_single _ _ _ _ _ _ (alt_lit "/" _)).
  rewrite (matches_single _ _ _ _ _ _ (alt_year y _ Hy)).
  reflexivity.
Qed.

(** A day above 12 is no month: the month directive takes its first
    digit only. *)
Lemma alt_month_above_12 d t v r :
  13 <= d <= 31 ->
  In (v, r) (Date.alternatives Date.Dir_m (Str.zero_padded 2 d ++ t)) ->
  exists c, Str.is_digit c = true /\ r = String c t.
Proof.
  intros H. revert v r. enumerate d H; intros v r Hin; simpl in Hin;
    destruct Hin as [[= _ <-]|[]]; eexists; (split; [|reflexivity]); reflexivity.
Qed.

Lemma day_month_year_rejects_day_in_the_middle m d y acc :
  0 <= m -> 13 <= d <= 31 ->
  Date.matches [Date.Dir_d; Date.Lit "/"; Date.Dir_m; Date.Lit "/"; Date.Dir_Y]
    (Str.zero_padded 2 m ++ String "/"
       (Str.zero_padded 2 d ++ String "/" (Str.zero_padded 4 y ++ ""))) acc = [].
Proof.
  intros Hm Hd.
  destruct (padded_2_digits m Hm) as (a & b & -> & Da & Db).
  cbn [append]. apply matches_none. intros v r Hin.
  apply (day_or_month_rest Date.Dir_d a b _ v r (or_introl eq_refl)) in Hin as [-> | ->].
  - apply matches_none. intros v' r' Hin'.
    rewrite alt_lit_other in Hin' by (now apply digit_not_sep). destruct Hin'.
  - rewrite (matches_single _ _ _ _ _ _ (alt_lit "/" _)).
    apply matches_none. intros v' r' Hin'.
    apply (alt_month_above_12 d _ v' r' Hd) in Hin' as (c & Dc & ->).
    apply matches_none. intros v'' r'' Hin''.
    rewrite alt_lit_other in Hin'' by (now apply digit_not_sep). destruct Hin''.
Qed.

(** ** [strip] on a text without whitespace *)

Lemma rstrip_cons c s :
  Str.is_space c = false -> Str.rstrip s = s -> Str.rstrip (String c s) = String c s.
Proof. intros Hc Hs. simpl. rewrite Hs, Hc. now destruct s. Qed.

Lemma strip_without_spaces s :
  (forall c, In c (list_ascii_of_string s) -> Str.is_space c = false) ->
  Str.strip s = s.
Proof.
  intros H. unfold Str.strip.
  assert (L : Str.lstrip s = s).
  { destruct s as [|c s]; [reflexivity|]. simpl. rewrite (H c); simpl; auto. }
  rewrite L. clear L.
  induction s as [|c s IH]; [reflexivity|].
  apply rstrip_cons; [apply H; simpl; auto|].
  apply IH. intros c' Hc'. apply H. simpl. auto.
Qed.

Lemma digit_not_space c : Str.is_digit c = true -> Str.is_space c = false.
Proof.
  unfold Str.is_digit, Str.is_space. intros H.
  apply andb_true_iff in H as [H1 H2].
  apply Z.leb_le in H1, H2.
  destruct (Z.leb_spec 9 (Str.code c)), (Z.leb_spec (Str.code c) 13),
           (Z.leb_spec 28 (Str.code c)), (Z.leb_spec (Str.code c) 32);
    simpl; try reflexivity; lia.
Qed.

(** ** The calendar *)

Lemma valid_ranges y m d :
  Date.valid y m d = true ->
  1 <= y <= 9999 /\ 1 <= m <= 12 /\ 1 <= d <= 31 /\ d <= Date.days_in_month y m.
Proof.
  unfold Date.valid. rewrite !andb_true_iff, !Z.leb_le.
  intros (((((Hy1 & Hy2) & Hm1) & Hm2) & Hd1) & Hd2).
  assert (Date.days_in_month y m <= 31).
  { unfold Date.days_in_month.
    destruct m as [|[[[|[]|]|[[]|[]|]|]|[[|[]|]|[[]|[]|]|]|]|]; try lia;
      destruct (Date.is_leap y); lia. }
  lia.
Qed.

Lemma valid_swapped y m d :
  Date.valid y m d = true -> d <= 12 -> Date.valid y d m = true.
Proof.
  intros H Hd. apply valid_ranges in H as (Hy & Hm & Hd' & _).
  unfold Date.valid. rewrite !andb_true_iff, !Z.leb_le.
  assert (28 <= Date.days_in_month y d).
  { unfold Date.days_in_month.
    destruct d as [|[[[|[]|]|[[]|[]|]|]|[[|[]|]|[[]|[]|]|]|]|]; try lia;
      destruct (Date.is_leap y); lia. }
  repeat split; lia.
Qed.

(** ** [strptime] on the four ways of writing a date *)

Lemma strptime_year_first y m d sep fmt :
  Date.compile fmt =
    [Date.Dir_Y; Date.Lit sep; Date.Dir_m; Date.Lit sep; Date.Dir_d] ->
  Date.valid y m d = true ->
  Date.strptime
    (Str.zero_padded 4 y ++ String sep (Str.zero_padded 2 m ++ String sep (Str.zero_padded 2 d)))
    fmt = Ok (Date.mkdate y m d).
Proof.
  intros Hc Hv. pose proof (valid_ranges _ _ _ Hv) as (Hy & Hm & Hd & _).
  rewrite (strptime_head _ _ (Date.mkdate y m d)).
  - cbn [Date.year Date.month Date.day]. now rewrite Hv.
  - rewrite Hc. change (Str.zero_padded 2 d) with (Str.zero_padded 2 d ++ "").
    apply match_year_month_day; lia.
Qed.

Lemma strptime_day_first y m d :
  Date.valid y m d = true ->
  Date.strptime
    (Str.zero_padded 2 d ++ String "/" (Str.zero_padded 2 m ++ String "/" (Str.zero_padded 4 y)))
    "%d/%m/%Y" =
  Ok (Date.mkdate y m d).
Proof.
  intros Hv. pose proof (valid_ranges _ _ _ Hv) as (Hy & Hm & Hd & _).
  rewrite (strptime_head _ _ (Date.mkdate y m d)).
  - cbn [Date.year Date.month Date.day]. now rewrite Hv.
  - change (Str.zero_padded 4 y) with (Str.zero_padded 4 y ++ "").
    change (Date.compile "%d/%m/%Y")
      with [Date.Dir_d; Date.Lit "/"; Date.Dir_m; Date.Lit "/"; Date.Dir_Y].
    rewrite (match_day_month_year Date.Dir_d Date.Dir_m d m y);
      [reflexivity | apply alt_day; lia | apply alt_month; lia | lia].
Qed.

Lemma strptime_month_first y m d :
  Date.valid y m d = true ->
  Date.strptime
    (Str.zero_padded 2 m ++ String "/" (Str.zero_padded 2 d ++ String "/" (Str.zero_padded 4 y)))
    "%m/%d/%Y" =
  Ok (Date.mkdate y m d).
Proof.
  intros Hv. pose proof (valid_ranges _ _ _ Hv) as (Hy & Hm & Hd & _).
  rewrite (strptime_head _ _ (Date.mkdate y m d)).
  - cbn [Date.year Date.month Date.day]. now rewrite Hv.
  - change (Str.zero_padded 4 y) with (Str.zero_padded 4 y ++ "").
    change (Date.compile "%m/%d/%Y")
      with [Date.Dir_m; Date.Lit "/"; Date.Dir_d; Date.Lit "/"; Date.Dir_Y].
    rewrite (match_day_month_year Date.Dir_m Date.Dir_d m d y);
      [reflexivity | apply alt_month; lia | apply alt_day; lia | lia].
Qed.

Lemma strptime_day_first_rejects y m d :
  0 <= m -> 13 <= d <= 31 ->
  Date.strptime
    (Str.zero_padded 2 m ++ String "/" (Str.zero_padded 2 d ++ String "/" (Str.zero_padded 4 y)))
    "%d/%m/%Y" = Raise ValueError.
Proof.
  intros Hm Hd. apply strptime_no_match.
  change (Str.zero_padded 4 y) with (Str.zero_padded 4 y ++ "").
  now apply day_month_year_rejects_day_in_the_middle.
Qed.

Lemma strptime_dashes_reject_slashes f1 rest :
  0 <= f1 ->
  Date.strptime (Str.zero_padded 2 f1 ++ String "/" rest) "%Y-%m-%d" = Raise ValueError.
Proof.
  intros H. apply strptime_no_match.
  destruct (padded_2_digits f1 H) as (a & b & -> & _).
  cbn [append]. now apply year_needs_digits.
Qed.

Lemma strptime_year_last_rejects_year_first y fmt dir1 rest tail :
  0 <= y ->
  dir1 = Date.Dir_d \/ dir1 = Date.Dir_m ->
  Date.compile fmt = dir1 :: Date.Lit "/" :: rest ->
  Date.strptime (Str.zero_padded 4 y ++ tail) fmt = Raise ValueError.
Proof.
  intros Hy Hd Hc. apply strptime_no_match. rewrite Hc.
  destruct (padded_4_digits y Hy) as (a & b & c & e & E & _ & Db & Dc & _).
  rewrite E. cbn [append].
  now apply day_or_month_then_sep.
Qed.

Lemma strptime_dashes_reject_year_slash y tail :
  0 <= y <= 9999 ->
  Date.strptime (Str.zero_padded 4 y ++ String "/" tail) "%Y-%m-%d" = Raise ValueError.
Proof.
  intros Hy. apply strptime_no_match.
  change (Date.compile "%Y-%m-%d")
    with [Date.Dir_Y; Date.Lit "-"; Date.Dir_m; Date.Lit "-"; Date.Dir_d].
  rewrite (matches_single _ _ _ _ _ _ (alt_year y _ Hy)).
  apply matches_none. intros v r Hin.
  rewrite alt_lit_other in Hin by reflexivity. destruct Hin.
Qed.

(** ** [parse_date] on the four ways of writing a date *)

Lemma chars_of_append s t :
  list_ascii_of_string (s ++ t) = (list_ascii_of_string s ++ list_ascii_of_string t)%list.
Proof. induction s as [|c s IH]; simpl; [reflexivity | now rewrite IH]. Qed.

Lemma padded_chars w : forall n c,
  In c (list_ascii_of_string (Str.zero_padded w n)) -> Str.is_digit c = true.
Proof.
  induction w as [|w IH]; intros n c; simpl; [intros []|].
  rewrite chars_of_append, in_app_iff. simpl. intros [H|[<-|[]]].
  - now apply IH with (n / 10).
  - apply digit_char. apply Z.mod_pos_bound. lia.
Qed.

Lemma written_no_space w1 w2 w3 a b c sep ch :
  Str.is_space sep = false ->
  In ch (list_ascii_of_string
           (Str.zero_padded w1 a ++ String sep
              (Str.zero_padded w2 b ++ String sep (Str.zero_padded w3 c)))) ->
  Str.is_space ch = false.
Proof.
  intros Hsep. rewrite chars_of_append. simpl. rewrite chars_of_append. simpl.
  rewrite !in_app_iff. simpl. rewrite !in_app_iff.
  intros [H|[<-|[H|[<-|H]]]]; try assumption;
    apply digit_not_space; eapply padded_chars; eassumption.
Qed.

Lemma parse_date_written w1 w2 w3 a b c sep :
  Str.is_space sep = false ->
  let v := Str.zero_padded w1 a ++ String sep
             (Str.zero_padded w2 b ++ String sep (Str.zero_padded w3 c)) in
  parse_date (Some v) = first_format v date_formats.
Proof.
  intros Hsep v. unfold parse_date.
  rewrite strip_without_spaces
    by (intros ch; apply (written_no_space w1 w2 w3 a b c sep ch Hsep)).
  destruct v eqn:E; [|reflexivity].
  reflexivity.
Qed.

(** X9.  [parse_date] reads back a date of the calendar written with
    zero-padded fields in each of its four formats, with one exception:
    month/day/year is read as such only when the day is above 12; with a
    day up to 12 the text also fits day/month/year, which is tried first,
    and the two fields are exchanged.  Whatever [parse_date] returns is a
    date of the calendar. *)
Theorem parse_date_reads_written_dates y m d :
  Date.valid y m d = true ->
  let Y := Str.zero_padded 4 y in
  let M := Str.zero_padded 2 m in
  let D := Str.zero_padded 2 d in
  parse_date (Some (Y ++ "-" ++ M ++ "-" ++ D)) = Some (Date.mkdate y m d) /\
  parse_date (Some (D ++ "/" ++ M ++ "/" ++ Y)) = Some (Date.mkdate y m d) /\
  parse_date (Some (M ++ "/" ++ D ++ "/" ++ Y)) =
    Some (if d <=? 12 then Date.mkdate y d m else Date.mkdate y m d) /\
  parse_date (Some (Y ++ "/" ++ M ++ "/" ++ D)) = Some (Date.mkdate y m d).
Proof.
  intros Hv Y M D.
  pose proof (valid_ranges _ _ _ Hv) as (Hy & Hm & Hd & _).
  assert (Hslash : Str.is_space "/" = false) by reflexivity.
  assert (Hdash : Str.is_space "-" = false) by reflexivity.
  split; [|split; [|split]].
  - change (Y ++ "-" ++ M ++ "-" ++ D) with (Y ++ String "-" (M ++ String "-" D)).
    unfold Y, M, D. rewrite (parse_date_written 4 2 2 y m d "-" Hdash).
    unfold date_formats. cbn [first_format].
    now rewrite (strptime_year_first y m d "-" "%Y-%m-%d" eq_refl Hv).
  - change (D ++ "/" ++ M ++ "/" ++ Y) with (D ++ String "/" (M ++ String "/" Y)).
    unfold Y, M, D. rewrite (parse_date_written 2 2 4 d m y "/" Hslash).
    unfold date_formats. cbn [first_format].
    rewrite strptime_dashes_reject_slashes by lia.
    now rewrite (strptime_day_first y m d Hv).
  - change (M ++ "/" ++ D ++ "/" ++ Y) with (M ++ String "/" (D ++ String "/" Y)).
    unfold Y, M, D. rewrite (parse_date_written 2 2 4 m d y "/" Hslash).
    unfold date_formats. cbn [first_format].
    rewrite strptime_dashes_reject_slashes by lia.
    destruct (Z.leb_spec d 12) as [Hle|Hgt].
    + now rewrite (strptime_day_first y d m (valid_swapped y m d Hv Hle)).
    + rewrite (strptime_day_first_rejects y m d) by lia.
      now rewrite (strptime_month_first y m d Hv).
  - change (Y ++ "/" ++ M ++ "/" ++ D) with (Y ++ String "/" (M ++ String "/" D)).
    unfold Y, M, D. rewrite (parse_date_written 4 2 2 y m d "/" Hslash).
    unfold date_formats. cbn [first_format].
    rewrite strptime_dashes_reject_year_slash by lia.
    rewrite (strptime_year_last_rejects_year_first y "%d/%m/%Y" Date.Dir_d
               [Date.Dir_m; Date.Lit "/"; Date.Dir_Y]) by (auto; lia).
    rewrite (strptime_year_last_rejects_year_first y "%m/%d/%Y" Date.Dir_m
               [Date.Dir_d; Date.Lit "/"; Date.Dir_Y]) by (auto; lia).
    now rewrite (strptime_year_first y m d "/" "%Y/%m/%d" eq_refl Hv).
Qed.

(** ** What [parse_date] returns *)

Lemma first_format_valid s fmts d :
  first_format s fmts = Some d ->
  Date.valid (Date.year d) (Date.month d) (Date.day d) = true.
Proof.
  induction fmts as [|fmt fmts IH]; simpl; [discriminate|].
  destruct (Date.strptime s fmt) as [d'|e] eqn:E; [|exact IH].
  intros [= <-]. now apply strptime_valid with s fmt.
Qed.

Lemma first_format_valid_of_parse val d :
  parse_date val = Some d ->
  Date.valid (Date.year d) (Date.month d) (Date.day d) = true.
Proof.
  destruct val as [v|]; [|discriminate]. unfold parse_date.
  destruct (negb (Str.nonempty v)); [discriminate|]. apply first_format_valid.
Qed.

Lemma first_format_empty : first_format "" date_formats = None.
Proof. reflexivity. Qed.

(** X8.  On ASCII text [parse_date] returns dates of the calendar only, does
    not depend on ASCII whitespace around the text, and returns none for
    an empty or blank text; for an absent text it returns none. *)
Theorem parse_date_returns_calendar_dates :
  (forall v d, ascii_text v = true -> parse_date (Some v) = Some d ->
               Date.valid (Date.year d) (Date.month d) (Date.day d) = true) /\
  (forall v, ascii_text v = true ->
             parse_date (Some (Str.strip v)) = parse_date (Some v)) /\
  parse_date None = None /\
  (forall v, ascii_text v = true -> Str.strip v = "" -> parse_date (Some v) = None).
Proof.
  assert (Hblank : forall v, Str.strip v = "" -> parse_date (Some v) = None).
  { intros v Hv. unfold parse_date. rewrite Hv.
    destruct (negb (Str.nonempty v)); [reflexivity | apply first_format_empty]. }
  split; [|split; [|split; [reflexivity | intros v _; apply Hblank]]].
  - intros v d _. apply first_format_valid_of_parse.
  - intros v _. destruct (Str.strip v) as [|c s] eqn:E.
    + now rewrite (Hblank v E).
    + unfold parse_date. rewrite <- E, strip_idem, E.
      destruct v; [discriminate E | reflexivity].
Qed.

(** ** Month keys and month labels *)

Lemma append_assoc_string (a b c : string) : (a ++ b) ++ c = a ++ (b ++ c).
Proof. induction a as [|x a IH]; simpl; [reflexivity | now rewrite IH]. Qed.

Lemma month_label_of_key y m :
  1 <= y <= 9999 -> 1 <= m <= 12 ->
  month_label (Str.zero_padded 4 y ++ "-" ++ Str.zero_padded 2 m) =
  Ok (Date.strftime_b (Date.mkdate y m 1)).
Proof.
  intros Hy Hm. unfold month_label.
  assert (L : String.length (Str.zero_padded 4 y ++ "-" ++ Str.zero_padded 2 m) = 7%nat)
    by (rewrite zero_padded_4_digits, zero_padded_2; reflexivity).
  assert (U : (Str.zero_padded 4 y ++ "-" ++ Str.zero_padded 2 m) <> "unknown").
  { apply (strftime_Y_m_shape (Date.mkdate y m 1)). }
  rewrite L. apply String.eqb_neq in U. rewrite U.
  replace (Str.nonempty _) with true
    by (rewrite zero_padded_4_digits; reflexivity).
  cbn [andb negb Z.of_nat Z.eqb Pos.of_succ_nat Pos.succ Pos.eqb].
  rewrite append_assoc_string.
  change (("-" ++ Str.zero_padded 2 m) ++ "-01")
    with (String "-" (Str.zero_padded 2 m ++ String "-" (Str.zero_padded 2 1))).
  rewrite (strptime_year_first y m 1 "-" "%Y-%m-%d" eq_refl); [reflexivity|].
  unfold Date.valid.
  rewrite !andb_true_iff, !Z.leb_le. repeat split; try lia.
  unfold Date.days_in_month.
  destruct m as [|[[[|[]|]|[[]|[]|]|]|[[|[]|]|[[]|[]|]|]|]|]; try lia;
    destruct (Date.is_leap y); lia.
Qed.

Lemma month_label_of_date dt :
  Date.valid (Date.year dt) (Date.month dt) (Date.day dt) = true ->
  month_label (Date.strftime_Y_m dt) = Ok (Date.strftime_b dt).
Proof.
  intros Hv. apply valid_ranges in Hv as (Hy & Hm & _).
  unfold Date.strftime_Y_m. now rewrite month_label_of_key.
Qed.

(** ** The order of month keys is the order of the calendar *)

Lemma append_nil_r_string (s : string) : s ++ "" = s.
Proof. induction s as [|c s IH]; simpl; [reflexivity | now rewrite IH]. Qed.

Lemma digit_char_compare a b :
  0 <= a < 10 -> 0 <= b < 10 ->
  Ascii.compare (ascii_of_N (Z.to_N (48 + a))) (ascii_of_N (Z.to_N (48 + b))) = (a ?= b).
Proof.
  intros Ha Hb. unfold Ascii.compare.
  rewrite !N_ascii_embedding by lia.
  rewrite (Z2N.inj_compare (48 + a) (48 + b)) by lia.
  apply Z.add_compare_mono_l.
Qed.

Lemma compare_padded w : forall a b s t,
  0 <= a < 10 ^ Z.of_nat w -> 0 <= b < 10 ^ Z.of_nat w ->
  String.compare (Str.zero_padded w a ++ s) (Str.zero_padded w b ++ t) =
  match a ?= b with
  | Eq => String.compare s t
  | c => c
  end.
Proof.
  induction w as [|w IH]; intros a b s t Ha Hb.
  - simpl in *. replace a with 0 by lia. replace b with 0 by lia. reflexivity.
  - rewrite Nat2Z.inj_succ, Z.pow_succ_r in Ha, Hb by lia.
    cbn [Str.zero_padded]. rewrite !append_assoc_string.
    rewrite IH by (split; [apply Z.div_pos | apply Z.div_lt_upper_bound]; lia).
    cbn [append String.compare].
    rewrite digit_char_compare by (apply Z.mod_pos_bound; lia).
    destruct (Z.compare_spec (a / 10) (b / 10)) as [E|E|E];
      destruct (Z.compare_spec (a mod 10) (b mod 10)) as [F|F|F];
      destruct (Z.compare_spec a b) as [G|G|G];
      try reflexivity; exfalso; Z.div_mod_to_equations; lia.
Qed.

(** X10.  Month keys sort as the months they stand for.  For two dates with
    years from 1000 to 9999, the key of the first is below the key of the
    second, in the order [sort] uses, exactly when its month comes
    earlier in the calendar; equal keys are equal months. *)
Theorem month_keys_sort_chronologically d1 d2 :
  1000 <= Date.year d1 <= 9999 -> 1000 <= Date.year d2 <= 9999 ->
  1 <= Date.month d1 <= 12 -> 1 <= Date.month d2 <= 12 ->
  (String.ltb (Date.strftime_Y_m d1) (Date.strftime_Y_m d2) = true <->
   Date.year d1 < Date.year d2 \/
   (Date.year d1 = Date.year d2 /\ Date.month d1 < Date.month d2)) /\
  (Date.strftime_Y_m d1 = Date.strftime_Y_m d2 <->
   Date.year d1 = Date.year d2 /\ Date.month d1 = Date.month d2).
Proof.
  intros Hy1 Hy2 Hm1 Hm2.
  assert (C : String.compare (Date.strftime_Y_m d1) (Date.strftime_Y_m d2) =
              match Date.year d1 ?= Date.year d2 with
              | Eq => Date.month d1 ?= Date.month d2
              | c => c
              end).
  { unfold Date.strftime_Y_m. rewrite compare_padded by (simpl; lia).
    destruct (Date.year d1 ?= Date.year d2); try reflexivity.
    cbn [append String.compare].
    change (Ascii.compare "-" "-") with Eq. cbv iota.
    rewrite <- (append_nil_r_string (Str.zero_padded 2 (Date.month d1))).
    rewrite <- (append_nil_r_string (Str.zero_padded 2 (Date.month d2))).
    rewrite compare_padded by (simpl; lia).
    now destruct (Date.month d1 ?= Date.month d2). }
  split.
  - unfold String.ltb. rewrite C.
    destruct (Z.compare_spec (Date.year d1) (Date.year d2));
      destruct (Z.compare_spec (Date.month d1) (Date.month d2));
      split; intros K; try discriminate; try reflexivity; lia.
  - split.
    + intros E. rewrite E in C.
      assert (R : String.compare (Date.strftime_Y_m d2) (Date.strftime_Y_m d2) = Eq).
      { clear. induction (Date.strftime_Y_m d2) as [|c s IH]; simpl; [reflexivity|].
        unfold Ascii.compare. now rewrite N.compare_refl. }
      rewrite R in C.
      destruct (Z.compare_spec (Date.year d1) (Date.year d2));
        destruct (Z.compare_spec (Date.month d1) (Date.month d2));
        try discriminate; lia.
    + intros [E1 E2]. unfold Date.strftime_Y_m. now rewrite E1, E2.
Qed.

(** ** How the analysis can fail *)

Lemma int_of_float_cases x :
  Prim2SF x <> S754_nan ->
  (Num.is_finite x = true /\ exists z, Num.int_of_float x = Ok z) \/
  (Num.is_finite x = false /\ Num.int_of_float x = Raise OverflowError).
Proof.
  unfold Num.is_finite, Num.int_of_float. intros H.
  destruct (Prim2SF x); [left | right | contradiction | left]; eauto.
Qed.

Lemma row_qty_cases rrow :
  exists x, to_float (row_get rrow "Quantity" (Some "0")) = Ok x /\
            ((Num.is_finite x = true /\ converts rrow) \/
             (Num.is_finite x = false /\ row_qty rrow = Raise OverflowError)).
Proof.
  unfold converts, row_qty.
  destruct (to_float_total (row_get rrow "Quantity" (Some "0"))) as [x Hx].
  exists x. split; [assumption|]. rewrite Hx. cbn [bind].
  destruct (int_of_float_cases x (to_float_not_nan _ _ Hx)) as [[F [z ->]]|[F ->]];
    eauto.
Qed.

Lemma growth_Ok rc rp :
  growth rc rp = Ok (if (0 <? rp)%float then ((rc - rp) / rp * 100)%float else 0%float).
Proof.
  unfold growth, Num.float_truediv.
  destruct (0 <? rp)%float eqn:Hp; [|reflexivity].
  now rewrite (FloatOrder.positive_not_zero rp Hp).
Qed.

Lemma int_truediv_cases a b :
  b <> 0 -> (exists q, Num.int_truediv a b = Ok q) \/
            Num.int_truediv a b = Raise OverflowError.
Proof.
  unfold Num.int_truediv. destruct b; [congruence| |]; intros _;
    destruct (Num.is_finite _); eauto.
Qed.

Lemma avg_qty_cases a :
  (exists q, avg_qty_of a = Ok q) \/ avg_qty_of a = Raise OverflowError.
Proof.
  unfold avg_qty_of.
  destruct (0 <? _); [|eauto].
  destruct (int_truediv_cases
              (fold_left Z.add
                 (map (fun m => Dict.get_default (qty_per_month a) m 0) (valid_months_of a)) 0)
              (Z.max 1 (Z.of_nat (List.length (valid_months_of a)))))
    as [[q ->] | ->]; [lia | left; simpl; eauto | now right].
Qed.

Lemma mapM_total {A B} (f : A -> result B) l :
  (forall x, In x l -> exists y, f x = Ok y) -> exists r, mapM f l = Ok r.
Proof.
  induction l as [|x l IH]; intros H; simpl; [eauto|].
  destruct (H x) as [y ->]; [simpl; auto|].
  destruct IH as [r ->]; [intros; apply H; simpl; auto|].
  simpl. eauto.
Qed.

Section Failures.
Variable fromisoformat : string -> result Date.date.
Variable DictReader : string -> result (list Row).

(** [datetime.fromisoformat] returns dates of the calendar. *)
Hypothesis iso_valid : forall s dt,
  fromisoformat s = Ok dt ->
  Date.valid (Date.year dt) (Date.month dt) (Date.day dt) = true.

Lemma invoice_date_valid rrow dt :
  invoice_date fromisoformat rrow = Some dt ->
  Date.valid (Date.year dt) (Date.month dt) (Date.day dt) = true.
Proof.
  unfold invoice_date, to_date.
  destruct (parse_date _) as [d|] eqn:E.
  - intros [= <-]. revert E. apply first_format_valid_of_parse.
  - destruct (fromisoformat _) as [d|] eqn:F; [|discriminate].
    intros [= <-]. now apply iso_valid with (1 := F).
Qed.

Lemma observed_month_of_row rows m :
  In m (observed_months fromisoformat rows) ->
  exists r dt, In r rows /\ invoice_date fromisoformat r = Some dt /\
               m = Date.strftime_Y_m dt.
Proof.
  unfold observed_months. intros H.
  apply (proj1 (sorted_In _ _ _)) in H. apply filter_In in H as [H Hk].
  apply new_keys_In in H as [H _]. apply in_map_iff in H as (r & Hr & Hin).
  exists r. unfold month_key in Hr.
  destruct (invoice_date fromisoformat r) as [dt|]; [eauto|].
  subst m. discriminate.
Qed.

Lemma observed_month_label rows m :
  In m (observed_months fromisoformat rows) ->
  exists r dt, In r rows /\ invoice_date fromisoformat r = Some dt /\
               month_label m = Ok (Date.strftime_b dt).
Proof.
  intros H. apply observed_month_of_row in H as (r & dt & Hr & Hd & ->).
  exists r, dt. repeat split; try assumption.
  apply month_label_of_date. now apply invoice_date_valid with r.
Qed.

Lemma summarise_of_avg rows a q :
  aggregate fromisoformat rows = Ok a -> avg_qty_of a = Ok q ->
  exists resp, summarise a = Ok resp.
Proof.
  intros Ha Hq. rewrite summarise_unfold, growth_Ok, Hq. cbn [bind].
  assert (Hm : forall m, In m (last_n 4 (valid_months_of a)) \/
                         In m (last_n 3 (valid_months_of a)) ->
                         In m (observed_months fromisoformat rows)).
  { rewrite (valid_months_observed fromisoformat rows a Ha).
    intros m [H|H]; now apply In_last_n in H. }
  destruct (mapM_total
              (fun m => label <- month_label m ;;
                        v <- Dict.index (revenue_per_month a) m ;;
                        Ok (label, PyFloat (Num.round2 v)))
              (last_n 4 (valid_months_of a))) as [t Ht].
  { intros m Hin. pose proof (Hm m (or_introl Hin)) as Ho.
    destruct (observed_month_label rows m Ho) as (_ & dt & _ & _ & ->).
    rewrite (revenue_index fromisoformat rows a m Ha Ho). simpl. eauto. }
  destruct (mapM_total
              (fun m => label <- month_label m ;;
                        Ok (label,
                            PyFloat (Num.round2
                              (Dict.get_default (engagement_per_month a) m 0%float))))
              (last_n 3 (valid_months_of a))) as [e He].
  { intros m Hin. pose proof (Hm m (or_intror Hin)) as Ho.
    destruct (observed_month_label rows m Ho) as (_ & dt & _ & _ & ->).
    simpl. eauto. }
  unfold trend_of, engagement_of. rewrite Ht, He. simpl. eauto.
Qed.

Lemma summarise_cases rows a :
  aggregate fromisoformat rows = Ok a ->
  (exists resp, summarise a = Ok resp) \/ summarise a = Raise OverflowError.
Proof.
  intros Ha. destruct (avg_qty_cases a) as [[q Hq] | Hq].
  - left. now apply summarise_of_avg with rows q.
  - right. now rewrite summarise_unfold, growth_Ok, Hq.
Qed.

Lemma aggregate_from_cases rows : forall a,
  (Forall converts rows /\ exists a', aggregate_from fromisoformat a rows = Ok a') \/
  (~ Forall converts rows /\
   aggregate_from fromisoformat a rows = Raise OverflowError).
Proof.
  induction rows as [|r rows IH]; intros a; simpl; [left; eauto|].
  rewrite step_fields.
  destruct (row_qty_cases r) as (x & _ & [[_ Hc] | [_ Hr]]).
  - pose proof Hc as [q Hq]. rewrite Hq. cbn [bind].
    destruct (IH (accumulate a (fields_of fromisoformat r)))
      as [[HF Hok] | [HF Hr]]; [left | right]; split; auto.
    intros H. inversion H; subst. contradiction.
  - right. rewrite Hr. split; [|reflexivity].
    intros H. inversion H as [|? ? [q Hq] _]; subst. congruence.
Qed.

Lemma analyse_cases rows :
  (exists resp, analyse fromisoformat rows = Ok resp) \/
  analyse fromisoformat rows = Raise OverflowError.
Proof.
  unfold analyse, aggregate.
  destruct (aggregate_from_cases rows empty_accumulators) as [[_ [a Ha]] | [_ Hr]].
  - rewrite Ha. cbn [bind]. apply (summarise_cases rows a Ha).
  - rewrite Hr. now right.
Qed.

(** X7.  The labels of the trends.  When every readable date has a year from
    1000 on (below, the C library decides how [strftime] writes the year),
    every entry of revenueTrend and engagementTrend is labelled with the
    abbreviated name of the month of some row's date, so never N/A. *)
Theorem trend_labels_are_month_names rows resp :
  (forall r dt, In r rows -> invoice_date fromisoformat r = Some dt ->
                1000 <= Date.year dt) ->
  analyse fromisoformat rows = Ok resp ->
  forall e, In e (revenueTrend resp) \/ In e (engagementTrend resp) ->
    exists r dt, In r rows /\ invoice_date fromisoformat r = Some dt /\
                 fst e = Date.strftime_b dt /\ fst e <> "N/A".
Proof.
  intros _ H e He. unfold analyse in H. apply bind_Ok in H as (a & Ha & Hs).
  apply summarise_Ok in Hs as (g & q & t & en & _ & _ & Ht & Hen & ->).
  cbn [revenueTrend engagementTrend] in He.
  assert (Hm : exists m, In m (observed_months fromisoformat rows) /\
                         month_label m = Ok (fst e)).
  { destruct He as [He|He].
    - pose proof (trend_entries fromisoformat rows a t Ha Ht) as F.
      destruct (Forall2_In_right _ _ _ e F He) as (m & Hin & Hl & _).
      exists m. split; [|assumption].
      now apply In_last_n in Hin.
    - pose proof (engagement_entries fromisoformat rows a en Ha Hen) as F.
      destruct (Forall2_In_right _ _ _ e F He) as (m & Hin & Hl & _).
      exists m. split; [|assumption].
      now apply In_last_n in Hin. }
  destruct Hm as (m & Hin & Hl).
  destruct (observed_month_label rows m Hin) as (r & dt & Hr & Hd & Hl').
  exists r, dt. rewrite Hl in Hl'. injection Hl' as ->.
  repeat split; try assumption.
  unfold Date.strftime_b.
  destruct (Date.month dt) as [|[[[|[]|]|[[]|[]|]|]|[[|[]|]|[[]|[]|]|]|]|]; discriminate.
Qed.

End Failures.

(** ** Whole numbers are read exactly *)

Lemma Zdiv_eucl_by_one z : Z.div_eucl z 1 = (z, 0).
Proof.
  pose proof (Z.div_1_r z) as Hq. pose proof (Z.mod_1_r z) as Hr.
  unfold Z.div, Z.modulo in Hq, Hr.
  destruct (Z.div_eucl z 1) as [q r]. simpl in *. now subst.
Qed.

Lemma SFdiv_core_by_one p :
  Zpos p < 2 ^ 53 ->
  SFdiv_core_binary prec emax (Zpos p) 0 1 0 =
  (Zpos (Pos.iter xO (mantissa_of p) 1), exponent_of p - 1, loc_Exact).
Proof.
  intros Hp. pose proof (small_digits p Hp) as Hd.
  pose proof (mantissa_of_value p Hp) as Hm.
  assert (Hpos : 0 < Zpos (digits2_pos p)) by lia.
  unfold SFdiv_core_binary, fexp, emin, Zdigits2, exponent_of.
  change (Zpos (digits2_pos 1)) with 1.
  replace (Z.min (Z.max (Zpos (digits2_pos p) + 0 - (1 + 0) - prec) (3 - emax - prec))
                 (0 - 0))
    with (Zpos (digits2_pos p) - 54) by (unfold prec, emax; lia).
  replace (0 - 0 - (Zpos (digits2_pos p) - 54)) with (54 - Zpos (digits2_pos p)) by lia.
  destruct (54 - Zpos (digits2_pos p)) as [|k|k] eqn:Ek; try lia.
  assert (Hv : Z.shiftl (Zpos p) (Zpos k) = Zpos (Pos.iter xO (mantissa_of p) 1)).
  { rewrite Z.shiftl_mul_pow2 by lia. rewrite Zpos_iter_xO, Hm.
    rewrite <- Z.mul_assoc, <- Z.pow_add_r by lia. f_equal. f_equal. lia. }
  rewrite Hv.
  rewrite (Zdiv_eucl_by_one (Zpos (Pos.iter xO (mantissa_of p) 1))).
  f_equal. f_equal. lia.
Qed.

Lemma SF_of_ratio_whole neg p :
  Zpos p < 2 ^ 53 ->
  Num.SF_of_ratio neg p 1 = S754_finite neg (mantissa_of p) (exponent_of p).
Proof.
  intros Hp. unfold Num.SF_of_ratio. rewrite (SFdiv_core_by_one p Hp).
  rewrite round_aux_shift.
  - f_equal. lia.
  - now apply mantissa_of_digits.
  - pose proof (exponent_of_range p Hp). lia.
Qed.

Lemma float_of_ratio_whole n :
  0 <= n < 2 ^ 53 -> Num.float_of_ratio false n 1 = float_of_Z n.
Proof.
  intros Hn. unfold Num.float_of_ratio, float_of_Z.
  destruct n as [|p|p]; [reflexivity | | lia].
  now rewrite SF_of_ratio_whole, SFZ_pos by lia.
Qed.

Lemma float_of_ratio_whole_neg n :
  0 < n < 2 ^ 53 -> Num.float_of_ratio true n 1 = float_of_Z (- n).
Proof.
  intros Hn. unfold Num.float_of_ratio, float_of_Z.
  destruct n as [|p|p]; try lia.
  change (- Zpos p) with (Zneg p).
  now rewrite SF_of_ratio_whole, SFZ_neg by lia.
Qed.

(** [int] of the float of a whole number below [2^53] is that number. *)
Lemma int_of_float_of_Z z :
  Z.abs z < 2 ^ 53 -> Num.int_of_float (float_of_Z z) = Ok z.
Proof.
  intros Hz. unfold Num.int_of_float. rewrite Prim2SF_float_of_Z by assumption.
  destruct (Z.eq_dec z 0) as [->|Hnz]; [reflexivity|].
  rewrite SFZ_nonzero by assumption.
  set (p := Z.to_pos (Z.abs z)).
  assert (Hp : Zpos p < 2 ^ 53) by (unfold p; lia).
  pose proof (small_digits p Hp) as Hd.
  pose proof (mantissa_of_value p Hp) as Hm.
  assert (Hs : match exponent_of p with
               | Zneg k => Z.shiftr (Zpos (mantissa_of p)) (Zpos k)
               | _ => Z.shiftl (Zpos (mantissa_of p)) (exponent_of p)
               end = Zpos p).
  { unfold exponent_of in *.
    destruct (Zpos (digits2_pos p) - 53) as [|k|k] eqn:Ek; try lia.
    - rewrite Z.shiftl_0_r, Hm. replace (53 - Zpos (digits2_pos p)) with 0 by lia. lia.
    - rewrite Z.shiftr_div_pow2, Hm by lia.
      replace (53 - Zpos (digits2_pos p)) with (Zpos k) by lia.
      apply Z.div_mul. apply Z.pow_nonzero; lia. }
  rewrite Hs. f_equal. unfold sign_of, p.
  destruct (Z.ltb_spec z 0); lia.
Qed.

Lemma float_of_str_digits s ds :
  Str.span_digits s = (ds, "") -> ds <> [] ->
  float_of_str s = Ok (Num.float_of_ratio false (Str.digits_value ds) 1).
Proof.
  intros Hs Hne. unfold float_of_str.
  assert (Hfirst : match s with String "-" r => (true, r) | _ => (false, s) end
                   = (false, s)).
  { destruct s as [|c r]; [reflexivity|].
    destruct (Ascii.eqb_spec c "-") as [->|Hc].
    - simpl in Hs. injection Hs as <- _. contradiction.
    - destruct c as [[] [] [] [] [] [] [] []]; try reflexivity. contradiction. }
  rewrite Hfirst, Hs. rewrite app_nil_r.
  destruct ds; [contradiction | reflexivity].
Qed.

Lemma float_of_str_minus_digits s ds :
  Str.span_digits s = (ds, "") -> ds <> [] ->
  float_of_str (String "-" s) = Ok (Num.float_of_ratio true (Str.digits_value ds) 1).
Proof.
  intros Hs Hne. unfold float_of_str. rewrite Hs, app_nil_r.
  destruct ds; [contradiction | reflexivity].
Qed.

Lemma to_float_of_remainder v :
  to_float (Some v) =
  Ok match float_of_str (CURRENCY_RE_sub v) with
     | Ok x => x
     | Raise _ => 0%float
     end.
Proof.
  unfold to_float. rewrite filter_strip.
  destruct (Str.nonempty (Str.strip v)) eqn:N; simpl.
  - destruct (Str.nonempty (CURRENCY_RE_sub v)) eqn:M.
    + destruct (float_of_str_cases (CURRENCY_RE_sub v)) as [[x ->] | ->]; reflexivity.
    + destruct (CURRENCY_RE_sub v); [reflexivity | discriminate].
  - assert (E : CURRENCY_RE_sub v = "").
    { rewrite <- filter_strip. destruct (Str.strip v); [reflexivity | discriminate]. }
    now rewrite E.
Qed.

Lemma span_digits_are_digits s : forall ds t,
  Str.span_digits s = (ds, t) -> Forall (fun c => Str.is_digit c = true) ds.
Proof.
  induction s as [|c s IH]; simpl; intros ds t.
  - intros [= <- _]. constructor.
  - destruct (Str.is_digit c) eqn:E; [|intros [= <- _]; constructor].
    destruct (Str.span_digits s) as [ds' t']. intros [= <- _].
    constructor; [assumption | now apply IH with t'].
Qed.

Lemma digits_value_nonneg ds :
  Forall (fun c => Str.is_digit c = true) ds -> 0 <= Str.digits_value ds.
Proof.
  unfold Str.digits_value. intros H.
  assert (G : forall acc, 0 <= acc ->
                0 <= fold_left (fun a c => 10 * a + Str.digit_value c) ds acc).
  { induction H as [|c l Hc _ IH]; intros acc Ha; cbn [fold_left]; [assumption|].
    apply IH. unfold Str.is_digit in Hc. unfold Str.digit_value.
    apply andb_true_iff in Hc as [Hc _]. apply Z.leb_le in Hc. lia. }
  apply G. lia.
Qed.

(** X11.  Whole numbers are read exactly.  When what [to_float] keeps of a
    cell is a run of digits that make a number below 2^53, with or without
    a minus sign in front, the result is that whole number as a float, and
    [int] of it gives the number back; so such an Amount is a whole amount
    and such a Quantity is read without error. *)
Theorem whole_numbers_are_read_exactly v ds :
  ds <> [] -> Str.digits_value ds < 2 ^ 53 ->
  let n := Str.digits_value ds in
  (Str.span_digits (CURRENCY_RE_sub v) = (ds, "") ->
   to_float (Some v) = Ok (float_of_Z n) /\
   Num.int_of_float (float_of_Z n) = Ok n /\
   (forall rrow, row_get rrow "Amount" (Some "0") = Some v ->
                 whole_amount rrow /\ amount_int rrow = n) /\
   (forall rrow, row_get rrow "Quantity" (Some "0") = Some v ->
                 row_qty rrow = Ok n)) /\
  (forall t, CURRENCY_RE_sub v = String "-" t -> Str.span_digits t = (ds, "") ->
             0 < n ->
             to_float (Some v) = Ok (float_of_Z (- n)) /\
             Num.int_of_float (float_of_Z (- n)) = Ok (- n) /\
             (forall rrow, row_get rrow "Amount" (Some "0") = Some v ->
                           whole_amount rrow /\ amount_int rrow = - n) /\
             (forall rrow, row_get rrow "Quantity" (Some "0") = Some v ->
                           row_qty rrow = Ok (- n))).
Proof.
  intros Hne Hb n.
  assert (Hrow : forall z, Z.abs z < 2 ^ 53 -> to_float (Some v) = Ok (float_of_Z z) ->
             Num.int_of_float (float_of_Z z) = Ok z /\
             (forall rrow, row_get rrow "Amount" (Some "0") = Some v ->
                           whole_amount rrow /\ amount_int rrow = z) /\
             (forall rrow, row_get rrow "Quantity" (Some "0") = Some v ->
                           row_qty rrow = Ok z)).
  { intros z Hz Hv. pose proof (int_of_float_of_Z z Hz) as Hi.
    split; [exact Hi|]. split.
    - intros rrow Hr.
      assert (A : amount_of rrow = float_of_Z z)
        by (unfold amount_of, row_amount; now rewrite Hr, Hv).
      assert (I : amount_int rrow = z) by (unfold amount_int; now rewrite A, Hi).
      split; [|exact I]. unfold whole_amount. now rewrite I.
    - intros rrow Hr. unfold row_qty. rewrite Hr, Hv. exact Hi. }
  split.
  - intros Hs.
    pose proof (digits_value_nonneg ds (span_digits_are_digits _ _ _ Hs)) as Hn.
    assert (Hv : to_float (Some v) = Ok (float_of_Z n)).
    { rewrite to_float_of_remainder, (float_of_str_digits _ ds Hs Hne).
      now rewrite float_of_ratio_whole by (fold n; lia). }
    split; [exact Hv|]. apply Hrow; [lia | exact Hv].
  - intros t Ht Hs Hpos.
    assert (Hv : to_float (Some v) = Ok (float_of_Z (- n))).
    { rewrite to_float_of_remainder, Ht, (float_of_str_minus_digits _ ds Hs Hne).
      now rewrite float_of_ratio_whole_neg by (fold n; lia). }
    split; [exact Hv|]. apply Hrow; [lia | exact Hv].
Qed.

(** ** The quantities behind avgQtyPerMonth *)

Lemma fold_left_add_zsum l : forall acc, fold_left Z.add l acc = acc + zsum l.
Proof.
  induction l as [|x l IH]; intros acc; simpl; [lia|]. rewrite IH. lia.
Qed.

Lemma zsum_map_add {K} (f g : K -> Z) ks :
  zsum (map (fun k => f k + g k) ks) = zsum (map f ks) + zsum (map g ks).
Proof. induction ks as [|k ks IH]; simpl in *; lia. Qed.

(** Summed over distinct keys, the weights of the elements with each
    key are the weights of the elements whose key is among the keys. *)
Lemma zsum_grouped {X} (key : X -> string) (w : X -> Z) keys :
  NoDup keys -> forall l,
  zsum (map (fun k => zsum (map w (List.filter (fun x => String.eqb (key x) k) l))) keys) =
  zsum (map w (List.filter (fun x => existsb (String.eqb (key x)) keys) l)).
Proof.
  intros Hnd. induction l as [|x l IH].
  - simpl. clear Hnd. induction keys; simpl; [reflexivity | assumption].
  - rewrite (map_ext _ (fun k => (if String.eqb (key x) k then w x else 0) +
                                 zsum (map w (List.filter
                                                (fun x => String.eqb (key x) k) l)))).
    2:{ intros k. cbn [List.filter].
        destruct (String.eqb (key x) k); [|lia].
        unfold zsum. cbn [map fold_right]. lia. }
    rewrite zsum_map_add, IH. clear IH.
    assert (F : zsum (map (fun k => if String.eqb (key x) k then w x else 0) keys) =
                if existsb (String.eqb (key x)) keys then w x else 0).
    { clear l. unfold zsum.
      induction Hnd as [|k ks Hk Hnd IH]; [reflexivity|].
      cbn [map fold_right existsb]. rewrite IH.
      destruct (String.eqb_spec (key x) k) as [<-|]; simpl; [|reflexivity].
      destruct (existsb (String.eqb (key x)) ks) eqn:E; [|lia].
      apply existsb_eqb_In in E. contradiction. }
    rewrite F. cbn [List.filter].
    destruct (existsb (String.eqb (key x)) keys); [|lia].
    unfold zsum. cbn [map fold_right]. lia.
Qed.

Section Quantities.
Variable fromisoformat : string -> result Date.date.

Lemma dated_iff_observed rows r :
  In r rows ->
  existsb (String.eqb (month_key fromisoformat r)) (observed_months fromisoformat rows)
  = dated fromisoformat r.
Proof.
  intros Hr. rewrite dated_known.
  destruct (known (month_key fromisoformat r)) eqn:K.
  - apply existsb_eqb_In. unfold observed_months.
    apply (proj2 (sorted_In _ _ _)). apply filter_In. split; [|exact K].
    apply new_keys_In. split; [now apply in_map | intros []].
  - destruct (existsb _ _) eqn:E; [|reflexivity].
    apply existsb_eqb_In in E. unfold observed_months in E.
    apply (proj1 (sorted_In _ _ _)) in E. apply filter_In in E as [_ E].
    unfold known in K. congruence.
Qed.

Lemma filter_ext_in' {A} (p q : A -> bool) l :
  (forall x, In x l -> p x = q x) -> List.filter p l = List.filter q l.
Proof.
  induction l as [|x l IH]; intros H; simpl; [reflexivity|].
  rewrite (H x) by (simpl; auto). rewrite IH by (intros; apply H; simpl; auto).
  reflexivity.
Qed.

Lemma month_quantities_add_up rows :
  fold_left Z.add
    (map (month_qty fromisoformat rows) (observed_months fromisoformat rows)) 0 =
  zsum (map qty_of (List.filter (dated fromisoformat) rows)).
Proof.
  rewrite fold_left_add_zsum, Z.add_0_l.
  rewrite (map_ext _ (fun m => zsum (map qty_of
             (List.filter (fun r => String.eqb (month_key fromisoformat r) m) rows)))).
  - rewrite zsum_grouped.
    + f_equal. f_equal. apply filter_ext_in'. apply dated_iff_observed.
    + unfold observed_months.
      apply (Permutation_NoDup (Permutation_sym (sorted_perm _ _))).
      apply NoDup_filter, new_keys_NoDup.
  - intros m. unfold month_qty. rewrite fold_left_add_zsum. unfold has_month. lia.
Qed.

(** X12.  avgQtyPerMonth is the quantity of the dated rows per observed month.
    In a computed response it is the sum of the Quantity of all rows with
    a readable date, divided by the number of distinct months among them
    (by 1 when there is none) and rounded to two decimals; rows without a
    readable date are not in the sum. *)
Theorem avg_qty_is_dated_quantity_per_month rows resp :
  analyse fromisoformat rows = Ok resp ->
  exists q,
    Num.int_truediv
      (zsum (map qty_of (List.filter (dated fromisoformat) rows)))
      (Z.max 1 (Z.of_nat (List.length (observed_months fromisoformat rows)))) = Ok q /\
    avgQtyPerMonth (kpis resp) = PyFloat (Num.round2 q) /\
    (forall r, In r rows -> row_qty r = Ok (qty_of r)).
Proof.
  intros H. unfold analyse in H. apply bind_Ok in H as (a & Ha & Hs).
  destruct (avg_qty_formula fromisoformat rows a resp Ha Hs) as (q & Hq & Hr).
  exists q. rewrite <- month_quantities_add_up. split; [exact Hq|]. split; [exact Hr|].
  apply aggregate_Ok in Ha as (HF & _). rewrite Forall_forall in HF.
  intros r Hin. destruct (HF r Hin) as [z Hz]. unfold qty_of. now rewrite Hz.
Qed.

End Quantities.

(** ** The columns that matter *)

Section Columns.
Variable fromisoformat : string -> result Date.date.

Lemma same_cells_get r r' k dflt :
  same_cells r r' -> In k columns_read -> row_get r k dflt = row_get r' k dflt.
Proof.
  intros H Hk. unfold row_get, Dict.get_default. now rewrite (H k Hk).
Qed.

Lemma same_cells_step a r r' :
  same_cells r r' -> step fromisoformat a r = step fromisoformat a r'.
Proof.
  intros H.
  unfold step, row_amount, row_qty, row_total_orders, category, month_key, invoice_date.
  rewrite (same_cells_get r r' "Amount" _ H) by (simpl; tauto).
  rewrite (same_cells_get r r' "Quantity" _ H) by (simpl; tauto).
  rewrite (same_cells_get r r' "TotalOrders" _ H) by (simpl; tauto).
  rewrite (same_cells_get r r' "Country" _ H) by (simpl; tauto).
  rewrite (same_cells_get r r' "PaymentMode" _ H) by (simpl; tauto).
  rewrite (same_cells_get r r' "InvoiceDate" _ H) by (simpl; tauto).
  reflexivity.
Qed.

(** X13.  The analysis reads six columns only.  Two sheets whose rows agree,
    one by one, on Amount, Quantity, TotalOrders, Country, PaymentMode and
    InvoiceDate give the same outcome, response or exception: no other
    column of the sheet, present or not, has any effect. *)
Theorem only_six_columns_are_read rows rows' :
  Forall2 same_cells rows rows' ->
  analyse fromisoformat rows = analyse fromisoformat rows'.
Proof.
  intros H. unfold analyse, aggregate. f_equal.
  generalize empty_accumulators.
  induction H as [|r r' rows rows' Hr _ IH]; intros a; simpl; [reflexivity|].
  rewrite (same_cells_step a r r' Hr).
  destruct (step fromisoformat a r') as [a'|e]; simpl; [apply IH | reflexivity].
Qed.

End Columns.

(** ** What [to_float] ignores *)

Lemma filter_append keep s t :
  Str.filter keep (s ++ t) = Str.filter keep s ++ Str.filter keep t.
Proof.
  induction s as [|c s IH]; simpl; [reflexivity|].
  destruct (keep c); simpl; now rewrite IH.
Qed.

Lemma filter_filter keep s : Str.filter keep (Str.filter keep s) = Str.filter keep s.
Proof.
  induction s as [|c s IH]; simpl; [reflexivity|].
  destruct (keep c) eqn:E; simpl; [rewrite E|]; now rewrite IH.
Qed.

(** X14.  [to_float] sees digits, points and minus signs only.  Any other
    character, wherever it stands in the text (a currency symbol, a
    thousands separator, a space, a letter such as the e of an exponent),
    can be removed without changing the result, which depends only on what
    the substitution leaves; and the result is never a NaN. *)
Theorem to_float_ignores_other_characters :
  (forall s c t, keeps_char c = false ->
                 to_float (Some (s ++ String c t)) = to_float (Some (s ++ t))) /\
  (forall v v', CURRENCY_RE_sub v = CURRENCY_RE_sub v' ->
                to_float (Some v) = to_float (Some v')) /\
  (forall v, to_float (Some (CURRENCY_RE_sub v)) = to_float (Some v)) /\
  (forall val, exists x, to_float val = Ok x /\ is_nan x = false).
Proof.
  assert (Hsame : forall v v', CURRENCY_RE_sub v = CURRENCY_RE_sub v' ->
                               to_float (Some v) = to_float (Some v')).
  { intros v v' H. now rewrite !to_float_of_remainder, H. }
  split; [|split; [exact Hsame | split]].
  - intros s c t Hc. apply Hsame. unfold CURRENCY_RE_sub.
    rewrite !filter_append. simpl. now rewrite Hc.
  - intros v. apply Hsame. apply filter_filter.
  - intros val. destruct (to_float_total val) as [x Hx]. exists x.
    split; [exact Hx|]. now apply not_nan_is_nan, to_float_not_nan with val.
Qed.

(** ** Every way the endpoint fails *)

Section EndpointFailures.
Variable fromisoformat : string -> result Date.date.
Variable DictReader : string -> result (list Row).

(** [datetime.fromisoformat] returns dates of the calendar. *)
Hypothesis iso_valid : forall s dt,
  fromisoformat s = Ok dt ->
  Date.valid (Date.year dt) (Date.month dt) (Date.day dt) = true.

Lemma avg_qty_of_rows rows a :
  aggregate fromisoformat rows = Ok a ->
  avg_qty_of a =
  (q <- Num.int_truediv
          (zsum (map qty_of (List.filter (dated fromisoformat) rows)))
          (Z.max 1 (Z.of_nat (List.length (observed_months fromisoformat rows)))) ;;
   Ok (PyFloat q)).
Proof.
  intros Ha. unfold avg_qty_of.
  rewrite (valid_months_observed fromisoformat rows a Ha).
  rewrite (map_ext _ (month_qty fromisoformat rows))
    by (intros m; apply (qty_lookup fromisoformat rows a m Ha)).
  rewrite month_quantities_add_up.
  destruct (Z.ltb_spec 0 (Z.max 1 (Z.of_nat
              (List.length (observed_months fromisoformat rows))))); [reflexivity | lia].
Qed.

(** X6.  The ways the endpoint fails.  With an ISO parser that returns dates
    of the calendar, the analysis of the rows either returns a response or
    raises OverflowError, and nothing else: no KeyError from
    [revenue_per_month[m]], no ValueError from [int] or from the
    [strptime] of [month_label], no division by zero.  A row makes it
    raise exactly when its Quantity reads as an infinity; when no row does,
    it raises exactly when the total quantity of the dated rows divided by
    the number of months is too large for a float.  The endpoint
    raises only after a fetch that answered 200: the error of the CSV
    reader, the HTTP error 422 on no rows, or that OverflowError. *)
Theorem the_analysis_fails_only_by_overflow :
  (forall rows e, analyse fromisoformat rows = Raise e -> e = OverflowError) /\
  (forall rrow,
      exists x, to_float (row_get rrow "Quantity" (Some "0")) = Ok x /\
                is_nan x = false /\
                (converts rrow <-> Num.is_finite x = true)) /\
  (forall rows, ~ Forall converts rows ->
                analyse fromisoformat rows = Raise OverflowError) /\
  (forall rows,
      Forall converts rows ->
      ((exists resp, analyse fromisoformat rows = Ok resp) <->
       exists q,
         Num.int_truediv
           (zsum (map qty_of (List.filter (dated fromisoformat) rows)))
           (Z.max 1 (Z.of_nat (List.length (observed_months fromisoformat rows))))
         = Ok q)) /\
  (forall r e,
      get_analysis fromisoformat DictReader r = Raise e ->
      exists text,
        r = FetchResponse 200 text /\
        (DictReader text = Raise e \/
         (DictReader text = Ok [] /\ e = HTTPException 422 "No rows in sheet") \/
         (exists rows, DictReader text = Ok rows /\ rows <> [] /\ e = OverflowError))).
Proof.
  assert (Hraise : forall rows e,
             analyse fromisoformat rows = Raise e -> e = OverflowError).
  { intros rows e H.
    destruct (analyse_cases fromisoformat iso_valid rows) as [[resp Hr] | Hr]; congruence. }
  split; [exact Hraise|]. split; [|split; [|split]].
  - intros rrow. destruct (row_qty_cases rrow) as (x & Hx & Hc). exists x.
    split; [assumption|]. split.
    + now apply not_nan_is_nan, to_float_not_nan with (1 := Hx).
    + destruct Hc as [[F C] | [F R]]; [tauto|].
      split; [intros [q Hq]; congruence | congruence].
  - intros rows HF. unfold analyse, aggregate.
    destruct (aggregate_from_cases fromisoformat rows empty_accumulators)
      as [[HF' _] | [_ ->]];
      [contradiction | reflexivity].
  - intros rows HF.
    pose proof (aggregate_from_converts fromisoformat rows empty_accumulators HF) as Ha.
    fold (aggregate fromisoformat rows) in Ha.
    set (a := fold_left _ rows empty_accumulators) in Ha.
    unfold analyse. rewrite Ha. cbn [bind].
    pose proof (avg_qty_of_rows rows a Ha) as Hq.
    split.
    + intros [resp Hs]. apply summarise_Ok in Hs as (_ & q & _ & _ & _ & Hq' & _).
      rewrite Hq in Hq'. apply bind_Ok in Hq' as (x & Hx & _). eauto.
    + intros [q Hx]. rewrite Hx in Hq. cbn [bind] in Hq.
      now apply (summarise_of_avg fromisoformat iso_valid rows a (PyFloat q)).
  - intros r e. unfold get_analysis, fetch_content.
    destruct r as [|status text]; [discriminate|].
    destruct (Z.eqb_spec status 200) as [->|]; simpl; [|discriminate].
    intros H. exists text. split; [reflexivity|].
    destruct (DictReader text) as [[|row rows]|e'] eqn:E; simpl in H.
    + right. left. split; congruence.
    + right. right. exists (row :: rows).
      split; [reflexivity|]. split; [discriminate|]. now apply Hraise with (row :: rows).
    + left. congruence.
Qed.

End EndpointFailures.

(** ** What the order of the rows cannot change *)

Lemma string_compare_refl s : String.compare s s = Eq.
Proof.
  induction s as [|c s IH]; simpl; [reflexivity|].
  unfold Ascii.compare. now rewrite N.compare_refl.
Qed.

Lemma string_ltb_irrefl s : String.ltb s s = false.
Proof. unfold String.ltb. now rewrite string_compare_refl. Qed.

(** Two ascending lists with the same elements are the same list. *)
Lemma ascending_unique l : forall l',
  StronglySorted (fun a b => String.ltb a b = true) l ->
  StronglySorted (fun a b => String.ltb a b = true) l' ->
  (forall x, In x l <-> In x l') -> l = l'.
Proof.
  induction l as [|a l IH]; intros [|b l'] Hs Hs' Hin.
  - reflexivity.
  - exfalso. apply (proj2 (Hin b)). simpl. auto.
  - exfalso. apply (proj1 (Hin a)). simpl. auto.
  - inversion Hs as [|? ? Hs1 Ha]; inversion Hs' as [|? ? Hs1' Hb]; subst.
    rewrite Forall_forall in Ha, Hb.
    assert (E : a = b).
    { destruct (proj1 (Hin a) (or_introl eq_refl)) as [E|Hab]; [now symmetry|].
      destruct (proj2 (Hin b) (or_introl eq_refl)) as [E|Hba]; [assumption|].
      pose proof (string_ltb_trans _ _ _ (Ha b Hba) (Hb a Hab)) as C.
      rewrite string_ltb_irrefl in C. discriminate. }
    subst b. f_equal. apply IH; try assumption.
    intros x. split; intros Hx.
    + destruct (proj1 (Hin x) (or_intror Hx)) as [<-|]; [|assumption].
      pose proof (Ha a Hx) as C. rewrite string_ltb_irrefl in C. discriminate.
    + destruct (proj2 (Hin x) (or_intror Hx)) as [<-|]; [|assumption].
      pose proof (Hb a Hx) as C. rewrite string_ltb_irrefl in C. discriminate.
Qed.

Lemma new_keys_perm ks ks' :
  Permutation ks ks' -> Permutation (new_keys ks []) (new_keys ks' []).
Proof.
  intros H. apply NoDup_Permutation; try apply new_keys_NoDup.
  intros x. rewrite !new_keys_In. split; intros [Hx Hn]; (split; [|assumption]).
  - now apply (Permutation_in _ H).
  - now apply (Permutation_in _ (Permutation_sym H)).
Qed.

Section RowOrder.
Variable fromisoformat : string -> result Date.date.

Lemma observed_months_perm rows rows' :
  Permutation rows rows' ->
  observed_months fromisoformat rows' = observed_months fromisoformat rows.
Proof.
  intros H. apply ascending_unique; try apply observed_months_ascending.
  intros m. unfold observed_months.
  split; intros Hm; apply (proj2 (sorted_In _ _ _));
    apply (proj1 (sorted_In _ _ _)) in Hm;
    apply filter_In in Hm as [Hm Hk]; apply filter_In; (split; [|assumption]);
    apply new_keys_In in Hm as [Hm _]; apply new_keys_In; (split; [|intros []]);
    revert Hm; apply Permutation_in; apply Permutation_map;
    [now symmetry | assumption].
Qed.

Lemma dated_quantity_perm rows rows' :
  Permutation rows rows' ->
  zsum (map qty_of (List.filter (dated fromisoformat) rows')) =
  zsum (map qty_of (List.filter (dated fromisoformat) rows)).
Proof.
  intros H. symmetry. apply zsum_map_perm. now apply Permutation_filter.
Qed.

Lemma payment_count_perm rows rows' p :
  Permutation rows rows' -> payment_count rows' p = payment_count rows p.
Proof.
  intros H. unfold payment_count. f_equal. symmetry.
  apply Permutation_length. now apply Permutation_filter.
Qed.

Lemma labels_of_trend rows a t :
  aggregate fromisoformat rows = Ok a -> trend_of a = Ok t ->
  mapM month_label (last_n 4 (observed_months fromisoformat rows)) = Ok (map fst t).
Proof.
  intros Ha Ht.
  apply (labels_of_entries
           (fun m => PyFloat (Num.round2 (month_revenue fromisoformat rows m)))).
  now apply trend_entries with a.
Qed.

Lemma labels_of_engagement rows a t :
  aggregate fromisoformat rows = Ok a -> engagement_of a = Ok t ->
  mapM month_label (last_n 3 (observed_months fromisoformat rows)) = Ok (map fst t).
Proof.
  intros Ha Ht.
  apply (labels_of_entries
           (fun m => PyFloat (Num.round2 (month_engagement fromisoformat rows m)))).
  now apply engagement_entries with a.
Qed.

(** The analysis of a month that has a label goes through. *)
Lemma trend_of_labelled rows a labels :
  aggregate fromisoformat rows = Ok a ->
  mapM month_label (last_n 4 (observed_months fromisoformat rows)) = Ok labels ->
  exists t, trend_of a = Ok t.
Proof.
  intros Ha Hl. unfold trend_of.
  rewrite (valid_months_observed fromisoformat rows a Ha).
  apply mapM_total. intros m Hm.
  apply mapM_Forall2 in Hl.
  destruct (Forall2_In_left _ _ _ m Hl Hm) as (label & _ & ->).
  rewrite (revenue_index fromisoformat rows a m Ha) by (now apply In_last_n in Hm).
  simpl. eauto.
Qed.

Lemma engagement_of_labelled rows a labels :
  aggregate fromisoformat rows = Ok a ->
  mapM month_label (last_n 3 (observed_months fromisoformat rows)) = Ok labels ->
  exists t, engagement_of a = Ok t.
Proof.
  intros Ha Hl. unfold engagement_of.
  rewrite (valid_months_observed fromisoformat rows a Ha).
  apply mapM_total. intros m Hm.
  apply mapM_Forall2 in Hl.
  destruct (Forall2_In_left _ _ _ m Hl Hm) as (label & _ & ->).
  simpl. eauto.
Qed.

(** X16.  What the order of the rows cannot change.  If the analysis of the
    rows returns a response, so does the analysis of every permutation of
    them, with the same observed months, the same avgQtyPerMonth, the same
    months in revenueTrend and in engagementTrend, and the same payment
    modes with the same counts (the order of equal counts apart). *)
Theorem month_figures_do_not_depend_on_row_order rows rows' resp :
  Permutation rows rows' ->
  analyse fromisoformat rows = Ok resp ->
  exists resp',
    analyse fromisoformat rows' = Ok resp' /\
    observed_months fromisoformat rows' = observed_months fromisoformat rows /\
    avgQtyPerMonth (kpis resp') = avgQtyPerMonth (kpis resp) /\
    map fst (revenueTrend resp') = map fst (revenueTrend resp) /\
    map fst (engagementTrend resp') = map fst (engagementTrend resp) /\
    Permutation (paymentDistribution resp') (paymentDistribution resp).
Proof.
  intros Hp H.
  pose proof (breakdown_values fromisoformat rows resp H) as ((Pv & Pp) & _).
  unfold analyse in H. apply bind_Ok in H as (a & Ha & Hs).
  pose proof (avg_qty_formula fromisoformat rows a resp Ha Hs) as (q & Hq & Hr).
  rewrite month_quantities_add_up in Hq.
  apply summarise_Ok in Hs as (g & q0 & t & e & _ & _ & Ht & He & Hresp).
  pose proof (labels_of_trend rows a t Ha Ht) as Lt.
  pose proof (labels_of_engagement rows a e Ha He) as Le.
  assert (Ha' : exists a', aggregate fromisoformat rows' = Ok a').
  { pose proof (aggregate_Ok _ _ _ Ha) as (HF & _).
    eexists. apply aggregate_from_converts.
    rewrite Forall_forall in *. intros r Hr'. apply HF.
    apply (Permutation_in _ (Permutation_sym Hp) Hr'). }
  destruct Ha' as [a' Ha'].
  pose proof (observed_months_perm rows rows' Hp) as Hm.
  rewrite <- Hm in Lt, Le.
  destruct (trend_of_labelled rows' a' _ Ha' Lt) as [t' Ht'].
  destruct (engagement_of_labelled rows' a' _ Ha' Le) as [e' He'].
  assert (Hq' : avg_qty_of a' = Ok (PyFloat q)).
  { unfold avg_qty_of.
    rewrite (valid_months_observed fromisoformat rows' a' Ha').
    rewrite (map_ext _ (month_qty fromisoformat rows'))
      by (intros m; apply (qty_lookup fromisoformat rows' a' m Ha')).
    rewrite month_quantities_add_up, (dated_quantity_perm rows rows' Hp), Hm, Hq.
    destruct (Z.ltb_spec 0 (Z.max 1 (Z.of_nat
                (List.length (observed_months fromisoformat rows)))));
      [reflexivity | lia]. }
  assert (Hs' : exists resp', summarise a' = Ok resp' /\
                  avgQtyPerMonth (kpis resp') = PyFloat (Num.round2 q) /\
                  revenueTrend resp' = t' /\ engagementTrend resp' = e').
  { rewrite summarise_unfold, growth_Ok, Hq', Ht', He'. cbn [bind].
    eexists. split; [reflexivity|]. repeat split. }
  destruct Hs' as (resp' & Hs' & Q' & T' & E').
  assert (H' : analyse fromisoformat rows' = Ok resp')
    by (unfold analyse; now rewrite Ha').
  assert (T0 : revenueTrend resp = t) by now rewrite Hresp.
  assert (E0 : engagementTrend resp = e) by now rewrite Hresp.
  exists resp'. split; [exact H'|]. split; [exact Hm|].
  split; [now rewrite Q', Hr|].
  pose proof (labels_of_trend rows' a' t' Ha' Ht') as Lt'.
  pose proof (labels_of_engagement rows' a' e' Ha' He') as Le'.
  split; [rewrite T', T0; congruence|]. split; [rewrite E', E0; congruence|].
  pose proof (breakdown_values fromisoformat rows' resp' H') as ((Pv' & Pp') & _).
  rewrite Pv', Pv.
  rewrite (map_ext (fun p => (p, PyInt (payment_count rows' p)))
                   (fun p => (p, PyInt (payment_count rows p))))
    by (intros p; now rewrite (payment_count_perm rows rows' p Hp)).
  apply Permutation_map.
  rewrite Pp', Pp. apply new_keys_perm. symmetry.
  unfold payments_of. now apply Permutation_map.
Qed.

End RowOrder.

(** ** The latest month *)

(** The keys of two dates compare as their years, then their months. *)
Lemma month_key_compare d1 d2 :
  0 <= Date.year d1 <= 9999 -> 0 <= Date.year d2 <= 9999 ->
  0 <= Date.month d1 <= 12 -> 0 <= Date.month d2 <= 12 ->
  String.compare (Date.strftime_Y_m d1) (Date.strftime_Y_m d2) =
  match Date.year d1 ?= Date.year d2 with
  | Eq => Date.month d1 ?= Date.month d2
  | c => c
  end.
Proof.
  intros Hy1 Hy2 Hm1 Hm2.
  unfold Date.strftime_Y_m. rewrite compare_padded by (simpl; lia).
  destruct (Date.year d1 ?= Date.year d2); try reflexivity.
  cbn [append String.compare].
  change (Ascii.compare "-" "-") with Eq. cbv iota.
  rewrite <- (append_nil_r_string (Str.zero_padded 2 (Date.month d1))).
  rewrite <- (append_nil_r_string (Str.zero_padded 2 (Date.month d2))).
  rewrite compare_padded by (simpl; lia).
  now destruct (Date.month d1 ?= Date.month d2).
Qed.

Lemma sorted_last_is_greatest (l : list string) x :
  StronglySorted (fun m m' => String.ltb m m' = true) (l ++ [x]) ->
  forall m, In m l -> String.ltb m x = true.
Proof.
  induction l as [|y l IH]; intros Hs; [intros ? []|].
  simpl in Hs. inversion Hs as [|? ? Hs' Hy]; subst.
  intros m [<-|Hin]; [|now apply IH].
  rewrite Forall_forall in Hy. apply Hy. apply in_or_app. simpl. auto.
Qed.

Section LatestMonth.
Variable fromisoformat : string -> result Date.date.

(** [datetime.fromisoformat] returns dates of the calendar. *)
Hypothesis iso_valid : forall s dt,
  fromisoformat s = Ok dt ->
  Date.valid (Date.year dt) (Date.month dt) (Date.day dt) = true.

Lemma invoice_date_ranges rrow dt :
  invoice_date fromisoformat rrow = Some dt ->
  1 <= Date.year dt <= 9999 /\ 1 <= Date.month dt <= 12.
Proof.
  intros H. apply (invoice_date_valid fromisoformat iso_valid) in H.
  apply valid_ranges in H. lia.
Qed.

Lemma row_month_observed rows r dt :
  In r rows -> invoice_date fromisoformat r = Some dt ->
  In (Date.strftime_Y_m dt) (observed_months fromisoformat rows).
Proof.
  intros Hr Hd. pose proof (dated_iff_observed fromisoformat rows r Hr) as E.
  unfold dated, month_key in E. rewrite Hd in E.
  now apply existsb_eqb_In in E.
Qed.

(** The rows under the key of [dt] are the rows dated in its month. *)
Lemma has_month_same_month dt r :
  1 <= Date.year dt <= 9999 -> 1 <= Date.month dt <= 12 ->
  has_month fromisoformat (Date.strftime_Y_m dt) r = same_month fromisoformat dt r.
Proof.
  intros Hy Hm. unfold has_month, same_month, month_key.
  destruct (invoice_date fromisoformat r) as [d'|] eqn:Hd.
  - destruct (invoice_date_ranges r d' Hd) as [Hy' Hm'].
    pose proof (month_key_compare d' dt) as C.
    rewrite (Bool.eq_iff_eq_true), String.eqb_eq, andb_true_iff, !Z.eqb_eq.
    split.
    + intros E. rewrite E in C. rewrite string_compare_refl in C.
      specialize (C ltac:(lia) ltac:(lia) ltac:(lia) ltac:(lia)).
      destruct (Z.compare_spec (Date.year d') (Date.year dt));
        destruct (Z.compare_spec (Date.month d') (Date.month dt));
        try discriminate; lia.
    + intros [E1 E2]. unfold Date.strftime_Y_m. now rewrite E1, E2.
  - destruct (String.eqb_spec "unknown" (Date.strftime_Y_m dt)) as [E|]; [|reflexivity].
    symmetry in E. now apply strftime_Y_m_shape in E.
Qed.

(** X3.  thisMonthRevenue is the revenue of the latest month in the data.
    When the InvoiceDate cells are ASCII text, every date read has a year
    from 1000 on and a row is dated in a month that no other row's date
    comes after, thisMonthRevenue of a computed response is the sum, in
    row order and rounded to two decimals, of the amounts of the rows
    dated in that year and month; it is 0 when no row has a readable
    date; and it is the value of the last entry of revenueTrend. *)
Theorem this_month_is_the_latest_observed rows resp :
  (forall r, In r rows ->
             ascii_cell (row_get r "InvoiceDate" (Some "")) = true) ->
  (forall r dt, In r rows -> invoice_date fromisoformat r = Some dt ->
                1000 <= Date.year dt) ->
  analyse fromisoformat rows = Ok resp ->
  (forall r dt,
      In r rows -> invoice_date fromisoformat r = Some dt ->
      (forall r' dt', In r' rows -> invoice_date fromisoformat r' = Some dt' ->
                      Date.year dt' < Date.year dt \/
                      (Date.year dt' = Date.year dt /\
                       Date.month dt' <= Date.month dt)) ->
      thisMonthRevenue (kpis resp) =
        PyFloat (Num.round2
                   (float_sum (map amount_of
                                   (List.filter (same_month fromisoformat dt) rows))))) /\
  ((forall r, In r rows -> invoice_date fromisoformat r = None) ->
   thisMonthRevenue (kpis resp) = PyFloat 0) /\
  last (map snd (revenueTrend resp)) (PyFloat 0) = thisMonthRevenue (kpis resp).
Proof.
  intros _ _ H. unfold analyse in H. apply bind_Ok in H as (a & Ha & Hs).
  apply summarise_Ok in Hs as (g & q & t & e & _ & _ & Ht & _ & ->).
  cbn [revenueTrend thisMonthRevenue kpis].
  pose proof (trend_entries fromisoformat rows a t Ha Ht) as Ft.
  assert (Hcur : forall earlier cur,
             observed_months fromisoformat rows = (earlier ++ [cur])%list ->
             this_month_revenue_of a = month_revenue fromisoformat rows cur).
  { intros earlier cur Hm. unfold this_month_revenue_of.
    rewrite (valid_months_observed fromisoformat rows a Ha), Hm, nth_from_end_1.
    rewrite or_str_Some_empty. apply (revenue_lookup fromisoformat rows a cur Ha). }
  assert (Hnone : observed_months fromisoformat rows = [] ->
                  this_month_revenue_of a = 0%float).
  { intros Hm. unfold this_month_revenue_of.
    rewrite (valid_months_observed fromisoformat rows a Ha), Hm.
    change (or_str (nth_from_end 1 []) "") with "".
    rewrite (revenue_lookup fromisoformat rows a "" Ha). apply month_revenue_empty. }
  split; [|split].
  - intros r dt Hr Hd Hlatest.
    destruct (invoice_date_ranges r dt Hd) as [Hy Hm].
    pose proof (row_month_observed rows r dt Hr Hd) as Hobs.
    pose proof (observed_months_ascending fromisoformat rows) as Hasc.
    destruct (observed_months fromisoformat rows) as [|m0 ms] eqn:Hmonths
      using rev_ind; [destruct Hobs|]. clear IHms.
    assert (Hlast : m0 = Date.strftime_Y_m dt).
    { apply in_app_or in Hobs as [Hin|[E|[]]]; [|exact E].
      apply (sorted_last_is_greatest ms m0 Hasc) in Hin.
      assert (Hm0 : In m0 (observed_months fromisoformat rows)).
      { rewrite Hmonths. apply in_or_app. simpl. auto. }
      apply (observed_month_of_row fromisoformat) in Hm0 as (r' & dt' & Hr' & Hd' & ->).
      destruct (invoice_date_ranges r' dt' Hd') as [Hy' Hm'].
      unfold String.ltb in Hin.
      rewrite (month_key_compare dt dt') in Hin by lia.
      specialize (Hlatest r' dt' Hr' Hd').
      destruct (Z.compare_spec (Date.year dt) (Date.year dt'));
        destruct (Z.compare_spec (Date.month dt) (Date.month dt'));
        try discriminate; lia. }
    rewrite (Hcur ms m0 eq_refl), Hlast. unfold month_revenue.
    rewrite (filter_ext_in (has_month fromisoformat (Date.strftime_Y_m dt))
                           (same_month fromisoformat dt) rows); [reflexivity|].
    intros x _. now apply has_month_same_month.
  - intros Hnodate. rewrite Hnone; [reflexivity|].
    destruct (observed_months fromisoformat rows) as [|m ms] eqn:Hmonths;
      [reflexivity|].
    assert (Hin : In m (observed_months fromisoformat rows))
      by (rewrite Hmonths; simpl; auto).
    apply (observed_month_of_row fromisoformat) in Hin as (r & dt & Hr & Hd & _).
    rewrite (Hnodate r Hr) in Hd. discriminate.
  - rewrite (values_of_entries
               (fun m => PyFloat (Num.round2 (month_revenue fromisoformat rows m)))
               _ _ Ft).
    destruct (observed_months fromisoformat rows) as [|m0 ms] eqn:Hm
      using rev_ind.
    + now rewrite (Hnone eq_refl).
    + rewrite (Hcur ms m0 eq_refl).
      rewrite <- last_n_map, last_last_n by lia.
      rewrite map_app. simpl. apply last_app_nonempty. discriminate.
Qed.

End LatestMonth.

(** ** The properties on the sheet over five months *)

Lemma iso_date_time_valid s dt :
  iso_date_time s = Ok dt ->
  Date.valid (Date.year dt) (Date.month dt) (Date.day dt) = true.
Proof.
  unfold iso_date_time. intros H.
  repeat match type of H with
         | context [match ?x with _ => _ end] =>
             match x with
             | _ && _ => fail 1
             | _ => destruct x; try discriminate H
             end
         end.
  all: destruct (forallb _ _ && Date.valid _ _ _ && _) eqn:E; [|discriminate].
  all: injection H as <-; apply andb_true_iff in E as [E _];
    apply andb_true_iff in E as [_ E]; exact E.
Qed.

Lemma five_month_years r dt :
  In r five_month_rows -> invoice_date iso_date_time r = Some dt ->
  1000 <= Date.year dt.
Proof.
  intros Hr. repeat (destruct Hr as [<-|Hr]; [vm_compute; intros [= <-]; discriminate|]).
  destruct Hr.
Qed.

Lemma five_month_dates_ascii r :
  In r five_month_rows -> ascii_cell (row_get r "InvoiceDate" (Some "")) = true.
Proof.
  intros Hr. repeat (destruct Hr as [<-|Hr]; [reflexivity|]). destruct Hr.
Qed.

Lemma five_month_analysis :
  exists resp, analyse iso_date_time five_month_rows = Ok resp.
Proof. eexists. vm_compute. reflexivity. Qed.

(** X2 at an example.  Five observed months: revenueTrend holds the last four, Feb to May,
    and engagementTrend the last three. *)
Lemma trends_are_windows_on_observed_months_witness :
  exists resp,
    analyse iso_date_time five_month_rows = Ok resp /\
    List.length (observed_months iso_date_time five_month_rows) = 5%nat /\
    List.length (revenueTrend resp) = 4%nat /\
    List.length (engagementTrend resp) = 3%nat /\
    map fst (engagementTrend resp) = last_n 3 (map fst (revenueTrend resp)).
Proof.
  destruct five_month_analysis as [resp H]. exists resp.
  destruct (trends_are_windows_on_observed_months iso_date_time five_month_rows resp H)
    as (_ & _ & _ & L4 & L3 & Hl).
  split; [exact H|]. split; [vm_compute; reflexivity|].
  split; [exact L4|]. split; [exact L3 | exact Hl].
Defined.

(** X3 at an example.  The latest month is May 2024, the month of the fifth row, with a
    revenue of 80. *)
Lemma this_month_is_the_latest_observed_witness :
  exists resp,
    analyse iso_date_time five_month_rows = Ok resp /\
    thisMonthRevenue (kpis resp) = PyFloat 80 /\
    last (map snd (revenueTrend resp)) (PyFloat 0) = thisMonthRevenue (kpis resp).
Proof.
  destruct five_month_analysis as [resp H]. exists resp.
  destruct (this_month_is_the_latest_observed
              iso_date_time iso_date_time_valid five_month_rows resp
              five_month_dates_ascii five_month_years H) as (Hcur & _ & Hlast).
  split; [exact H|]. split; [|exact Hlast].
  rewrite (Hcur (nth 4 five_month_rows []) (Date.mkdate 2024 5 7));
    [vm_compute; reflexivity | simpl; tauto | vm_compute; reflexivity |].
  intros r' dt' Hr' Hd'.
  repeat destruct Hr' as [<-|Hr']; [..|destruct Hr'];
    vm_compute in Hd'; try discriminate Hd';
    injection Hd' as <-; cbn [Date.year Date.month]; lia.
Defined.

(** X4 at an example.  Six rows, six payments counted. *)
Lemma payment_counts_add_up_to_the_rows_witness :
  exists resp,
    analyse iso_date_time five_month_rows = Ok resp /\
    zsum (map (payment_count five_month_rows) (map fst (paymentDistribution resp))) = 6.
Proof.
  destruct five_month_analysis as [resp H]. exists resp. split; [exact H|].
  now destruct (payment_counts_add_up_to_the_rows iso_date_time five_month_rows resp H)
    as (_ & _ & _ & _ & Hsum).
Defined.

(** X5 at an example.  The padded cell and the empty cell of the Country column. *)
Lemma breakdown_names_are_stripped_witness :
  category [("Country", Some " India ")] "Country" = "India" /\
  category [("Country", Some "")] "Country" = "Unknown" /\
  category [("Amount", Some "1")] "Country" = "Unknown" /\
  exists resp,
    analyse iso_date_time five_month_rows = Ok resp /\
    forall name, In name (map fst (countrySales resp)) ->
                 name <> "" /\ Str.strip name = name.
Proof.
  destruct (breakdown_names_are_stripped iso_date_time
              [("Country", Some " India ")] "Country") as (_ & H1 & _).
  destruct (breakdown_names_are_stripped iso_date_time
              [("Country", Some "")] "Country") as (_ & H2 & _).
  destruct (breakdown_names_are_stripped iso_date_time
              [("Amount", Some "1")] "Country") as (H3 & _ & Hresp).
  split; [apply (H1 " India "); reflexivity|].
  split; [apply (H2 ""); reflexivity|].
  split; [apply H3; reflexivity|].
  destruct five_month_analysis as [resp H]. exists resp. split; [exact H|].
  intros name Hn. apply (Hresp five_month_rows resp name); [|exact H | now left].
  intros r Hr. repeat destruct Hr as [<-|Hr]; [split; reflexivity ..|destruct Hr].
Defined.

(** X6 at an example.  The row whose Quantity is beyond every float. *)
Lemma the_analysis_fails_only_by_overflow_witness :
  analyse iso_date_time overflow_rows = Raise OverflowError /\
  forall r e,
    get_analysis iso_date_time plain_DictReader r = Raise e ->
    exists text, r = FetchResponse 200 text.
Proof.
  destruct (the_analysis_fails_only_by_overflow iso_date_time plain_DictReader
              iso_date_time_valid) as (_ & _ & Hrows & _ & Hend).
  split.
  - apply Hrows. intros HF. inversion HF as [|? ? [q Hq] _]; subst.
    vm_compute in Hq. discriminate.
  - intros r e H. destruct (Hend r e H) as (text & -> & _). now exists text.
Defined.

(** X7 at an example.  The labels of the sheet over five months. *)
Lemma trend_labels_are_month_names_witness :
  exists resp,
    analyse iso_date_time five_month_rows = Ok resp /\
    forall e, In e (revenueTrend resp) -> fst e <> "N/A".
Proof.
  destruct five_month_analysis as [resp H]. exists resp. split; [exact H|].
  intros e He.
  destruct (trend_labels_are_month_names iso_date_time iso_date_time_valid
              five_month_rows resp five_month_years H e (or_introl He))
    as (_ & _ & _ & _ & _ & Hna).
  exact Hna.
Defined.

(** X8 at an example.  A text with spaces around a date, and a 31st of February. *)
Lemma parse_date_returns_calendar_dates_witness :
  parse_date (Some "  2024-03-05 ") = Some (Date.mkdate 2024 3 5) /\
  Date.valid 2024 3 5 = true /\
  parse_date (Some "31/02/2024") = None /\
  parse_date (Some "   ") = None.
Proof.
  destruct parse_date_returns_calendar_dates as (Hvalid & Hstrip & _ & Hblank).
  assert (H : parse_date (Some "  2024-03-05 ") = Some (Date.mkdate 2024 3 5)).
  { rewrite <- Hstrip; vm_compute; reflexivity. }
  split; [exact H|]. split; [exact (Hvalid "  2024-03-05 " _ eq_refl H)|].
  split; [vm_compute; reflexivity | apply Hblank; reflexivity].
Defined.

(** X9 at an example.  The 5th of March and the 25th of March 2024. *)
Lemma parse_date_reads_written_dates_witness :
  parse_date (Some "2024-03-05") = Some (Date.mkdate 2024 3 5) /\
  parse_date (Some "05/03/2024") = Some (Date.mkdate 2024 3 5) /\
  parse_date (Some "03/05/2024") = Some (Date.mkdate 2024 5 3) /\
  parse_date (Some "03/25/2024") = Some (Date.mkdate 2024 3 25) /\
  parse_date (Some "2024/03/25") = Some (Date.mkdate 2024 3 25).
Proof.
  destruct (parse_date_reads_written_dates 2024 3 5 eq_refl) as (H1 & H2 & H3 & _).
  destruct (parse_date_reads_written_dates 2024 3 25 eq_refl) as (_ & _ & H4 & H5).
  repeat split; assumption.
Defined.

(** X10 at an example.  December 2023 comes before January 2024. *)
Lemma month_keys_sort_chronologically_witness :
  String.ltb (Date.strftime_Y_m (Date.mkdate 2023 12 31))
             (Date.strftime_Y_m (Date.mkdate 2024 1 1)) = true.
Proof.
  apply (month_keys_sort_chronologically
           (Date.mkdate 2023 12 31) (Date.mkdate 2024 1 1));
    simpl; lia.
Defined.

(** X11 at an example.  The cell $1,234 is read as 1234. *)
Lemma whole_numbers_are_read_exactly_witness :
  to_float (Some "$1,234") = Ok (float_of_Z 1234) /\
  Num.int_of_float (float_of_Z 1234) = Ok 1234.
Proof.
  destruct (whole_numbers_are_read_exactly "$1,234" ["1"; "2"; "3"; "4"]%char)
    as [H _]; [discriminate | vm_compute; reflexivity |].
  destruct H as (H1 & H2 & _); [reflexivity|].
  split; [exact H1 | exact H2].
Defined.

(** X12 at an example.  Eleven units over five months. *)
Lemma avg_qty_is_dated_quantity_per_month_witness :
  exists resp q,
    analyse iso_date_time five_month_rows = Ok resp /\
    Num.int_truediv 11 5 = Ok q /\
    avgQtyPerMonth (kpis resp) = PyFloat (Num.round2 q).
Proof.
  destruct five_month_analysis as [resp H].
  destruct (avg_qty_is_dated_quantity_per_month iso_date_time five_month_rows resp H)
    as (q & Hq & Hr & _).
  exists resp, q. split; [exact H|]. split; [exact Hq | exact Hr].
Defined.

(** X13 at an example.  The sheet with an Email column gives the same outcome. *)
Lemma only_six_columns_are_read_witness :
  analyse iso_date_time five_month_rows =
  analyse iso_date_time five_month_rows_with_email.
Proof.
  apply only_six_columns_are_read.
  unfold five_month_rows_with_email.
  induction five_month_rows as [|r rows IH]; simpl; constructor; [|exact IH].
  intros k Hk. simpl in Hk.
  repeat (destruct Hk as [<-|Hk]; [reflexivity|]). destruct Hk.
Defined.

(** X14 at an example.  A currency symbol, a separator and the letter of an exponent. *)
Lemma to_float_ignores_other_characters_witness :
  to_float (Some "1,234") = to_float (Some "1234") /\
  to_float (Some "1e5") = to_float (Some "15").
Proof.
  destruct to_float_ignores_other_characters as (H & _).
  split.
  - apply (H "1" ","%char "234"). reflexivity.
  - apply (H "1" "e"%char "5"). reflexivity.
Defined.

(** X16 at an example.  The sheet over five months, read from the last row to the first. *)
Lemma month_figures_do_not_depend_on_row_order_witness :
  exists resp resp',
    analyse iso_date_time five_month_rows = Ok resp /\
    analyse iso_date_time (rev five_month_rows) = Ok resp' /\
    avgQtyPerMonth (kpis resp') = avgQtyPerMonth (kpis resp) /\
    map fst (revenueTrend resp') = map fst (revenueTrend resp).
Proof.
  destruct five_month_analysis as [resp H].
  destruct (month_figures_do_not_depend_on_row_order iso_date_time
              five_month_rows (rev five_month_rows) resp (Permutation_rev _) H)
    as (resp' & H' & _ & Hq & Ht & _).
  exists resp, resp'. repeat split; assumption.
Defined.

(** ** The database probe *)

Lemma length_prefix n s : (String.length (Probe.prefix n s) <= n)%nat.
Proof.
  unfold Probe.prefix. revert s.
  induction n as [|n IH]; intros [|c s]; simpl; try lia.
  specialize (IH s). lia.
Qed.

(** X15.  What [test_database] reports.  The fields database_url and
    database_name say only whether the environment variables DATABASE_URL
    and DATABASE_NAME are set and not empty: what the [try] block stores
    there (Configured, [db.name]) is always overwritten.  The field
    collections holds the first ten collection names at most, and holds
    any only when the database field says Connected & Working, which it
    does exactly when the import gave a database whose collections could
    be listed.  The field connection_status says Connected exactly when
    the import gave a database object, whether or not its collections
    could be listed.  An error text of ASCII characters is cut after 50
    characters. *)
Theorem test_database_report imp getenv :
  let r := Probe.test_database imp getenv in
  Probe.backend r = "✅ Running" /\
  Probe.database_url r =
    Some (if Probe.is_set (getenv "DATABASE_URL") then "✅ Set" else "❌ Not Set") /\
  Probe.database_name r =
    Some (if Probe.is_set (getenv "DATABASE_NAME") then "✅ Set" else "❌ Not Set") /\
  (List.length (Probe.collections r) <= 10)%nat /\
  (forall db names,
      imp = Probe.Imported (Some db) ->
      Probe.list_collection_names db = inr names ->
      Probe.collections r = firstn 10 names) /\
  (Probe.database r = "✅ Connected & Working" <->
   exists db names, imp = Probe.Imported (Some db) /\
                    Probe.list_collection_names db = inr names) /\
  (Probe.collections r <> [] -> Probe.database r = "✅ Connected & Working") /\
  (Probe.connection_status r = "Connected" <->
   exists db, imp = Probe.Imported (Some db)) /\
  (forall message,
      imp = Probe.Exception_raised message -> ascii_text message = true ->
      Probe.database r = "❌ Error: " ++ Probe.prefix 50 message /\
      (String.length (Probe.prefix 50 message) <= 50)%nat).
Proof.
  intros r. subst r.
  split; [destruct imp as [| |[[n [m|names]]|]]; reflexivity|].
  split; [reflexivity|]. split; [reflexivity|].
  split.
  { destruct imp as [| |[[n [m|names]]|]];
      cbv [Probe.test_database Probe.probe Probe.initial Probe.set_database
           Probe.set_database_url Probe.set_database_name
           Probe.set_connection_status Probe.set_collections Probe.collections
           Probe.list_collection_names];
      cbn [List.length]; try lia.
    rewrite length_firstn. lia. }
  split.
  { intros db names -> H. simpl. now rewrite H. }
  split.
  { split.
    - destruct imp as [| |[[n [m|names]]|]]; simpl; try discriminate.
      intros _. do 2 eexists. split; reflexivity.
    - intros (db & names & -> & H). simpl. now rewrite H. }
  split.
  { destruct imp as [| |[[n [m|names]]|]]; simpl; congruence. }
  split.
  { split.
    - destruct imp as [| |[db|]]; simpl; try discriminate; eauto.
    - intros (db & ->). simpl. now destruct (Probe.list_collection_names db). }
  intros message -> _. split; [reflexivity | apply length_prefix].
Qed.

(** X15 at an example.  Twelve collections, of which ten are reported,
    and an environment without DATABASE_NAME; an error text of 56
    characters, of which 50 are reported. *)
Lemma test_database_report_witness :
  let r := Probe.test_database (Probe.Imported (Some twelve_collections)) url_only in
  (List.length (Probe.collections r) = 10%nat /\
   Probe.database r = "✅ Connected & Working" /\
   Probe.connection_status r = "Connected" /\
   Probe.database_url r = Some "✅ Set" /\
   Probe.database_name r = Some "❌ Not Set") /\
  Probe.database
    (Probe.test_database
       (Probe.Exception_raised
          "connection to the server at localhost:27017 was refused.")
       url_only) =
  "❌ Error: connection to the server at localhost:27017 was re".
Proof.
  intros r. split; [|
    destruct (test_database_report
                (Probe.Exception_raised
                   "connection to the server at localhost:27017 was refused.")
                url_only) as (_ & _ & _ & _ & _ & _ & _ & _ & Herr);
    exact (proj1 (Herr _ eq_refl eq_refl))].
  destruct (test_database_report (Probe.Imported (Some twelve_collections)) url_only)
    as (_ & Hurl & Hname & _ & Hcols & Hdb & _ & Hconn & _).
  fold r in Hurl, Hname, Hcols, Hdb, Hconn.
  split; [rewrite (Hcols twelve_collections _ eq_refl eq_refl); reflexivity|].
  split; [apply Hdb; exists twelve_collections; eexists; split; reflexivity|].
  split; [apply Hconn; now exists twelve_collections|].
  split; [exact Hurl | exact Hname].
Defined.
